(** * agent-audit: a shallow embedding of the estimator, the lint engine and
      the workflow normalizers, with the properties checked against them.

    The development follows the layout of the Python package:
    - the Python run-time notions the code relies on (exceptions, binary64
      floats, dynamically typed YAML values);
    - [config.py], [models.py], [pricing.py], [estimator.py];
    - [rules/] (the registry and the four rule modules) and [linter.py];
    - [parsers/] (format detection, the four normalizers and the dispatch);
    - the pricing loader and its cache, [comparator.py];
    - the properties. *)

From Stdlib Require Import ZArith List String Ascii Bool Lia DecimalString.
From Stdlib Require Import Floats.SpecFloat.
Import ListNotations.
Set Warnings "-register-all".
Local Open Scope string_scope.
Local Open Scope list_scope.
Local Open Scope Z_scope.

(** String concatenation is written [+++], list concatenation [++]. *)
Local Infix "+++" := String.append (at level 60, right associativity).

(* ================================================================== *)
(** * Python run time *)
(* ================================================================== *)

(** ** Exceptions and fallible computations *)

(** The exception classes that the modelled code can raise.  [PricingError]
    is the package's own ([exceptions.py]); [ValidationError] is pydantic's;
    the others are built in. *)
Inductive exn : Type :=
| TypeError
| ValueError
| AttributeError
| OverflowError
| ZeroDivisionError
| RecursionError
| ValidationError
| PricingError.

Inductive result (A : Type) : Type :=
| Ok (a : A)
| Raise (e : exn).
Arguments Ok {A} a.
Arguments Raise {A} e.

Definition bind {A B : Type} (r : result A) (k : A -> result B) : result B :=
  match r with
  | Ok a => k a
  | Raise e => Raise e
  end.

Notation "x <- e ;; k" := (bind e (fun x => k))
  (at level 61, e at next level, right associativity).

(** [[f(x) for x in xs]] where [f] may raise: the first exception wins. *)
Fixpoint mapM {A B : Type} (f : A -> result B) (xs : list A) : result (list B) :=
  match xs with
  | [] => Ok []
  | x :: rest =>
      y <- f x ;;
      ys <- mapM f rest ;;
      Ok (y :: ys)
  end.

Definition is_ok {A : Type} (r : result A) : bool :=
  match r with
  | Ok _ => true
  | Raise _ => false
  end.

(** ** Strings *)

(** A Python [str] is modelled by [string]; one [ascii] stands for one
    character. *)

(** The one-character string that holds a backslash. *)
Definition backslash : string := String (ascii_of_nat 92) EmptyString.

(** [needle in haystack]. *)
Definition str_contains (needle haystack : string) : bool :=
  match index 0 needle haystack with
  | Some _ => true
  | None => false
  end.

(** [sep.join(parts)]. *)
Fixpoint str_join (sep : string) (parts : list string) : string :=
  match parts with
  | [] => ""
  | [p] => p
  | p :: rest => p +++ sep +++ str_join sep rest
  end.

(** [str(i)] for an [int]. *)
Definition str_of_int (z : Z) : string :=
  NilZero.string_of_int (Z.to_int z).

(** [str(i)] for an index produced by [enumerate]. *)
Definition str_of_index (n : nat) : string :=
  str_of_int (Z.of_nat n).

(** [s[:n]]. *)
Definition str_take (n : nat) (s : string) : string :=
  substring 0 n s.

(** The characters of a string, as iterating over a [str] yields them. *)
Fixpoint str_chars (s : string) : list string :=
  match s with
  | EmptyString => []
  | String c rest => String c EmptyString :: str_chars rest
  end.

(** [x in xs] for a tuple, list or set of strings. *)
Definition str_in (x : string) (xs : list string) : bool :=
  existsb (String.eqb x) xs.

(** ** Dictionaries *)

(** A [dict] keeps insertion order, which the code observes when it iterates
    over [.items()], so it is an association list; a key is looked up from
    the front. *)
Definition dict (V : Type) : Type := list (string * V).

Fixpoint dict_get {V : Type} (k : string) (d : dict V) : option V :=
  match d with
  | [] => None
  | (k', v) :: rest => if String.eqb k k' then Some v else dict_get k rest
  end.

(** [k in d]. *)
Definition dict_has {V : Type} (k : string) (d : dict V) : bool :=
  match dict_get k d with
  | Some _ => true
  | None => false
  end.

(** [d.get(k, default)]. *)
Definition get_or {V : Type} (d : dict V) (k : string) (default : V) : V :=
  match dict_get k d with
  | Some v => v
  | None => default
  end.

(** ** Floats *)

(** A Python [float] is an IEEE-754 binary64 number; the Standard Library's
    [SpecFloat] gives its arithmetic (round to nearest, ties to even). *)
Definition float : Type := spec_float.

Definition prec : Z := 53.
Definition emax : Z := 1024.

Definition fmul : float -> float -> float := SFmul prec emax.
Definition fadd : float -> float -> float := SFadd prec emax.
Definition fdiv : float -> float -> float := SFdiv prec emax.

Definition float_zero : float := S754_zero false.

(** [float(i)], as done implicitly when an [int] meets a [float] in an
    arithmetic operation: correctly rounded, [OverflowError] when the
    integer is too large. *)
Definition float_of_int (z : Z) : result float :=
  match binary_normalize prec emax z 0 false with
  | S754_infinity _ => Raise OverflowError
  | f => Ok f
  end.

(** [i * f] for an [int] [i] and a [float] [f]. *)
Definition mul_int_float (i : Z) (f : float) : result float :=
  x <- float_of_int i ;;
  Ok (fmul x f).

(** [int(f)]: truncation toward zero. *)
Definition int_of_float (f : float) : result Z :=
  match f with
  | S754_zero _ => Ok 0
  | S754_finite s m e =>
      let v := if 0 <=? e then Z.pos m * 2 ^ e else Z.pos m / 2 ^ (- e) in
      Ok (if s then - v else v)
  | S754_infinity _ => Raise OverflowError
  | S754_nan => Raise ValueError
  end.

(** [round(f)] with no [ndigits]: the nearest integer, ties to even. *)
Definition round_to_int (f : float) : result Z :=
  match f with
  | S754_zero _ => Ok 0
  | S754_finite s m e =>
      let v :=
        if 0 <=? e then Z.pos m * 2 ^ e
        else
          let q := Z.pos m / 2 ^ (- e) in
          let r := Z.pos m mod 2 ^ (- e) in
          match 2 * r ?= 2 ^ (- e) with
          | Lt => q
          | Gt => q + 1
          | Eq => if Z.even q then q else q + 1
          end in
      Ok (if s then - v else v)
  | S754_infinity _ => Raise OverflowError
  | S754_nan => Raise ValueError
  end.

(** [a / b] for two [int]s: the correctly rounded quotient of the two
    integers, whatever their size. *)
Definition truediv (a b : Z) : result float :=
  match Z.abs b with
  | Zpos mb =>
      match Z.abs a with
      | Zpos ma =>
          match fdiv (S754_finite (a <? 0) ma 0) (S754_finite (b <? 0) mb 0) with
          | S754_infinity _ => Raise OverflowError
          | q => Ok q
          end
      | _ => Ok (S754_zero (b <? 0))
      end
  | _ => Raise ZeroDivisionError
  end.

(** The exact comparison of a [float] with an [int]; [None] for a NaN. *)
Definition float_compare_int (f : float) (i : Z) : option comparison :=
  match f with
  | S754_nan => None
  | S754_infinity s => Some (if s then Lt else Gt)
  | S754_zero _ => Some (0 ?= i)
  | S754_finite s m e =>
      let v := if s then Z.neg m else Z.pos m in
      Some (if 0 <=? e then v * 2 ^ e ?= i else v ?= i * 2 ^ (- e))
  end.

(** [i > f]. *)
Definition int_gt_float (i : Z) (f : float) : bool :=
  match float_compare_int f i with
  | Some Lt => true
  | _ => false
  end.

(** The literals [0.5] and [100]. *)
Definition float_half : float := S754_finite false 4503599627370496 (-53).
Definition float_hundred : float := S754_finite false 7036874417766400 (-46).

(** Two notions used to reason about rounding: a flag as a bit, and what
    [k] one-bit right shifts of [M] leave in a [shr_record] (the kept bits,
    the last bit shifted out, and whether anything nonzero lies below it). *)
Definition b2z (b : bool) : Z := if b then 1 else 0.

Definition shr_inv (M : Z) (k : Z) (mrs : shr_record) : Prop :=
  0 <= shr_m mrs /\
  exists D, 2 * M = 2 ^ k * (2 * shr_m mrs + b2z (shr_r mrs)) + D
            /\ 0 <= D < 2 ^ k /\ (shr_s mrs = true <-> 0 < D).

(** A number that is an [int] or a [float], for the places where the code
    handles both ([sum] of an empty list is the [int] 0). *)
Inductive number : Type :=
| NInt (z : Z)
| NFloat (f : float).

(** ** Built-ins taken as given *)

(** Built-in functions whose result is text processing or decimal rounding
    that the package only calls; they are parameters of the development.
    [pydantic_int_of_str] and [pydantic_int_of_float] are the coercions
    pydantic applies in its default mode when a field of type [int] receives
    a [str] or a [float]. *)
Class Builtins : Type := {
  float_repr : float -> string;             (* repr(f) *)
  str_repr : string -> string;              (* repr(s) *)
  str_lower : string -> string;             (* s.lower() *)
  int_of_str : string -> option Z;          (* int(s), None for ValueError *)
  round_ndigits : float -> Z -> float;      (* round(f, n) *)
  sum_floats : list float -> float;         (* sum(fs), fs not empty *)
  pydantic_int_of_str : string -> option Z;
  pydantic_int_of_float : float -> option Z
}.

(** ** YAML values *)

(** What [yaml.safe_load] returns for the core schema: [None], [bool],
    [int], [float], [str], [list] and [dict] with string keys (the package
    declares its raw input as [dict[str, Any]]). *)
Inductive yaml : Type :=
| YNull
| YBool (b : bool)
| YInt (z : Z)
| YFloat (f : float)
| YStr (s : string)
| YList (items : list yaml)
| YMap (entries : list (string * yaml)).

(** [d.get(k)], with [None] when the key is absent. *)
Definition yget (d : dict yaml) (k : string) : yaml :=
  get_or d k YNull.

(** [bool(v)]. *)
Definition truthy (v : yaml) : bool :=
  match v with
  | YNull => false
  | YBool b => b
  | YInt z => negb (z =? 0)
  | YFloat (S754_zero _) => false
  | YFloat _ => true
  | YStr s => negb (String.eqb s "")
  | YList items => match items with [] => false | _ => true end
  | YMap entries => match entries with [] => false | _ => true end
  end.

(** [a or b]. *)
Definition py_or (a b : yaml) : yaml :=
  if truthy a then a else b.

(** Truthiness of an optional string and of an optional integer, as in
    [if step.role] and [if step.estimated_tokens]. *)
Definition truthy_str (o : option string) : bool :=
  match o with
  | Some s => negb (String.eqb s "")
  | None => false
  end.

Definition truthy_int (o : option Z) : bool :=
  match o with
  | Some z => negb (z =? 0)
  | None => false
  end.

(** [a or b] where [a] is an optional string and [b] a string. *)
Definition str_or (a : option string) (b : string) : string :=
  match a with
  | Some s => if String.eqb s "" then b else s
  | None => b
  end.

(** [a or 0] where [a] is an optional integer. *)
Definition int_or_zero (a : option Z) : Z :=
  match a with
  | Some z => z
  | None => 0
  end.

(** [for x in v]: the items of a list, the characters of a string, the keys
    of a mapping; the other values are not iterable. *)
Definition py_iter (v : yaml) : result (list yaml) :=
  match v with
  | YList items => Ok items
  | YStr s => Ok (map YStr (str_chars s))
  | YMap entries => Ok (map (fun kv => YStr (fst kv)) entries)
  | YNull | YBool _ | YInt _ | YFloat _ => Raise TypeError
  end.

(** [v[:n]]: defined on strings and lists. *)
Definition py_slice_to (n : nat) (v : yaml) : result yaml :=
  match v with
  | YStr s => Ok (YStr (str_take n s))
  | YList items => Ok (YList (firstn n items))
  | YNull | YBool _ | YInt _ | YFloat _ | YMap _ => Raise TypeError
  end.

(** [yaml_size] bounds the nesting depth of a value; it is the recursion
    budget of the recursive normalizer. *)
Fixpoint yaml_size (v : yaml) : nat :=
  match v with
  | YList items => S (fold_right (fun x acc => (yaml_size x + acc)%nat) O items)
  | YMap entries =>
      S (fold_right (fun kv acc => (yaml_size (snd kv) + acc)%nat) O entries)
  | _ => 1%nat
  end.

(* ================================================================== *)
(** * models.py *)
(* ================================================================== *)

Inductive WorkflowFormat : Type := GORGON | LANGCHAIN | CREWAI | GENERIC.

Inductive StepType : Type :=
| LLM | SHELL | PARALLEL | CHECKPOINT | FAN_OUT | FAN_IN | MAP_REDUCE
| BRANCH | LOOP | MCP_TOOL.

Inductive Severity : Type := ERROR | WARNING | INFO.

Inductive RuleCategory : Type := BUDGET | RESILIENCE | EFFICIENCY | SECURITY.

(** The [.value] of the string enumerations. *)
Definition StepType_value (t : StepType) : string :=
  match t with
  | LLM => "llm"
  | SHELL => "shell"
  | PARALLEL => "parallel"
  | CHECKPOINT => "checkpoint"
  | FAN_OUT => "fan_out"
  | FAN_IN => "fan_in"
  | MAP_REDUCE => "map_reduce"
  | BRANCH => "branch"
  | LOOP => "loop"
  | MCP_TOOL => "mcp_tool"
  end.

Definition Severity_value (s : Severity) : string :=
  match s with
  | ERROR => "error"
  | WARNING => "warning"
  | INFO => "info"
  end.

Definition StepType_eqb (a b : StepType) : bool :=
  match a, b with
  | LLM, LLM | SHELL, SHELL | PARALLEL, PARALLEL | CHECKPOINT, CHECKPOINT
  | FAN_OUT, FAN_OUT | FAN_IN, FAN_IN | MAP_REDUCE, MAP_REDUCE
  | BRANCH, BRANCH | LOOP, LOOP | MCP_TOOL, MCP_TOOL => true
  | _, _ => false
  end.

Definition Severity_eqb (a b : Severity) : bool :=
  match a, b with
  | ERROR, ERROR | WARNING, WARNING | INFO, INFO => true
  | _, _ => false
  end.

Definition RuleCategory_eqb (a b : RuleCategory) : bool :=
  match a, b with
  | BUDGET, BUDGET | RESILIENCE, RESILIENCE | EFFICIENCY, EFFICIENCY
  | SECURITY, SECURITY => true
  | _, _ => false
  end.

(** [ParsedStep].  The fields hold what pydantic leaves after validation. *)
Module Step.
Inductive ParsedStep : Type := Build {
  id : string;
  step_type : StepType;
  provider : option string;
  model : option string;
  role : option string;
  estimated_tokens : option Z;
  on_failure : option string;
  max_retries : Z;
  timeout_seconds : option Z;
  has_condition : bool;
  has_fallback : bool;
  depends_on : list string;
  nested_steps : list ParsedStep;
  raw_params : dict yaml
}.
End Step.
Abbreviation ParsedStep := Step.ParsedStep.

Module Workflow.
Record ParsedWorkflow : Type := Build {
  name : string;
  version : string;
  description : string;
  format : WorkflowFormat;
  token_budget : option Z;
  timeout_seconds : option Z;
  steps : list ParsedStep;
  inputs : dict yaml;
  outputs : list string;
  metadata : dict yaml;
  source_path : option string
}.
End Workflow.
Abbreviation ParsedWorkflow := Workflow.ParsedWorkflow.

(** The [source] of a step estimate: ["declared"], ["archetype"] or
    ["default"]. *)
Inductive Source : Type := declared | archetype | default.

Module StepEst.
Record StepEstimate : Type := Build {
  step_id : string;
  step_type : StepType;
  provider : string;
  model : string;
  role : option string;
  estimated_tokens : Z;
  input_tokens : Z;
  output_tokens : Z;
  cost_usd : float;
  source : Source
}.
End StepEst.
Abbreviation StepEstimate := StepEst.StepEstimate.

Module WfEst.
Record WorkflowEstimate : Type := Build {
  workflow_name : string;
  total_tokens : Z;
  total_cost_usd : float;
  budget_declared : option Z;
  budget_utilization : option float;
  steps : list StepEstimate;
  provider : string;
  model : string
}.
End WfEst.
Abbreviation WorkflowEstimate := WfEst.WorkflowEstimate.

(** [LintFinding].  The [message] and [suggestion] texts are presentation
    strings built from the same data; they are left out. *)
Module Finding.
Record LintFinding : Type := Build {
  rule_id : string;
  category : RuleCategory;
  severity : Severity;
  step_id : option string
}.
End Finding.
Abbreviation LintFinding := Finding.LintFinding.

Module Report.
Record LintReport : Type := Build {
  workflow_name : string;
  score : Z;
  findings : list LintFinding;
  error_count : Z;
  warning_count : Z;
  info_count : Z
}.
End Report.
Abbreviation LintReport := Report.LintReport.

Module Pricing.
Record ModelPricing : Type := Build_ModelPricing {
  name : string;
  provider : string;
  input_price_per_1k : float;
  output_price_per_1k : float;
  context_window : Z;
  notes : string
}.

Record ProviderConfig : Type := Build_ProviderConfig {
  provider_name : string;
  models : dict ModelPricing;
  default_model : string
}.
End Pricing.
Abbreviation ModelPricing := Pricing.ModelPricing.
Abbreviation ProviderConfig := Pricing.ProviderConfig.

(** [LintReport(...)]: the [score] field is declared [Field(ge=0, le=100)],
    which pydantic checks when the report is built. *)
Definition make_LintReport (workflow_name : string) (score : Z)
    (findings : list LintFinding) (error_count warning_count info_count : Z)
    : result LintReport :=
  if (0 <=? score) && (score <=? 100)
  then Ok (Report.Build workflow_name score findings
             error_count warning_count info_count)
  else Raise ValidationError.

(* ================================================================== *)
(** * config.py *)
(* ================================================================== *)

Definition ROLE_TOKEN_DEFAULTS : dict Z :=
  [ ("planner", 5000); ("builder", 20000); ("tester", 10000);
    ("reviewer", 5000); ("architect", 8000); ("documenter", 6000);
    ("analyst", 8000); ("reporter", 4000); ("visualizer", 5000);
    ("security_auditor", 12000) ].

Definition STEP_TYPE_TOKEN_DEFAULTS : dict Z :=
  [ ("llm", 8000); ("shell", 0); ("checkpoint", 0); ("mcp_tool", 0);
    ("fan_in", 0); ("branch", 0) ].

(** [INPUT_OUTPUT_RATIO = 0.3]: the binary64 number nearest to three tenths,
    5404319552844595 / 2^54. *)
Definition INPUT_OUTPUT_RATIO : float :=
  S754_finite false 5404319552844595 (-54).

Definition STEP_TYPE_PROVIDER_MAP : dict string :=
  [ ("claude_code", "anthropic"); ("openai", "openai") ].

Definition LLM_STEP_TYPES : list string := [ "claude_code"; "openai" ].

Definition SEVERITY_DEDUCTIONS : dict Z :=
  [ ("error", 10); ("warning", 5); ("info", 2) ].

(* ================================================================== *)
(** * A reference instance of the built-ins *)
(* ================================================================== *)

(** One concrete choice of the built-ins, used to run the definitions on
    examples.  It is exact on ASCII text without quotes and backslashes, on
    plain decimal integer literals, on floats of integral value, and on
    [round]; the properties below never depend on it. *)

Definition ref_lower_char (c : ascii) : ascii :=
  let n := nat_of_ascii c in
  if ((65 <=? n) && (n <=? 90))%nat then ascii_of_nat (n + 32) else c.

Fixpoint ref_str_lower (s : string) : string :=
  match s with
  | EmptyString => EmptyString
  | String c rest => String (ref_lower_char c) (ref_str_lower rest)
  end.

Definition ref_str_repr (s : string) : string :=
  "'" +++ s +++ "'".

Fixpoint ref_digits (s : string) (acc : Z) : option Z :=
  match s with
  | EmptyString => Some acc
  | String c rest =>
      let n := nat_of_ascii c in
      if ((48 <=? n) && (n <=? 57))%nat
      then ref_digits rest (10 * acc + Z.of_nat (n - 48))
      else None
  end.

Definition ref_int_of_str (s : string) : option Z :=
  match s with
  | EmptyString => None
  | String "-" (String c rest) => option_map Z.opp (ref_digits (String c rest) 0)
  | String "+" (String c rest) => ref_digits (String c rest) 0
  | _ => ref_digits s 0
  end.

(** The integer a float is equal to, if any. *)
Definition ref_integral (f : float) : option Z :=
  match f with
  | S754_zero _ => Some 0
  | S754_finite s m e =>
      if 0 <=? e
      then Some ((if s then Z.neg m else Z.pos m) * 2 ^ e)
      else if Z.pos m mod 2 ^ (- e) =? 0
           then Some ((if s then Z.neg m else Z.pos m) / 2 ^ (- e))
           else None
  | _ => None
  end.

Definition ref_float_repr (f : float) : string :=
  match ref_integral f with
  | Some z => str_of_int z +++ ".0"
  | None =>
      match f with
      | S754_finite s m e =>
          (if s then "-" else "") +++ str_of_int (Z.pos m) +++ "*2**"
          +++ str_of_int e
      | S754_infinity true => "-inf"
      | S754_infinity false => "inf"
      | _ => "nan"
      end
  end.

(** [round(f, n)] for [n >= 0]: the decimal with [n] digits nearest to the
    exact value of [f] (ties to even), then the float nearest to it. *)
Definition ref_round_ndigits (f : float) (ndigits : Z) : float :=
  match f with
  | S754_finite s m e =>
      let scaled :=
        if 0 <=? e then Z.pos m * 2 ^ e * 10 ^ ndigits
        else
          let num := Z.pos m * 10 ^ ndigits in
          let q := num / 2 ^ (- e) in
          let r := num mod 2 ^ (- e) in
          match 2 * r ?= 2 ^ (- e) with
          | Lt => q
          | Gt => q + 1
          | Eq => if Z.even q then q else q + 1
          end in
      match scaled with
      | Z0 => S754_zero s
      | _ =>
          match truediv (if s then - scaled else scaled) (10 ^ ndigits) with
          | Ok r => r
          | Raise _ => f
          end
      end
  | _ => f
  end.

Definition ref_sum_floats (fs : list float) : float :=
  fold_left fadd fs float_zero.

Definition ref_builtins : Builtins := {|
  float_repr := ref_float_repr;
  str_repr := ref_str_repr;
  str_lower := ref_str_lower;
  int_of_str := ref_int_of_str;
  round_ndigits := ref_round_ndigits;
  sum_floats := ref_sum_floats;
  pydantic_int_of_str := ref_int_of_str;
  pydantic_int_of_float := ref_integral
|}.

(* ================================================================== *)
(** * Sample data *)
(* ================================================================== *)

(** A small pricing table for the examples (the bundled
    [data/providers.yaml] is data, not code); the prices are 0.5, 0.25 and 0
    per thousand tokens. *)
Definition float_quarter : float := S754_finite false 4503599627370496 (-54).

Definition sample_providers : dict ProviderConfig :=
  [ ("anthropic",
     Pricing.Build_ProviderConfig "anthropic"
       [ ("claude-sonnet-4",
          Pricing.Build_ModelPricing "claude-sonnet-4" "anthropic"
            float_quarter float_half 200000 "") ]
       "claude-sonnet-4");
    ("openai",
     Pricing.Build_ProviderConfig "openai"
       [ ("gpt-4o",
          Pricing.Build_ModelPricing "gpt-4o" "openai"
            float_quarter float_half 128000 "");
         ("gpt-4o-mini",
          Pricing.Build_ModelPricing "gpt-4o-mini" "openai"
            float_zero float_quarter 128000 "") ]
       "gpt-4o");
    ("ollama",
     Pricing.Build_ProviderConfig "ollama"
       [ ("llama3.3-70b",
          Pricing.Build_ModelPricing "llama3.3-70b" "ollama"
            float_zero float_zero 131072 "") ]
       "llama3.3-70b") ].

(** A step with every optional field at its default. *)
Definition sample_step (id : string) (step_type : StepType) : ParsedStep :=
  Step.Build id step_type None None None None None 0 None false false [] [] [].

(** A workflow with every optional field at its default. *)
Definition sample_workflow (token_budget : option Z) (steps : list ParsedStep)
    : ParsedWorkflow :=
  Workflow.Build "test" "1.0" "" GORGON token_budget None steps [] [] [] None.

(** An LLM step that declares its provider, its model and its tokens. *)
Definition sample_llm_step (id provider model : string) (tokens : Z)
    : ParsedStep :=
  Step.Build id LLM (Some provider) (Some model) None (Some tokens)
    None 0 None false false [] [] [].


(** The fixtures of the test suite ([tests/conftest.py]), as [yaml.safe_load]
    returns them. *)
Definition GORGON_FEATURE_BUILD : dict yaml :=
  [ ("name", YStr "Feature Build");
    ("version", YStr "1.0");
    ("description", YStr "Multi-agent feature build");
    ("token_budget", YInt 150000);
    ("timeout_seconds", YInt 3600);
    ("inputs",
     YMap [ ("feature_request",
             YMap [ ("type", YStr "string"); ("required", YBool true) ]) ]);
    ("outputs", YList [ YStr "plan"; YStr "code"; YStr "review" ]);
    ("steps",
     YList
       [ YMap [ ("id", YStr "plan"); ("type", YStr "claude_code");
                ("params",
                 YMap [ ("role", YStr "planner");
                        ("prompt", YStr "Plan the feature: ${feature_request}");
                        ("estimated_tokens", YInt 5000) ]);
                ("on_failure", YStr "abort");
                ("outputs", YList [ YStr "plan" ]) ];
         YMap [ ("id", YStr "build"); ("type", YStr "claude_code");
                ("params",
                 YMap [ ("role", YStr "builder");
                        ("prompt", YStr "Build: ${plan}");
                        ("estimated_tokens", YInt 20000) ]);
                ("on_failure", YStr "retry");
                ("max_retries", YInt 2);
                ("outputs", YList [ YStr "code" ]) ];
         YMap [ ("id", YStr "checkpoint_build"); ("type", YStr "checkpoint");
                ("params", YMap [ ("message", YStr "Build complete") ]) ];
         YMap [ ("id", YStr "test"); ("type", YStr "claude_code");
                ("params",
                 YMap [ ("role", YStr "tester");
                        ("prompt", YStr "Test: ${code}");
                        ("estimated_tokens", YInt 10000) ]);
                ("on_failure", YStr "retry");
                ("max_retries", YInt 2) ];
         YMap [ ("id", YStr "run_tests"); ("type", YStr "shell");
                ("params", YMap [ ("command", YStr "pytest") ]);
                ("on_failure", YStr "abort");
                ("timeout_seconds", YInt 300) ];
         YMap [ ("id", YStr "review"); ("type", YStr "claude_code");
                ("params",
                 YMap [ ("role", YStr "reviewer");
                        ("prompt", YStr "Review: ${code}");
                        ("estimated_tokens", YInt 5000) ]);
                ("condition",
                 YMap [ ("field", YStr "test_results");
                        ("operator", YStr "contains");
                        ("value", YStr "passed") ]);
                ("on_failure", YStr "skip") ] ]);
    ("metadata",
     YMap [ ("author", YStr "gorgon"); ("category", YStr "development") ]) ].

Definition GORGON_SHELL_NO_TIMEOUT : dict yaml :=
  [ ("name", YStr "Shell Workflow");
    ("token_budget", YInt 50000);
    ("steps",
     YList
       [ YMap [ ("id", YStr "run"); ("type", YStr "shell");
                ("params", YMap [ ("command", YStr "make build") ]) ];
         YMap [ ("id", YStr "deploy"); ("type", YStr "shell");
                ("params",
                 YMap [ ("command", YStr "cd ${path} && ./deploy.sh") ]) ] ]) ].

Definition CREWAI_SAMPLE : dict yaml :=
  [ ("name", YStr "Research Crew");
    ("agents",
     YList
       [ YMap [ ("role", YStr "researcher"); ("goal", YStr "Find information");
                ("model", YStr "gpt-4o") ];
         YMap [ ("role", YStr "writer"); ("goal", YStr "Write report");
                ("model", YStr "gpt-4o") ] ]);
    ("tasks",
     YList
       [ YMap [ ("description", YStr "Research topic");
                ("agent", YStr "researcher") ];
         YMap [ ("description", YStr "Write summary");
                ("agent", YStr "writer") ] ]) ].

Definition LANGCHAIN_SAMPLE : dict yaml :=
  [ ("name", YStr "Analysis Graph");
    ("nodes",
     YList
       [ YMap [ ("id", YStr "fetch"); ("type", YStr "retriever") ];
         YMap [ ("id", YStr "analyze"); ("type", YStr "llm");
                ("model", YStr "gpt-4o") ] ]);
    ("edges",
     YList [ YMap [ ("source", YStr "fetch"); ("target", YStr "analyze") ] ]) ].

(** An LLM step that declares only its tokens. *)
Definition sample_tokens_step (id : string) (step_type : StepType)
    (tokens : option Z) : ParsedStep :=
  Step.Build id step_type None None None tokens None 0 None false false [] [] [].

From Stdlib Require Import Sorting.Sorted Sorting.Permutation.

(* ================================================================== *)
(** * models.py: the comparison model *)
(* ================================================================== *)

Module Compare.
Record CompareResult : Type := Build {
  workflow_name : string;
  estimates : list WorkflowEstimate;
  cheapest : string;
  most_expensive : string;
  savings_pct : float
}.
End Compare.
Abbreviation CompareResult := Compare.CompareResult.

(* ================================================================== *)
(** * Parsing floats *)
(* ================================================================== *)

(** [float(s)] for a string is one more built-in taken as given; [None]
    stands for [ValueError].  Only the pricing loader calls it. *)
Class FloatParsing : Type := {
  float_of_str : string -> option float     (* float(s) *)
}.

(** A reference instance for the examples: digits with at most one point
    among them, after an optional sign.  On these spellings it is the
    correctly rounded value of the decimal; the other spellings Python
    accepts (exponents, [inf], [nan], blanks) are not covered. *)
Fixpoint ref_decimal (s : string) (seen_point seen_digit : bool)
    (num scale : Z) : option (Z * Z) :=
  match s with
  | EmptyString => if seen_digit then Some (num, scale) else None
  | String c rest =>
      let n := nat_of_ascii c in
      if ((48 <=? n) && (n <=? 57))%nat
      then ref_decimal rest seen_point true
             (10 * num + Z.of_nat (n - 48))
             (if seen_point then 10 * scale else scale)
      else if Ascii.eqb c "." && negb seen_point
           then ref_decimal rest true seen_digit num scale
           else None
  end.

Definition ref_float_of_str (s : string) : option float :=
  let '(negative, body) :=
    match s with
    | String "-" rest => (true, rest)
    | String "+" rest => (false, rest)
    | _ => (false, s)
    end in
  match ref_decimal body false false 0 1 with
  | Some (0, _) => Some (S754_zero negative)
  | Some (num, scale) =>
      match truediv (if negative then - num else num) scale with
      | Ok f => Some f
      | Raise _ => None
      end
  | None => None
  end.

Definition ref_float_parsing : FloatParsing := {|
  float_of_str := ref_float_of_str
|}.

(** A pricing file for the examples, as [yaml.safe_load] returns it: one
    entry that is not a mapping at each level, prices written as a float, an
    integer and a string. *)
Definition sample_pricing_yaml : yaml :=
  YMap
    [ ("version", YInt 1);
      ("providers",
       YMap
         [ ("openai",
            YMap
              [ ("default_model", YStr "gpt-4o");
                ("models",
                 YMap
                   [ ("gpt-4o",
                      YMap [ ("input", YFloat float_quarter);
                             ("output", YStr "0.5");
                             ("context", YInt 128000) ]);
                     ("comment", YStr "not a model");
                     ("gpt-4o-mini",
                      YMap [ ("input", YInt 0);
                             ("output", YFloat float_quarter) ]) ]) ]);
           ("note", YStr "not a provider");
           ("ollama",
            YMap
              [ ("default_model", YStr "llama3.3-70b");
                ("models",
                 YMap [ ("llama3.3-70b", YMap [ ("notes", YStr "local") ]) ])
              ]) ]) ].

(** A workflow for the examples: an LLM step that declares 1000 tokens and
    names no provider, and a shell step. *)
Definition sample_pipeline (token_budget : option Z) : ParsedWorkflow :=
  sample_workflow token_budget
    [ sample_tokens_step "s1" LLM (Some 1000); sample_step "s2" SHELL ].

(** A workflow over its budget of 1000 tokens: an LLM step that declares
    600 tokens, a shell step that declares 400 and an LLM step that
    declares none. *)
Definition sample_over_budget : ParsedWorkflow :=
  sample_workflow (Some 1000)
    [ sample_tokens_step "s1" LLM (Some 600);
      sample_tokens_step "s2" SHELL (Some 400);
      sample_step "s3" LLM ].

(** A raw Gorgon step of type [claude_code]. *)
Definition sample_raw_llm_step : dict yaml :=
  [ ("id", YStr "plan");
    ("type", YStr "claude_code");
    ("params", YMap [ ("model", YStr "claude-sonnet-4");
                      ("estimated_tokens", YInt 5000) ]) ].

(** A raw mapping that falls to the generic format and has no [agents], before
    and after a [tasks] list is added to it. *)
Definition sample_plain : dict yaml := [ ("name", YStr "flow") ].

Definition sample_plain_with_tasks : dict yaml :=
  [ ("name", YStr "flow");
    ("tasks", YList [ YMap [ ("id", YStr "t1"); ("prompt", YStr "do") ] ]) ].

(* ================================================================== *)
(** * Code that depends on the built-ins *)
(* ================================================================== *)

Section WithBuiltins.
Context {py : Builtins}.

(** ** Conversions of YAML values *)

(** [repr(v)]. *)
Fixpoint py_repr (v : yaml) : string :=
  match v with
  | YNull => "None"
  | YBool true => "True"
  | YBool false => "False"
  | YInt z => str_of_int z
  | YFloat f => float_repr f
  | YStr s => str_repr s
  | YList items => "[" +++ str_join ", " (map py_repr items) +++ "]"
  | YMap entries =>
      "{" +++ str_join ", "
                (map (fun kv => let '(k, x) := kv in
                                str_repr k +++ ": " +++ py_repr x) entries)
          +++ "}"
  end.

(** [str(v)]. *)
Definition py_str (v : yaml) : string :=
  match v with
  | YStr s => s
  | _ => py_repr v
  end.

(** [int(v)]. *)
Definition py_int (v : yaml) : result Z :=
  match v with
  | YInt z => Ok z
  | YBool b => Ok (if b then 1 else 0)
  | YFloat f => int_of_float f
  | YStr s =>
      match int_of_str s with
      | Some z => Ok z
      | None => Raise ValueError
      end
  | YNull | YList _ | YMap _ => Raise TypeError
  end.

(** ** pydantic field validation *)

(** A field declared [str | None]. *)
Definition validate_opt_str (v : yaml) : result (option string) :=
  match v with
  | YNull => Ok None
  | YStr s => Ok (Some s)
  | _ => Raise ValidationError
  end.

(** A field declared [int | None]. *)
Definition validate_opt_int (v : yaml) : result (option Z) :=
  match v with
  | YNull => Ok None
  | YInt z => Ok (Some z)
  | YBool b => Ok (Some (if b then 1 else 0))
  | YFloat f =>
      match pydantic_int_of_float f with
      | Some z => Ok (Some z)
      | None => Raise ValidationError
      end
  | YStr s =>
      match pydantic_int_of_str s with
      | Some z => Ok (Some z)
      | None => Raise ValidationError
      end
  | YList _ | YMap _ => Raise ValidationError
  end.

(** A field declared [dict[str, Any]]. *)
Definition validate_dict (v : yaml) : result (dict yaml) :=
  match v with
  | YMap entries => Ok entries
  | _ => Raise ValidationError
  end.

(** A field declared [list[str]]. *)
Definition validate_str_list (v : yaml) : result (list string) :=
  match v with
  | YList items =>
      mapM (fun x => match x with
                     | YStr s => Ok s
                     | _ => Raise ValidationError
                     end) items
  | _ => Raise ValidationError
  end.

(* ================================================================== *)
(** * pricing.py *)
(* ================================================================== *)

(** The table that [load_providers] returns is an argument: the bundled
    [data/providers.yaml] is data, not code. *)

Definition get_model_pricing (providers : dict ProviderConfig)
    (provider : string) (model : option string) : result ModelPricing :=
  match dict_get provider providers with
  | None => Raise PricingError
  | Some config =>
      let model_name := str_or model (Pricing.default_model config) in
      match dict_get model_name (Pricing.models config) with
      | None => Raise PricingError
      | Some pricing => Ok pricing
      end
  end.

Definition calculate_cost (input_tokens output_tokens : Z)
    (pricing : ModelPricing) : result float :=
  i <- truediv input_tokens 1000 ;;
  let input_cost := fmul i (Pricing.input_price_per_1k pricing) in
  o <- truediv output_tokens 1000 ;;
  let output_cost := fmul o (Pricing.output_price_per_1k pricing) in
  Ok (round_ndigits (fadd input_cost output_cost) 6).

(* ================================================================== *)
(** * estimator.py *)
(* ================================================================== *)

(** [ROLE_TOKEN_DEFAULTS[step.role]] when
    [step.role and step.role in ROLE_TOKEN_DEFAULTS]. *)
Definition role_default (role : option string) : option Z :=
  match role with
  | Some r => if String.eqb r "" then None else dict_get r ROLE_TOKEN_DEFAULTS
  | None => None
  end.

(** [_resolve_tokens], with the step-type table as an argument so that the
    fallback of the third step can be stated for any table. *)
Definition resolve_tokens_with (type_defaults : dict Z) (step : ParsedStep)
    : Z * Source :=
  match Step.estimated_tokens step with
  | Some tokens => (tokens, declared)
  | None =>
      match role_default (Step.role step) with
      | Some tokens => (tokens, archetype)
      | None =>
          let d := get_or type_defaults (StepType_value (Step.step_type step)) 0 in
          let d :=
            if StepType_eqb (Step.step_type step) LLM && (d =? 0)
            then get_or type_defaults "llm" 8000
            else d in
          (d, default)
      end
  end.

Definition _resolve_tokens (step : ParsedStep) : Z * Source :=
  resolve_tokens_with STEP_TYPE_TOKEN_DEFAULTS step.

Definition _split_tokens (total : Z) : result (Z * Z) :=
  x <- mul_int_float total INPUT_OUTPUT_RATIO ;;
  input_tokens <- int_of_float x ;;
  Ok (input_tokens, total - input_tokens).

(** [sum] of integers. *)
Definition sum_ints (xs : list Z) : Z :=
  fold_left Z.add xs 0.

(** The first part of [estimate_step]: the step's own resolved total, or the
    sum over its nested steps when that is larger. *)
Definition resolve_with_nested (step : ParsedStep) : Z * Source :=
  let '(total_tokens, source) := _resolve_tokens step in
  match Step.nested_steps step with
  | [] => (total_tokens, source)
  | nested =>
      let nested_total :=
        sum_ints (map (fun ns => fst (_resolve_tokens ns)) nested) in
      if total_tokens <? nested_total
      then (nested_total,
            if truthy_int (Step.estimated_tokens step)
            then declared else archetype)
      else (total_tokens, source)
  end.

Definition estimate_step (providers : dict ProviderConfig) (step : ParsedStep)
    (provider model : string) : result StepEstimate :=
  let '(total_tokens, source) := resolve_with_nested step in
  split <- _split_tokens total_tokens ;;
  let '(input_tokens, output_tokens) := split in
  cost <- (if negb (StepType_eqb (Step.step_type step) LLM)
           then Ok float_zero
           else
             pricing <- get_model_pricing providers provider (Some model) ;;
             calculate_cost input_tokens output_tokens pricing) ;;
  Ok (StepEst.Build (Step.id step) (Step.step_type step) provider model
        (Step.role step) total_tokens input_tokens output_tokens cost source).

(** The provider of the first step that declares one. *)
Fixpoint first_step_provider (steps : list ParsedStep) : option string :=
  match steps with
  | [] => None
  | step :: rest =>
      if truthy_str (Step.provider step) then Step.provider step
      else first_step_provider rest
  end.

(** [sum(e.cost_usd for e in step_estimates)]: the [int] 0 when there is
    nothing to add. *)
Definition sum_costs (costs : list float) : number :=
  match costs with
  | [] => NInt 0
  | _ => NFloat (sum_floats costs)
  end.

(** [round(x, ndigits)] for [ndigits >= 0]: an [int] is returned as it is. *)
Definition round_number (x : number) (ndigits : Z) : number :=
  match x with
  | NInt z => NInt z
  | NFloat f => NFloat (round_ndigits f ndigits)
  end.

(** What pydantic stores in a field declared [float]. *)
Definition number_to_float (x : number) : result float :=
  match x with
  | NInt z => float_of_int z
  | NFloat f => Ok f
  end.

Definition estimate_workflow (providers : dict ProviderConfig)
    (workflow : ParsedWorkflow) (provider model : option string)
    : result WorkflowEstimate :=
  let explicit_provider :=
    match provider with Some _ => true | None => false end in
  let provider :=
    match provider with
    | Some p => p
    | None =>
        match first_step_provider (Workflow.steps workflow) with
        | Some p => p
        | None => "anthropic"
        end
    end in
  let model :=
    match model with
    | Some m => m
    | None =>
        match dict_get provider providers with
        | Some config => Pricing.default_model config
        | None => "unknown"
        end
    end in
  step_estimates <-
    mapM (fun step =>
            let step_provider :=
              if explicit_provider then provider
              else str_or (Step.provider step) provider in
            let step_model := str_or (Step.model step) model in
            estimate_step providers step step_provider step_model)
         (Workflow.steps workflow) ;;
  let total_tokens := sum_ints (map StepEst.estimated_tokens step_estimates) in
  let total_cost := sum_costs (map StepEst.cost_usd step_estimates) in
  budget_util <-
    (match Workflow.token_budget workflow with
     | Some budget =>
         if negb (budget =? 0) && (0 <? budget)
         then
           q <- truediv total_tokens budget ;;
           Ok (Some (round_ndigits (fmul q float_hundred) 1))
         else Ok None
     | None => Ok None
     end) ;;
  total_cost_usd <- number_to_float (round_number total_cost 6) ;;
  Ok (WfEst.Build (Workflow.name workflow) total_tokens total_cost_usd
        (Workflow.token_budget workflow) budget_util step_estimates
        provider model).

(* ================================================================== *)
(** * rules/__init__.py *)
(* ================================================================== *)

(** A rule function; it returns the findings or raises. *)
Definition RuleFunc : Type := ParsedWorkflow -> result (list LintFinding).

Record RuleEntry : Type := Build_RuleEntry {
  entry_rule_id : string;
  entry_category : RuleCategory;
  entry_severity : Severity;
  entry_description : string;
  func : RuleFunc
}.

(** The decorator [lint_rule]: applied to a rule function, it appends one
    entry to the registry. *)
Definition lint_rule (rule_id : string) (category : RuleCategory)
    (severity : Severity) (description : string) (f : RuleFunc)
    (registry : list RuleEntry) : list RuleEntry :=
  registry ++ [Build_RuleEntry rule_id category severity description f].

(* ================================================================== *)
(** * rules/budget.py *)
(* ================================================================== *)

Definition check_workflow_budget : RuleFunc := fun workflow =>
  match Workflow.token_budget workflow with
  | None => Ok [Finding.Build "B001" BUDGET WARNING None]
  | Some _ => Ok []
  end.

Definition check_step_budget_hog : RuleFunc := fun workflow =>
  match Workflow.token_budget workflow with
  | None => Ok []
  | Some budget =>
      if budget =? 0 then Ok []
      else
        threshold <- mul_int_float budget float_half ;;
        found <-
          mapM (fun step =>
                  match Step.estimated_tokens step with
                  | Some tokens =>
                      if int_gt_float tokens threshold
                      then
                        (* pct, shown in the message *)
                        q <- truediv tokens budget ;;
                        pct <- round_to_int (fmul q float_hundred) ;;
                        Ok [Finding.Build "B002" BUDGET WARNING
                              (Some (Step.id step))]
                      else Ok []
                  | None => Ok []
                  end)
               (Workflow.steps workflow) ;;
        Ok (List.concat found)
  end.

(** The running total of [check_total_over_budget]. *)
Definition budget_total (steps : list ParsedStep) : Z :=
  fold_left
    (fun total step =>
       match Step.estimated_tokens step with
       | Some tokens => total + tokens
       | None =>
           if StepType_eqb (Step.step_type step) LLM
           then
             match role_default (Step.role step) with
             | Some tokens => total + tokens
             | None => total + get_or STEP_TYPE_TOKEN_DEFAULTS "llm" 8000
             end
           else total
       end)
    steps 0.

Definition check_total_over_budget : RuleFunc := fun workflow =>
  match Workflow.token_budget workflow with
  | None => Ok []
  | Some budget =>
      if budget =? 0 then Ok []
      else
        let total := budget_total (Workflow.steps workflow) in
        if budget <? total
        then Ok [Finding.Build "B003" BUDGET ERROR None]
        else Ok []
  end.

Definition check_undeclared_tokens : RuleFunc := fun workflow =>
  Ok (flat_map
        (fun step =>
           if StepType_eqb (Step.step_type step) LLM
              && match Step.estimated_tokens step with
                 | None => true
                 | Some _ => false
                 end
           then [Finding.Build "B004" BUDGET INFO (Some (Step.id step))]
           else [])
        (Workflow.steps workflow)).

Definition register_budget (registry : list RuleEntry) : list RuleEntry :=
  let registry :=
    lint_rule "B001" BUDGET WARNING
      "No token_budget declared at workflow level"
      check_workflow_budget registry in
  let registry :=
    lint_rule "B002" BUDGET WARNING
      "Step estimate exceeds 50% of workflow budget"
      check_step_budget_hog registry in
  let registry :=
    lint_rule "B003" BUDGET ERROR
      "Sum of step estimates exceeds declared budget"
      check_total_over_budget registry in
  lint_rule "B004" BUDGET INFO
    "LLM step without estimated_tokens"
    check_undeclared_tokens registry.

(* ================================================================== *)
(** * rules/resilience.py *)
(* ================================================================== *)

(** [o == "literal"] for an optional string. *)
Definition opt_str_is (o : option string) (s : string) : bool :=
  match o with
  | Some x => String.eqb x s
  | None => false
  end.

Definition is_none {A : Type} (o : option A) : bool :=
  match o with
  | None => true
  | Some _ => false
  end.

Definition check_missing_on_failure : RuleFunc := fun workflow =>
  Ok (flat_map
        (fun step =>
           if StepType_eqb (Step.step_type step) LLM
              && is_none (Step.on_failure step)
           then [Finding.Build "R001" RESILIENCE WARNING (Some (Step.id step))]
           else [])
        (Workflow.steps workflow)).

Definition check_abort_no_fallback : RuleFunc := fun workflow =>
  Ok (flat_map
        (fun step =>
           if opt_str_is (Step.on_failure step) "abort"
              && negb (Step.has_fallback step)
           then [Finding.Build "R002" RESILIENCE WARNING (Some (Step.id step))]
           else [])
        (Workflow.steps workflow)).

Definition check_retry_no_max : RuleFunc := fun workflow =>
  Ok (flat_map
        (fun step =>
           if opt_str_is (Step.on_failure step) "retry"
              && (Step.max_retries step =? 0)
           then [Finding.Build "R003" RESILIENCE INFO (Some (Step.id step))]
           else [])
        (Workflow.steps workflow)).

Definition check_shell_no_timeout : RuleFunc := fun workflow =>
  Ok (flat_map
        (fun step =>
           if StepType_eqb (Step.step_type step) SHELL
              && is_none (Step.timeout_seconds step)
           then [Finding.Build "R004" RESILIENCE WARNING (Some (Step.id step))]
           else [])
        (Workflow.steps workflow)).

(** The loop of [check_missing_checkpoint], with its two counters; it
    returns at the first step where both thresholds are reached. *)
Fixpoint missing_checkpoint_scan (steps : list ParsedStep)
    (consecutive_llm expensive_tokens : Z) : list LintFinding :=
  match steps with
  | [] => []
  | step :: rest =>
      let '(consecutive_llm, expensive_tokens) :=
        if StepType_eqb (Step.step_type step) LLM
        then
          let tokens :=
            match Step.estimated_tokens step with
            | Some tokens => tokens
            | None =>
                match role_default (Step.role step) with
                | Some tokens => tokens
                | None => get_or STEP_TYPE_TOKEN_DEFAULTS "llm" 8000
                end
            end in
          (consecutive_llm + 1, expensive_tokens + tokens)
        else if StepType_eqb (Step.step_type step) CHECKPOINT
        then (0, 0)
        else (consecutive_llm, expensive_tokens) in
      if (3 <=? consecutive_llm) && (30000 <=? expensive_tokens)
      then [Finding.Build "R005" RESILIENCE INFO None]
      else missing_checkpoint_scan rest consecutive_llm expensive_tokens
  end.

Definition check_missing_checkpoint : RuleFunc := fun workflow =>
  Ok (missing_checkpoint_scan (Workflow.steps workflow) 0 0).

Definition register_resilience (registry : list RuleEntry) : list RuleEntry :=
  let registry :=
    lint_rule "R001" RESILIENCE WARNING
      "LLM step has no on_failure handler"
      check_missing_on_failure registry in
  let registry :=
    lint_rule "R002" RESILIENCE WARNING
      "on_failure: abort with no fallback"
      check_abort_no_fallback registry in
  let registry :=
    lint_rule "R003" RESILIENCE INFO
      "retry without max_retries"
      check_retry_no_max registry in
  let registry :=
    lint_rule "R004" RESILIENCE WARNING
      "Shell step without timeout"
      check_shell_no_timeout registry in
  lint_rule "R005" RESILIENCE INFO
    "No checkpoint between expensive step groups"
    check_missing_checkpoint registry.

(* ================================================================== *)
(** * rules/efficiency.py *)
(* ================================================================== *)

(** The body of the loop of [check_parallelizable] for one pair of adjacent
    LLM steps. *)
Definition parallelizable_pair (current next_step : ParsedStep)
    : list LintFinding :=
  if str_in (Step.id current) (Step.depends_on next_step) then []
  else
    let current_outputs :=
      match get_or (Step.raw_params current) "outputs" (YList []) with
      | YList vals => map py_str vals
      | _ => []
      end in
    let prompt := py_str (get_or (Step.raw_params next_step) "prompt" (YStr "")) in
    let has_dependency :=
      existsb (fun var => str_contains ("${" +++ var +++ "}") prompt)
              current_outputs in
    if negb has_dependency
       && match Step.depends_on next_step with [] => true | _ => false end
    then [Finding.Build "E001" EFFICIENCY INFO (Some (Step.id next_step))]
    else [].

(** [for i in range(len(llm_steps) - 1)]: the adjacent pairs, in order. *)
Fixpoint parallelizable_scan (llm_steps : list ParsedStep) : list LintFinding :=
  match llm_steps with
  | current :: ((next_step :: _) as rest) =>
      parallelizable_pair current next_step ++ parallelizable_scan rest
  | _ => []
  end.

Definition check_parallelizable : RuleFunc := fun workflow =>
  let llm_steps :=
    filter (fun s => StepType_eqb (Step.step_type s) LLM)
           (Workflow.steps workflow) in
  Ok (parallelizable_scan llm_steps).

(** [d.setdefault(k, []).append(x)]: a new key goes to the end. *)
Fixpoint setdefault_append (k x : string) (d : dict (list string))
    : dict (list string) :=
  match d with
  | [] => [(k, [x])]
  | (k', xs) :: rest =>
      if String.eqb k k' then (k', xs ++ [x]) :: rest
      else (k', xs) :: setdefault_append k x rest
  end.

Definition role_steps_of (steps : list ParsedStep) : dict (list string) :=
  fold_left
    (fun role_steps step =>
       if StepType_eqb (Step.step_type step) LLM
          && truthy_str (Step.role step)
       then
         match Step.role step with
         | Some role => setdefault_append role (Step.id step) role_steps
         | None => role_steps
         end
       else role_steps)
    steps [].

Definition check_duplicate_roles : RuleFunc := fun workflow =>
  let role_steps := role_steps_of (Workflow.steps workflow) in
  Ok (flat_map
        (fun item =>
           let '(role, step_ids) := item in
           if (2 <? Z.of_nat (List.length step_ids))
           then [Finding.Build "E002" EFFICIENCY WARNING None]
           else [])
        role_steps).

(** [enumerate(xs)]. *)
Definition enumerate {A : Type} (xs : list A) : list (nat * A) :=
  combine (seq 0 (List.length xs)) xs.

Definition check_lightweight_checkpoint : RuleFunc := fun workflow =>
  let steps := Workflow.steps workflow in
  let lightweight_threshold := 5000 in
  Ok (flat_map
        (fun item =>
           let '(i, step) := item in
           if negb (StepType_eqb (Step.step_type step) CHECKPOINT) then []
           else
             let prev_tokens :=
               if (0 <? i)%nat
               then
                 match nth_error steps (i - 1) with
                 | Some prev => int_or_zero (Step.estimated_tokens prev)
                 | None => 0
                 end
               else 0 in
             let next_tokens :=
               if (i <? List.length steps - 1)%nat
               then
                 match nth_error steps (i + 1) with
                 | Some nxt => int_or_zero (Step.estimated_tokens nxt)
                 | None => 0
                 end
               else 0 in
             if (prev_tokens <? lightweight_threshold)
                && (next_tokens <? lightweight_threshold)
             then [Finding.Build "E003" EFFICIENCY INFO (Some (Step.id step))]
             else [])
        (enumerate steps)).

Definition check_fan_out_no_limit : RuleFunc := fun workflow =>
  Ok (flat_map
        (fun step =>
           if StepType_eqb (Step.step_type step) FAN_OUT
           then
             match yget (Step.raw_params step) "max_concurrent" with
             | YNull =>
                 [Finding.Build "E004" EFFICIENCY WARNING (Some (Step.id step))]
             | _ => []
             end
           else [])
        (Workflow.steps workflow)).

Definition register_efficiency (registry : list RuleEntry) : list RuleEntry :=
  let registry :=
    lint_rule "E001" EFFICIENCY INFO
      "Sequential LLM steps could be parallel"
      check_parallelizable registry in
  let registry :=
    lint_rule "E002" EFFICIENCY WARNING
      "Duplicate role assignments"
      check_duplicate_roles registry in
  let registry :=
    lint_rule "E003" EFFICIENCY INFO
      "Unnecessary checkpoint between lightweight steps"
      check_lightweight_checkpoint registry in
  lint_rule "E004" EFFICIENCY WARNING
    "fan_out without max_concurrent limit"
    check_fan_out_no_limit registry.

(* ================================================================== *)
(** * rules/security.py *)
(* ================================================================== *)

(** [_SHELL_VAR_PATTERN.search], for the pattern [\$\{[^}]+\}]: after a
    ["${"], one or more characters other than ["}"], then a ["}"]. *)
Fixpoint closes_after (s : string) (seen : bool) : bool :=
  match s with
  | EmptyString => false
  | String c rest =>
      if Ascii.eqb c "}" then seen else closes_after rest true
  end.

Fixpoint _SHELL_VAR_PATTERN_search (s : string) : bool :=
  match s with
  | EmptyString => false
  | String c rest =>
      (Ascii.eqb c "$"
       && match rest with
          | String c' rest' => Ascii.eqb c' "{" && closes_after rest' false
          | EmptyString => false
          end)
      || _SHELL_VAR_PATTERN_search rest
  end.

(** [_HARDCODED_PATH_PATTERN.search], for the pattern
    [(?:/usr/|/home/|/etc/|/var/|/opt/|C:\\)]. *)
Definition _HARDCODED_PATH_PATTERN_search (s : string) : bool :=
  existsb (fun p => str_contains p s)
          [ "/usr/"; "/home/"; "/etc/"; "/var/"; "/opt/"; "C:" +++ backslash ].

Definition check_shell_injection : RuleFunc := fun workflow =>
  Ok (flat_map
        (fun step =>
           if negb (StepType_eqb (Step.step_type step) SHELL) then []
           else
             let command :=
               py_str (get_or (Step.raw_params step) "command" (YStr "")) in
             if _SHELL_VAR_PATTERN_search command
             then [Finding.Build "S001" SECURITY ERROR (Some (Step.id step))]
             else [])
        (Workflow.steps workflow)).

Definition check_hardcoded_paths : RuleFunc := fun workflow =>
  Ok (flat_map
        (fun step =>
           if negb (StepType_eqb (Step.step_type step) SHELL) then []
           else
             let command :=
               py_str (get_or (Step.raw_params step) "command" (YStr "")) in
             if _HARDCODED_PATH_PATTERN_search command
             then [Finding.Build "S002" SECURITY WARNING (Some (Step.id step))]
             else [])
        (Workflow.steps workflow)).

(** One declared input is flagged when it is a mapping with a truthy
    ["required"] and no ["type"]. *)
Definition required_without_type (config : yaml) : bool :=
  match config with
  | YMap config =>
      let is_required := get_or config "required" (YBool false) in
      let has_type := dict_has "type" config in
      truthy is_required && negb has_type
  | _ => false
  end.

Definition check_input_validation : RuleFunc := fun workflow =>
  match Workflow.inputs workflow with
  | [] => Ok []
  | inputs =>
      Ok (flat_map
            (fun item =>
               let '(name, config) := item in
               if required_without_type config
               then [Finding.Build "S003" SECURITY INFO None]
               else [])
            inputs)
  end.

Definition check_mcp_no_server : RuleFunc := fun workflow =>
  Ok (flat_map
        (fun step =>
           if negb (StepType_eqb (Step.step_type step) MCP_TOOL) then []
           else
             let server := yget (Step.raw_params step) "server" in
             if negb (truthy server)
             then [Finding.Build "S004" SECURITY WARNING (Some (Step.id step))]
             else [])
        (Workflow.steps workflow)).

Definition register_security (registry : list RuleEntry) : list RuleEntry :=
  let registry :=
    lint_rule "S001" SECURITY ERROR
      "Shell step with variable interpolation (command injection risk)"
      check_shell_injection registry in
  let registry :=
    lint_rule "S002" SECURITY WARNING
      "Hardcoded paths in shell commands"
      check_hardcoded_paths registry in
  let registry :=
    lint_rule "S003" SECURITY INFO
      "No input validation on required inputs"
      check_input_validation registry in
  lint_rule "S004" SECURITY WARNING
    "MCP tool step without server validation"
    check_mcp_no_server registry.

(* ================================================================== *)
(** * linter.py *)
(* ================================================================== *)

(** The registry once every rule module has been imported: [linter.py]
    imports [rules.budget] and [rules.resilience] when it is loaded, and
    [_import_all_rules] then imports [rules.efficiency] and
    [rules.security]. *)
Definition _RULE_REGISTRY : list RuleEntry :=
  register_security
    (register_efficiency
       (register_resilience
          (register_budget []))).

Definition get_all_rules : list RuleEntry := _RULE_REGISTRY.

Definition get_rules_by_category (category : RuleCategory) : list RuleEntry :=
  filter (fun r => RuleCategory_eqb (entry_category r) category) _RULE_REGISTRY.

(** [sum(1 for f in findings if f.severity == s)]. *)
Definition count_severity (s : Severity) (findings : list LintFinding) : Z :=
  Z.of_nat
    (List.length
       (filter (fun f => Severity_eqb (Finding.severity f) s) findings)).

(** [SEVERITY_DEDUCTIONS.get(finding.severity.value, 0)]. *)
Definition deduction (f : LintFinding) : Z :=
  get_or SEVERITY_DEDUCTIONS (Severity_value (Finding.severity f)) 0.

Definition run_lint (workflow : ParsedWorkflow)
    (category : option RuleCategory) (severity : option Severity)
    : result LintReport :=
  let rules :=
    match category with
    | Some c => get_rules_by_category c
    | None => get_all_rules
    end in
  found <- mapM (fun rule => func rule workflow) rules ;;
  let findings := List.concat found in
  let findings :=
    match severity with
    | Some s => filter (fun f => Severity_eqb (Finding.severity f) s) findings
    | None => findings
    end in
  let error_count := count_severity ERROR findings in
  let warning_count := count_severity WARNING findings in
  let info_count := count_severity INFO findings in
  let score := fold_left (fun score f => score - deduction f) findings 100 in
  let score := Z.max 0 score in
  make_LintReport (Workflow.name workflow) score findings
    error_count warning_count info_count.

(* ================================================================== *)
(** * parsers/__init__.py *)
(* ================================================================== *)

Definition _GORGON_STEP_TYPES : list string :=
  [ "claude_code"; "openai"; "shell"; "parallel"; "checkpoint"; "fan_out";
    "fan_in"; "map_reduce"; "branch"; "loop"; "mcp_tool" ].

(** [v in xs] for a [set] of strings [xs]: the value is hashed first, and a
    list or a dict is not hashable. *)
Definition in_str_set (v : yaml) (xs : list string) : result bool :=
  match v with
  | YStr s => Ok (str_in s xs)
  | YList _ | YMap _ => Raise TypeError
  | YNull | YBool _ | YInt _ | YFloat _ => Ok false
  end.

(** The loop over [steps] in [detect_format]: [true] when it returns
    [GORGON]. *)
Fixpoint gorgon_step_scan (steps : list yaml) : result bool :=
  match steps with
  | [] => Ok false
  | step :: rest =>
      match step with
      | YMap d =>
          known <- in_str_set (yget d "type") _GORGON_STEP_TYPES ;;
          if known then Ok true else gorgon_step_scan rest
      | _ => gorgon_step_scan rest
      end
  end.

Definition detect_format (raw : dict yaml) : result WorkflowFormat :=
  if dict_has "agents" raw && dict_has "tasks" raw then Ok CREWAI
  else if dict_has "nodes" raw || dict_has "edges" raw then Ok LANGCHAIN
  else
    let meta := get_or raw "metadata" (YMap []) in
    if match meta with
       | YMap _ => str_contains "langgraph" (str_lower (py_str meta))
       | _ => false
       end
    then Ok LANGCHAIN
    else
      match get_or raw "steps" (YList []) with
      | YList steps =>
          found <- gorgon_step_scan steps ;;
          if found then Ok GORGON else Ok GENERIC
      | _ => Ok GENERIC
      end.

(** [[x for x in xs if isinstance(x, dict)]]. *)
Definition only_dicts (xs : list yaml) : list (dict yaml) :=
  flat_map (fun x => match x with YMap d => [d] | _ => [] end) xs.

(** [[(i, x) for i, x in enumerate(xs) if isinstance(x, dict)]]. *)
Definition enumerated_dicts (xs : list yaml) : list (nat * dict yaml) :=
  flat_map (fun ix => match snd ix with YMap d => [(fst ix, d)] | _ => [] end)
           (enumerate xs).

(* ================================================================== *)
(** * parsers/gorgon.py *)
(* ================================================================== *)

Definition _TYPE_MAP : dict StepType :=
  [ ("claude_code", LLM); ("openai", LLM); ("shell", SHELL);
    ("parallel", PARALLEL); ("checkpoint", CHECKPOINT); ("fan_out", FAN_OUT);
    ("fan_in", FAN_IN); ("map_reduce", MAP_REDUCE); ("branch", BRANCH);
    ("loop", LOOP); ("mcp_tool", MCP_TOOL) ].

(** [_parse_step] calls itself on nested steps; [depth] bounds the nesting,
    and running out of it is Python's [RecursionError]. *)
Fixpoint _parse_step (depth : nat) (raw : dict yaml) : result ParsedStep :=
  match depth with
  | O => Raise RecursionError
  | S depth =>
      let step_id := py_str (get_or raw "id" (YStr "unknown")) in
      let raw_type := py_str (get_or raw "type" (YStr "shell")) in
      let step_type := get_or _TYPE_MAP raw_type SHELL in
      let params := py_or (get_or raw "params" (YMap [])) (YMap []) in
      (* [params.get] exists only on a dict *)
      params <- match params with
                | YMap d => Ok d
                | _ => Raise AttributeError
                end ;;
      let provider :=
        if str_in raw_type LLM_STEP_TYPES
        then dict_get raw_type STEP_TYPE_PROVIDER_MAP else None in
      let model :=
        if str_in raw_type LLM_STEP_TYPES then yget params "model" else YNull in
      let role := yget params "role" in
      let estimated_tokens := yget params "estimated_tokens" in
      let depends_on :=
        match get_or raw "depends_on" (YList []) with
        | YStr s => [s]
        | YList ds => map py_str ds
        | _ => []
        end in
      nested <-
        mapM (fun key =>
                match py_or (yget params key) (yget raw key) with
                | YList items => mapM (_parse_step depth) (only_dicts items)
                | YMap d => s <- _parse_step depth d ;; Ok [s]
                | _ => Ok []
                end)
             [ "steps"; "step_template"; "map_step"; "reduce_step" ] ;;
      let nested_steps := List.concat nested in
      max_retries <- py_int (get_or raw "max_retries" (YInt 0)) ;;
      (* ParsedStep(...): pydantic validates the fields *)
      model <- validate_opt_str model ;;
      role <- validate_opt_str role ;;
      estimated_tokens <- validate_opt_int estimated_tokens ;;
      on_failure <- validate_opt_str (yget raw "on_failure") ;;
      timeout_seconds <- validate_opt_int (yget raw "timeout_seconds") ;;
      Ok (Step.Build step_id step_type provider model role estimated_tokens
            on_failure max_retries timeout_seconds
            (dict_has "condition" raw) (dict_has "fallback" raw)
            depends_on nested_steps params)
  end.

Definition parse_gorgon (raw : dict yaml) (source_path : option string)
    : result ParsedWorkflow :=
  let name := py_str (get_or raw "name" (YStr "unnamed")) in
  let version := py_str (get_or raw "version" (YStr "1.0")) in
  let description := py_str (get_or raw "description" (YStr "")) in
  steps_raw <- py_iter (get_or raw "steps" (YList [])) ;;
  steps <- mapM (_parse_step (yaml_size (YMap raw))) (only_dicts steps_raw) ;;
  let outputs :=
    match get_or raw "outputs" (YList []) with
    | YList os => map py_str os
    | _ => []
    end in
  token_budget <- validate_opt_int (yget raw "token_budget") ;;
  timeout_seconds <- validate_opt_int (yget raw "timeout_seconds") ;;
  inputs <- validate_dict (get_or raw "inputs" (YMap [])) ;;
  metadata <- validate_dict (get_or raw "metadata" (YMap [])) ;;
  Ok (Workflow.Build name version description GORGON token_budget
        timeout_seconds steps inputs outputs metadata source_path).

(* ================================================================== *)
(** * parsers/crewai.py *)
(* ================================================================== *)

Definition _parse_agent (agent : dict yaml) (index : nat) : result ParsedStep :=
  let step_id :=
    py_str (get_or agent "name"
              (get_or agent "role" (YStr ("agent_" +++ str_of_index index)))) in
  let role :=
    let r := py_str (get_or agent "role" (YStr "")) in
    if String.eqb r "" then None else Some r in
  provider <- validate_opt_str (yget agent "llm_provider") ;;
  model <- validate_opt_str (py_or (yget agent "llm") (yget agent "model")) ;;
  estimated_tokens <- validate_opt_int (yget agent "max_tokens") ;;
  Ok (Step.Build step_id LLM provider model role estimated_tokens
        None 0 None false false [] [] agent).

Definition _parse_task (task : dict yaml) (index : nat) : result ParsedStep :=
  (* the default of the outer [get] is evaluated first, slice included *)
  short <- py_slice_to 40
             (get_or task "description" (YStr ("task_" +++ str_of_index index))) ;;
  let step_id := py_str (get_or task "name" short) in
  let agent_ref := yget task "agent" in
  let depends_on := if truthy agent_ref then [py_str agent_ref] else [] in
  role <- validate_opt_str (yget task "role") ;;
  estimated_tokens <- validate_opt_int (yget task "max_tokens") ;;
  Ok (Step.Build step_id LLM None None role estimated_tokens
        None 0 None false false depends_on [] task).

Definition parse_crewai (raw : dict yaml) (source_path : option string)
    : result ParsedWorkflow :=
  let name :=
    py_str (get_or raw "name" (get_or raw "crew" (YStr "unnamed-crew"))) in
  agents <- py_iter (get_or raw "agents" (YList [])) ;;
  agent_steps <-
    mapM (fun ia => _parse_agent (snd ia) (fst ia)) (enumerated_dicts agents) ;;
  tasks <- py_iter (get_or raw "tasks" (YList [])) ;;
  task_steps <-
    mapM (fun it => _parse_task (snd it) (fst it)) (enumerated_dicts tasks) ;;
  let steps := agent_steps ++ task_steps in
  token_budget <-
    validate_opt_int (py_or (yget raw "token_budget") (yget raw "max_tokens")) ;;
  inputs <- validate_dict (get_or raw "inputs" (YMap [])) ;;
  metadata <- validate_dict (get_or raw "metadata" (YMap [])) ;;
  Ok (Workflow.Build name "1.0" "" CREWAI token_budget None steps inputs []
        metadata source_path).

(* ================================================================== *)
(** * parsers/langchain.py *)
(* ================================================================== *)

Definition _node_to_step (node : dict yaml) (index : nat) : result ParsedStep :=
  let step_id :=
    py_str (get_or node "id"
              (get_or node "name" (YStr ("node_" +++ str_of_index index)))) in
  let node_type := str_lower (py_str (get_or node "type" (YStr ""))) in
  let step_type :=
    if str_in node_type [ "tool"; "function" ] then SHELL
    else if str_in node_type [ "branch"; "conditional" ] then BRANCH
    else if String.eqb node_type "parallel" then PARALLEL
    else LLM in
  provider <- validate_opt_str (yget node "provider") ;;
  model <- validate_opt_str (yget node "model") ;;
  role <- validate_opt_str (yget node "role") ;;
  estimated_tokens <- validate_opt_int (yget node "max_tokens") ;;
  Ok (Step.Build step_id step_type provider model role estimated_tokens
        None 0 None false false [] [] node).

(** [s.depends_on.append(source)]. *)
Definition append_dependency (source : string) (s : ParsedStep) : ParsedStep :=
  Step.Build (Step.id s) (Step.step_type s) (Step.provider s) (Step.model s)
    (Step.role s) (Step.estimated_tokens s) (Step.on_failure s)
    (Step.max_retries s) (Step.timeout_seconds s) (Step.has_condition s)
    (Step.has_fallback s) (Step.depends_on s ++ [source])
    (Step.nested_steps s) (Step.raw_params s).

(** The body of the loop over [edges] for one edge. *)
Definition wire_edge (step_ids : list string) (steps : list ParsedStep)
    (edge : yaml) : list ParsedStep :=
  match edge with
  | YMap e =>
      let source := py_str (get_or e "source" (get_or e "from" (YStr ""))) in
      let target := py_str (get_or e "target" (get_or e "to" (YStr ""))) in
      if str_in source step_ids && str_in target step_ids
      then
        map (fun s =>
               if String.eqb (Step.id s) target
                  && negb (str_in source (Step.depends_on s))
               then append_dependency source s else s)
            steps
      else steps
  | _ => steps
  end.

Definition parse_langchain (raw : dict yaml) (source_path : option string)
    : result ParsedWorkflow :=
  let name :=
    py_str (get_or raw "name" (get_or raw "graph" (YStr "unnamed-graph"))) in
  nodes <- py_iter (get_or raw "nodes" (YList [])) ;;
  steps <-
    mapM (fun i_n => _node_to_step (snd i_n) (fst i_n)) (enumerated_dicts nodes) ;;
  let step_ids := map Step.id steps in
  edges <- py_iter (get_or raw "edges" (YList [])) ;;
  let steps := fold_left (wire_edge step_ids) edges steps in
  token_budget <- validate_opt_int (yget raw "token_budget") ;;
  inputs <- validate_dict (get_or raw "inputs" (YMap [])) ;;
  metadata <- validate_dict (get_or raw "metadata" (YMap [])) ;;
  Ok (Workflow.Build name "1.0" "" LANGCHAIN token_budget None steps inputs []
        metadata source_path).

(* ================================================================== *)
(** * parsers/generic.py *)
(* ================================================================== *)

Definition _guess_step_type (config : dict yaml) : StepType :=
  if dict_has "command" config || dict_has "cmd" config then SHELL
  else if dict_has "prompt" config || dict_has "model" config
          || dict_has "llm" config then LLM
  else if dict_has "steps" config
          && match yget config "steps" with YList _ => true | _ => false end
  then PARALLEL
  else LLM.

Definition _parse_generic_step (step_id : string) (config : dict yaml)
    : result ParsedStep :=
  let step_type := _guess_step_type config in
  max_retries <- py_int (get_or config "max_retries" (YInt 0)) ;;
  (* ParsedStep(...): pydantic validates the fields *)
  provider <- validate_opt_str (yget config "provider") ;;
  model <- validate_opt_str (yget config "model") ;;
  role <- validate_opt_str (yget config "role") ;;
  estimated_tokens <-
    validate_opt_int
      (py_or (yget config "estimated_tokens") (yget config "max_tokens")) ;;
  on_failure <-
    validate_opt_str (py_or (yget config "on_failure") (yget config "on_error")) ;;
  timeout_seconds <-
    validate_opt_int
      (py_or (yget config "timeout") (yget config "timeout_seconds")) ;;
  Ok (Step.Build step_id step_type provider model role estimated_tokens
        on_failure max_retries timeout_seconds false false [] [] config).

(** The items of a list that are dicts, parsed with an id that defaults to
    [f"{prefix}_{i}"]. *)
Definition parse_generic_items (prefix : string) (items : list yaml)
    : result (list ParsedStep) :=
  mapM (fun ix =>
          let '(i, item) := ix in
          let step_id :=
            py_str (get_or item "id"
                      (get_or item "name"
                         (YStr (prefix +++ "_" +++ str_of_index i)))) in
          _parse_generic_step step_id item)
       (enumerated_dicts items).

(** The loop over [("agents", "tasks", "pipeline")]: it stops at the first
    key whose value (an empty list when the key is absent) is a list. *)
Fixpoint generic_fallback (keys : list string) (raw : dict yaml)
    : result (list ParsedStep) :=
  match keys with
  | [] => Ok []
  | key :: rest =>
      match get_or raw key (YList []) with
      | YList items => parse_generic_items key items
      | _ => generic_fallback rest raw
      end
  end.

Definition parse_generic (raw : dict yaml) (source_path : option string)
    : result ParsedWorkflow :=
  let name :=
    py_str (get_or raw "name" (get_or raw "workflow" (YStr "unnamed"))) in
  steps <-
    match get_or raw "steps" (YList []) with
    | YList items => parse_generic_items "step" items
    | YMap entries =>
        mapM (fun kv => _parse_generic_step (fst kv) (snd kv))
             (flat_map (fun kv => match snd kv with
                                  | YMap config => [(fst kv, config)]
                                  | _ => []
                                  end) entries)
    | _ => Ok []
    end ;;
  steps <-
    match steps with
    | [] => generic_fallback [ "agents"; "tasks"; "pipeline" ] raw
    | _ => Ok steps
    end ;;
  token_budget <-
    validate_opt_int (py_or (yget raw "token_budget") (yget raw "budget")) ;;
  inputs <- validate_dict (get_or raw "inputs" (YMap [])) ;;
  outputs <-
    match yget raw "outputs" with
    | YList os => validate_str_list (YList os)
    | _ => Ok []
    end ;;
  metadata <- validate_dict (get_or raw "metadata" (YMap [])) ;;
  Ok (Workflow.Build name "1.0" "" GENERIC token_budget None steps inputs
        outputs metadata source_path).

(** The detection order as the specification words it: the first of the
    four tests that holds decides, the step-graph test being "some item of
    a [steps] list is a mapping whose [type] is in the vocabulary". *)
Definition detect_format_cascade (raw : dict yaml) : WorkflowFormat :=
  if dict_has "agents" raw && dict_has "tasks" raw then CREWAI
  else if dict_has "nodes" raw || dict_has "edges" raw then LANGCHAIN
  else if match get_or raw "metadata" (YMap []) with
          | YMap m => str_contains "langgraph" (str_lower (py_str (YMap m)))
          | _ => false
          end
  then LANGCHAIN
  else if match dict_get "steps" raw with
          | Some (YList items) =>
              existsb (fun item =>
                         match item with
                         | YMap d =>
                             match dict_get "type" d with
                             | Some (YStr t) => str_in t _GORGON_STEP_TYPES
                             | _ => false
                             end
                         | _ => false
                         end) items
          | _ => false
          end
  then GORGON
  else GENERIC.

(** A step item whose [type], if any, can be hashed. *)
Definition hashable_type (item : yaml) : bool :=
  match item with
  | YMap d =>
      match yget d "type" with
      | YList _ | YMap _ => false
      | _ => true
      end
  | _ => true
  end.

(* ================================================================== *)
(** * Proof steps shared by the rule lemmas *)
(* ================================================================== *)

(** Case analysis on the tests that guard the single finding of a rule
    body. *)
Ltac split_cases :=
  repeat match goal with
         | H : In _ (if ?c then _ else _) |- _ => destruct c
         | H : In _ (match ?c with _ => _ end) |- _ => destruct c
         | H : In _ [] |- _ => destruct H
         | H : In _ [ _ ] |- _ => destruct H as [ H | [] ]
         end.

(** A rule that maps one test over the steps: every finding is the rule's
    finding for one step; [flat_map_fact] is the list fact this rests on. *)
Ltac per_step flat_map_fact Hfunc Hin rid cat sev :=
  injection Hfunc as <-;
  revert Hin; apply (flat_map_fact _ rid cat sev);
  let s := fresh "s" in
  let f := fresh "f" in
  let Hf := fresh "Hf" in
  intros s f Hf; split_cases; symmetry; assumption.


(** A sequence of fallible steps that ends well: every step did. *)
Ltac bind_inv H :=
  match type of H with
  | bind ?c _ = Ok _ =>
      let x := fresh "x" in
      let E := fresh "E" in
      destruct c as [ x | ? ] eqn:E; cbn [bind] in H; [ | discriminate H ]
  end.

(** What wiring the edges keeps of a step: everything but its dependency
    list (stated for the fields the rules read). *)
Definition same_but_dependencies (s0 s : ParsedStep) : Prop :=
  Step.id s = Step.id s0
  /\ Step.step_type s = Step.step_type s0
  /\ Step.raw_params s = Step.raw_params s0.

(* ================================================================== *)
(** * pricing.py: loading and listing *)
(* ================================================================== *)

(** [d[k] = v]: a key that is already there keeps its place. *)
Fixpoint dict_set {V : Type} (k : string) (v : V) (d : dict V) : dict V :=
  match d with
  | [] => [(k, v)]
  | (k', v') :: rest =>
      if String.eqb k k' then (k', v) :: rest
      else (k', v') :: dict_set k v rest
  end.

(** [d.keys()]. *)
Definition dict_keys {V : Type} (d : dict V) : list string :=
  map fst d.

(** [sorted(xs)] for strings, which Python orders by code point. *)
Fixpoint insert_sorted (x : string) (l : list string) : list string :=
  match l with
  | [] => [x]
  | y :: rest =>
      if String.leb x y then x :: l else y :: insert_sorted x rest
  end.

Definition py_sorted (l : list string) : list string :=
  fold_right insert_sorted [] l.

Section WithFloatParsing.
Context {fp : FloatParsing}.

(** [float(v)]. *)
Definition py_float (v : yaml) : result float :=
  match v with
  | YFloat f => Ok f
  | YInt z => float_of_int z
  | YBool b => float_of_int (if b then 1 else 0)
  | YStr s =>
      match float_of_str s with
      | Some f => Ok f
      | None => Raise ValueError
      end
  | YNull | YList _ | YMap _ => Raise TypeError
  end.

(** [ModelPricing(name=..., ...)] for one entry of a provider's [models];
    the arguments are evaluated from left to right. *)
Definition load_model (provider_name model_name : string)
    (model_data : dict yaml) : result ModelPricing :=
  input <- py_float (get_or model_data "input" (YInt 0)) ;;
  output <- py_float (get_or model_data "output" (YInt 0)) ;;
  context <- py_int (get_or model_data "context" (YInt 0)) ;;
  let notes := py_str (get_or model_data "notes" (YStr "")) in
  Ok (Pricing.Build_ModelPricing model_name provider_name input output
        context notes).

(** The loop over [provider_data.get("models", {}).items()]. *)
Fixpoint load_models_loop (provider_name : string)
    (entries : list (string * yaml)) (models : dict ModelPricing)
    : result (dict ModelPricing) :=
  match entries with
  | [] => Ok models
  | (model_name, model_data) :: rest =>
      match model_data with
      | YMap d =>
          pricing <- load_model provider_name model_name d ;;
          load_models_loop provider_name rest
            (dict_set model_name pricing models)
      | _ => load_models_loop provider_name rest models
      end
  end.

(** The loop over [providers_raw.items()]; [.items()] exists only on a
    dict. *)
Fixpoint load_providers_loop (entries : list (string * yaml))
    (loaded : dict ProviderConfig) : result (dict ProviderConfig) :=
  match entries with
  | [] => Ok loaded
  | (provider_name, provider_data) :: rest =>
      match provider_data with
      | YMap d =>
          models <-
            match get_or d "models" (YMap []) with
            | YMap model_entries =>
                load_models_loop provider_name model_entries []
            | _ => Raise AttributeError
            end ;;
          let config :=
            Pricing.Build_ProviderConfig provider_name models
              (py_str (get_or d "default_model" (YStr ""))) in
          load_providers_loop rest (dict_set provider_name config loaded)
      | _ => load_providers_loop rest loaded
      end
  end.

(** The part of [load_providers] that follows [yaml.safe_load]: [raw.get]
    exists only on a dict. *)
Definition parse_providers (raw : yaml) : result (dict ProviderConfig) :=
  match raw with
  | YMap top =>
      match get_or top "providers" (YMap []) with
      | YMap providers_raw => load_providers_loop providers_raw []
      | _ => Raise PricingError
      end
  | _ => Raise AttributeError
  end.

(** What reading and parsing the file at a path gives; [None] when that
    raises [OSError] or [YAMLError].  The path [None] is the bundled
    [PROVIDERS_FILE]. *)
Definition pricing_files : Type := option string -> option yaml.

(** [load_providers], with the module-level [_cached_providers] as a state:
    the result, and the cache afterwards. *)
Definition load_providers (files : pricing_files) (path : option string)
    (_cached_providers : option (dict ProviderConfig))
    : result (dict ProviderConfig) * option (dict ProviderConfig) :=
  match _cached_providers, path with
  | Some cached, None => (Ok cached, _cached_providers)
  | _, _ =>
      match files path with
      | None => (Raise PricingError, _cached_providers)
      | Some raw =>
          match parse_providers raw with
          | Raise e => (Raise e, _cached_providers)
          | Ok loaded =>
              (Ok loaded,
               match path with
               | None => Some loaded
               | Some _ => _cached_providers
               end)
          end
      end
  end.

End WithFloatParsing.

Definition reset_cache (_cached_providers : option (dict ProviderConfig))
    : option (dict ProviderConfig) :=
  None.

(** [list_providers] and [list_models]; as for [get_model_pricing], the
    table is an argument. *)
Definition list_providers (providers : dict ProviderConfig) : list string :=
  py_sorted (dict_keys providers).

Definition list_models (providers : dict ProviderConfig) (provider : string)
    : list string :=
  match dict_get provider providers with
  | None => []
  | Some config => py_sorted (dict_keys (Pricing.models config))
  end.

(* ================================================================== *)
(** * comparator.py *)
(* ================================================================== *)

Definition fsub : float -> float -> float := SFsub prec emax.

(** The literal [1], as a float. *)
Definition float_one : float := S754_finite false 4503599627370496 (-52).

(** [f > i]. *)
Definition float_gt_int (f : float) (i : Z) : bool :=
  match float_compare_int f i with
  | Some Gt => true
  | _ => false
  end.

(** [min(items, key=key)] and [max(items, key=key)] on a sequence that
    starts with [first]: a later item takes the place of the current one
    only when its key is strictly smaller (strictly larger). *)
Definition min_by_key {A : Type} (key : A -> float) (first : A)
    (rest : list A) : A :=
  fold_left (fun best x => if SFltb (key x) (key best) then x else best)
            rest first.

Definition max_by_key {A : Type} (key : A -> float) (first : A)
    (rest : list A) : A :=
  fold_left (fun best x => if SFltb (key best) (key x) then x else best)
            rest first.

(** [compare_providers]; [all_providers] is the table that
    [load_providers] returns. *)
Definition compare_providers (all_providers : dict ProviderConfig)
    (workflow : ParsedWorkflow) (providers : option (list string))
    : result CompareResult :=
  let providers :=
    match providers with
    | None => list_providers all_providers
    | Some ps => ps
    end in
  estimates <-
    mapM (fun provider =>
            estimate_workflow all_providers workflow (Some provider) None)
         providers ;;
  match estimates with
  | [] => Ok (Compare.Build (Workflow.name workflow) [] "" "" float_zero)
  | first :: rest =>
      let cheapest := min_by_key WfEst.total_cost_usd first rest in
      let most_expensive := max_by_key WfEst.total_cost_usd first rest in
      let savings :=
        if float_gt_int (WfEst.total_cost_usd most_expensive) 0
        then
          round_ndigits
            (fmul (fsub float_one
                     (fdiv (WfEst.total_cost_usd cheapest)
                           (WfEst.total_cost_usd most_expensive)))
                  float_hundred) 1
        else float_zero in
      Ok (Compare.Build (Workflow.name workflow) estimates
            (WfEst.provider cheapest) (WfEst.provider most_expensive) savings)
  end.

(* ================================================================== *)
(** * parsers/__init__.py: dispatch *)
(* ================================================================== *)

(** [parse_workflow], from the mapping that [load_yaml] returns; [path] is
    [str(path)]. *)
Definition parse_workflow (raw : dict yaml) (path : string)
    : result ParsedWorkflow :=
  fmt <- detect_format raw ;;
  match fmt with
  | GORGON => parse_gorgon raw (Some path)
  | CREWAI => parse_crewai raw (Some path)
  | LANGCHAIN => parse_langchain raw (Some path)
  | GENERIC => parse_generic raw (Some path)
  end.

(* ================================================================== *)
(** * Names for what the estimator computes on the way *)
(* ================================================================== *)

(** The provider and the model that [estimate_workflow] settles on for the
    workflow ([provider] and [model] after the first two blocks of its
    body), and those it passes to [estimate_step] for one step
    ([step_provider] and [step_model]). *)
Definition workflow_provider (workflow : ParsedWorkflow)
    (provider : option string) : string :=
  match provider with
  | Some p => p
  | None =>
      match first_step_provider (Workflow.steps workflow) with
      | Some p => p
      | None => "anthropic"
      end
  end.

Definition workflow_model (providers : dict ProviderConfig)
    (workflow : ParsedWorkflow) (provider model : option string) : string :=
  match model with
  | Some m => m
  | None =>
      match dict_get (workflow_provider workflow provider) providers with
      | Some config => Pricing.default_model config
      | None => "unknown"
      end
  end.

Definition step_provider_of (workflow : ParsedWorkflow)
    (provider : option string) (step : ParsedStep) : string :=
  match provider with
  | Some p => p
  | None => str_or (Step.provider step) (workflow_provider workflow provider)
  end.

Definition step_model_of (providers : dict ProviderConfig)
    (workflow : ParsedWorkflow) (provider model : option string)
    (step : ParsedStep) : string :=
  str_or (Step.model step) (workflow_model providers workflow provider model).

(** The token side of a step estimate: everything but the provider, the
    model and the cost. *)
Definition token_view (e : StepEstimate)
    : string * StepType * option string * Z * Z * Z * Source :=
  (StepEst.step_id e, StepEst.step_type e, StepEst.role e,
   StepEst.estimated_tokens e, StepEst.input_tokens e,
   StepEst.output_tokens e, StepEst.source e).

(* ================================================================== *)
(** * Names for what the node/edge normalizer computes on the way *)
(* ================================================================== *)

(** The two ends of an edge, as [parse_langchain] reads them. *)
Definition edge_source (e : dict yaml) : string :=
  py_str (get_or e "source" (get_or e "from" (YStr ""))).

Definition edge_target (e : dict yaml) : string :=
  py_str (get_or e "target" (get_or e "to" (YStr ""))).

(** What the loop over [edges] does to one step for one edge. *)
Definition wire_step (step_ids : list string) (edge : yaml) (s : ParsedStep)
    : ParsedStep :=
  match edge with
  | YMap e =>
      if str_in (edge_source e) step_ids && str_in (edge_target e) step_ids
      then
        if String.eqb (Step.id s) (edge_target e)
           && negb (str_in (edge_source e) (Step.depends_on s))
        then append_dependency (edge_source e) s
        else s
      else s
  | _ => s
  end.

(* ================================================================== *)
(** * Proof automation for the float order *)
(* ================================================================== *)

(** Case analysis on the signs, exponents and mantissas of the floats in
    a goal about [SFltb]. *)
Ltac float_order_cases :=
  unfold SFltb, SFcompare;
  repeat match goal with
         | f : spec_float |- _ => destruct f
         | f : float |- _ => destruct f
         | s : bool |- _ => destruct s
         end;
  try discriminate; try reflexivity; try congruence;
  repeat match goal with
         | |- context [ (?a ?= ?b)%Z ] => destruct (Z.compare_spec a b)
         | H : context [ (?a ?= ?b)%Z ] |- _ => destruct (Z.compare_spec a b)
         end;
  subst; try discriminate; try reflexivity; try congruence; try lia;
  change PosDef.Pos.compare_cont with Pos.compare_cont in *;
  fold Pos.compare in *;
  repeat match goal with
         | |- context [ (?a ?= ?b)%positive ] => destruct (Pos.compare_spec a b)
         | H : context [ (?a ?= ?b)%positive ] |- _ =>
             destruct (Pos.compare_spec a b)
         end;
  subst; cbn [CompOpp] in *;
  try discriminate; try reflexivity; try congruence; try lia.

(* ================================================================== *)
(** * Properties *)
(* ================================================================== *)

(** ** Generic facts about fallible loops *)

Lemma mapM_Forall2 {A B : Type} (f : A -> result B) (xs : list A) (ys : list B) :
  mapM f xs = Ok ys -> Forall2 (fun x y => f x = Ok y) xs ys.
Proof.
  revert ys. induction xs as [ | x xs IH ]; intros ys H; cbn in H.
  - injection H as <-. constructor.
  - destruct (f x) as [ y | e ] eqn:Hx; cbn in H; [ | discriminate ].
    destruct (mapM f xs) as [ ys' | e ] eqn:Hxs; cbn in H; [ | discriminate ].
    injection H as <-. constructor; [ exact Hx | apply IH; reflexivity ].
Qed.

Lemma mapM_all_ok {A B : Type} (f : A -> result B) (g : A -> B) (xs : list A) :
  (forall x, In x xs -> f x = Ok (g x)) -> mapM f xs = Ok (map g xs).
Proof.
  induction xs as [ | x xs IH ]; intro H; cbn; [ reflexivity | ].
  rewrite (H x (or_introl eq_refl)). cbn.
  rewrite IH by (intros y Hy; apply H; right; exact Hy). reflexivity.
Qed.

Lemma mapM_in_concat {A B : Type} (f : A -> result (list B)) (xs : list A)
    (ys : list (list B)) (b : B) :
  mapM f xs = Ok ys -> In b (List.concat ys) ->
  exists x l, In x xs /\ f x = Ok l /\ In b l.
Proof.
  intros HM. apply mapM_Forall2 in HM. induction HM as [ | x l xs ls Hx _ IH ].
  - intros [].
  - cbn [List.concat]. intro Hin. apply in_app_or in Hin as [ Hin | Hin ].
    + exists x, l. split; [ left; reflexivity | split; assumption ].
    + destruct (IH Hin) as [ x' [ l' [ Hx' H' ] ] ].
      exists x', l'. split; [ right; exact Hx' | exact H' ].
Qed.

(** ** Binary64 rounding *)

Lemma digits2_pos_bounds (p : positive) :
  2 ^ (Z.pos (digits2_pos p) - 1) <= Z.pos p < 2 ^ Z.pos (digits2_pos p).
Proof.
  induction p as [ p IH | p IH | ]; cbn [digits2_pos].
  - rewrite Pos2Z.inj_succ, Z.pow_succ_r by lia.
    replace (Z.succ (Z.pos (digits2_pos p)) - 1)
      with (Z.succ (Z.pos (digits2_pos p) - 1)) by lia.
    rewrite Z.pow_succ_r by lia. lia.
  - rewrite Pos2Z.inj_succ, Z.pow_succ_r by lia.
    replace (Z.succ (Z.pos (digits2_pos p)) - 1)
      with (Z.succ (Z.pos (digits2_pos p) - 1)) by lia.
    rewrite Z.pow_succ_r by lia. lia.
  - cbn. lia.
Qed.

Lemma digits2_pos_unique (p : positive) (k : Z) :
  2 ^ (k - 1) <= Z.pos p < 2 ^ k -> Z.pos (digits2_pos p) = k.
Proof.
  intros [ Hlo Hhi ]. pose proof (digits2_pos_bounds p) as [ Blo Bhi ].
  set (d := Z.pos (digits2_pos p)) in *.
  assert (0 < k) by (destruct k; cbn in Hhi; lia).
  assert (Hd : 0 < d) by (unfold d; lia).
  assert (d - 1 < k) by (apply (Z.pow_lt_mono_r_iff 2); lia).
  assert (k - 1 < d) by (apply (Z.pow_lt_mono_r_iff 2); lia).
  lia.
Qed.

Lemma iter_xO_pow (n p : positive) :
  Z.pos (Pos.iter xO p n) = Z.pos p * 2 ^ Z.pos n.
Proof.
  induction n as [ | n IH ] using Pos.peano_ind.
  - cbn. lia.
  - rewrite Pos.iter_succ, Pos2Z.inj_succ, Z.pow_succ_r by lia.
    rewrite Pos2Z.inj_xO, IH. lia.
Qed.

Lemma iter_pos_nat {A : Type} (f : A -> A) (n : positive) (x : A) :
  iter_pos f n x = Nat.iter (Pos.to_nat n) f x.
Proof.
  revert x. induction n as [ n IH | n IH | ]; intro x; cbn [iter_pos].
  - rewrite Pos2Nat.inj_xI, !IH, Nat.iter_succ_r.
    replace (2 * Pos.to_nat n)%nat with (Pos.to_nat n + Pos.to_nat n)%nat by lia.
    now rewrite Nat.iter_add.
  - rewrite Pos2Nat.inj_xO, !IH.
    replace (2 * Pos.to_nat n)%nat with (Pos.to_nat n + Pos.to_nat n)%nat by lia.
    now rewrite Nat.iter_add.
  - reflexivity.
Qed.

Lemma shr_1_inv (M k : Z) (mrs : shr_record) :
  0 <= k -> shr_inv M k mrs -> shr_inv M (k + 1) (shr_1 mrs).
Proof.
  intros Hk [ Hm [ D [ HM [ HD Hs ] ] ] ]. unfold shr_inv.
  destruct mrs as [ m r s ]. cbn [shr_m shr_r shr_s] in *.
  rewrite Z.pow_add_r, Z.pow_1_r by lia.
  assert (Hp : 0 < 2 ^ k) by (apply Z.pow_pos_nonneg; lia).
  assert (Hs' : orb r s = true <-> 0 < 2 ^ k * b2z r + D).
  { destruct r; cbn [orb b2z].
    - split; intro; [ lia | reflexivity ].
    - rewrite Hs. lia. }
  assert (HD' : 0 <= 2 ^ k * b2z r + D < 2 ^ k * 2)
    by (destruct r; cbn [b2z]; lia).
  destruct m as [ | [ p | p | ] | p ]; try lia; cbn [shr_1 shr_m shr_r shr_s];
    (split; [ lia | ]); exists (2 ^ k * b2z r + D);
    (split; [ | split; assumption ]); cbn [b2z].
  - rewrite HM. ring.
  - rewrite HM, (Pos2Z.inj_xI p). ring.
  - rewrite HM, (Pos2Z.inj_xO p). ring.
  - rewrite HM. ring.
Qed.

Lemma shr_iter_inv (M : Z) (n : nat) :
  0 <= M ->
  shr_inv M (Z.of_nat n) (Nat.iter n shr_1 (Build_shr_record M false false)).
Proof.
  intro HM. induction n as [ | n IH ].
  - unfold shr_inv, Nat.iter. cbn [nat_rect shr_m shr_r shr_s b2z Z.of_nat].
    rewrite Z.pow_0_r. split; [ exact HM | ]. exists 0.
    split; [ lia | split; [ lia | ] ]. split; [ discriminate | lia ].
  - rewrite Nat2Z.inj_succ, Nat.iter_succ. unfold Z.succ.
    apply shr_1_inv; [ lia | exact IH ].
Qed.

(** Shifting [M] right by [n] bits and rounding the kept bits to nearest
    (ties to even) moves [M] by at most half a unit of the last kept bit. *)
Lemma shr_round_error (M : Z) (n : positive) :
  0 <= M ->
  let mrs := iter_pos shr_1 n (Build_shr_record M false false) in
  let m1 := round_nearest_even (shr_m mrs) (loc_of_shr_record mrs) in
  2 ^ (Z.pos n + 1) * m1 - 2 ^ Z.pos n <= 2 * M
    <= 2 ^ (Z.pos n + 1) * m1 + 2 ^ Z.pos n.
Proof.
  intros HM mrs m1. subst m1 mrs. rewrite iter_pos_nat.
  pose proof (shr_iter_inv M (Pos.to_nat n) HM) as [ Hm [ D [ HD [ HDb Hs ] ] ] ].
  rewrite positive_nat_Z in *.
  destruct (Nat.iter (Pos.to_nat n) shr_1 _) as [ m r s ].
  cbn [shr_m shr_r shr_s] in *.
  rewrite Z.pow_add_r, Z.pow_1_r by lia.
  assert (Hp : 0 < 2 ^ Z.pos n) by (apply Z.pow_pos_nonneg; lia).
  assert (Hz : s = false -> D = 0).
  { intro Hf. destruct (Z.eq_dec D 0) as [ | Hne ]; [ assumption | ].
    assert (HDp : 0 < D) by lia. apply Hs in HDp. congruence. }
  destruct r, s; cbn [loc_of_shr_record round_nearest_even b2z] in *.
  - assert (0 < D) by (apply Hs; reflexivity). lia.
  - rewrite (Hz eq_refl) in *. destruct (Z.even m); lia.
  - assert (0 < D) by (apply Hs; reflexivity). lia.
  - rewrite (Hz eq_refl) in *. lia.
Qed.

Lemma fexp_normal (e : Z) : -1021 <= e -> fexp prec emax e = e - 53.
Proof. unfold fexp, SpecFloat.emin, prec, emax. lia. Qed.

(** A 53-bit mantissa with an exponent in range is not rounded. *)
Lemma binary_round_aux_exact (m : positive) (e : Z) :
  Z.pos (digits2_pos m) = 53 -> -1074 <= e <= 971 ->
  binary_round_aux prec emax false (Z.pos m) e loc_Exact = S754_finite false m e.
Proof.
  intros Hd He. unfold binary_round_aux, shr_fexp.
  cbn [Zdigits2 shr_record_of_loc]. rewrite Hd, fexp_normal by lia.
  replace (53 + e - 53 - e) with 0 by lia.
  cbn [shr shr_m loc_of_shr_record round_nearest_even Zdigits2 shr_record_of_loc].
  rewrite Hd, fexp_normal by lia.
  replace (53 + e - 53 - e) with 0 by lia. cbn [shr shr_m].
  unfold prec, emax. destruct (Z.leb_spec e (1024 - 53)); [ reflexivity | lia ].
Qed.

(** [float(T)] is exact for a positive integer of at most 52 bits. *)
Lemma float_of_int_small (T : positive) :
  let d := Z.pos (digits2_pos T) in
  d <= 52 ->
  exists mT, Z.pos mT = Z.pos T * 2 ^ (53 - d)
             /\ float_of_int (Z.pos T) = Ok (S754_finite false mT (d - 53)).
Proof.
  intros d Hd. unfold float_of_int, binary_normalize, binary_round.
  fold d. replace (d + 0) with d by lia.
  assert (Hdp : 0 < d) by (unfold d; lia).
  rewrite fexp_normal by lia. unfold shl_align.
  destruct (d - 53 - 0) as [ | k | k ] eqn:Hk; try lia.
  exists (Pos.iter xO T k).
  assert (Hm : Z.pos (Pos.iter xO T k) = Z.pos T * 2 ^ (53 - d)).
  { rewrite iter_xO_pow. f_equal. f_equal. lia. }
  split; [ exact Hm | ].
  rewrite binary_round_aux_exact; [ reflexivity | | lia ].
  apply digits2_pos_unique. rewrite Hm.
  pose proof (digits2_pos_bounds T) as [ Blo Bhi ]. fold d in Blo, Bhi.
  assert (E1 : 2 ^ (53 - 1) = 2 ^ (d - 1) * 2 ^ (53 - d))
    by (rewrite <- Z.pow_add_r by lia; f_equal; lia).
  assert (E2 : 2 ^ 53 = 2 ^ d * 2 ^ (53 - d))
    by (rewrite <- Z.pow_add_r by lia; f_equal; lia).
  rewrite E1, E2.
  assert (0 < 2 ^ (53 - d)) by (apply Z.pow_pos_nonneg; lia).
  split; [ apply Z.mul_le_mono_nonneg_r | apply Z.mul_lt_mono_pos_r ]; lia.
Qed.

(** The rounded product [M * 2^E] of two floats, truncated to an integer,
    when [M] has [53 + n] bits and the result is below [2^53]. *)
Lemma round_product (M n : positive) (E : Z) :
  Z.pos (digits2_pos M) = 53 + Z.pos n ->
  -1074 <= E + Z.pos n < 0 ->
  exists m1,
    2 ^ (Z.pos n + 1) * m1 - 2 ^ Z.pos n <= 2 * Z.pos M
      <= 2 ^ (Z.pos n + 1) * m1 + 2 ^ Z.pos n
    /\ int_of_float (binary_round_aux prec emax false (Z.pos M) E loc_Exact)
       = Ok (m1 / 2 ^ (- (E + Z.pos n))).
Proof.
  intros Hd He.
  pose proof (shr_round_error (Z.pos M) n ltac:(lia)) as Herr. cbv zeta in Herr.
  unfold binary_round_aux, shr_fexp at 1.
  cbn [Zdigits2 shr_record_of_loc]. rewrite Hd, fexp_normal by lia.
  replace (53 + Z.pos n + E - 53 - E) with (Z.pos n) by lia. cbn [shr].
  set (mrs := iter_pos shr_1 n _) in *.
  set (m1 := round_nearest_even (shr_m mrs) (loc_of_shr_record mrs)) in *.
  exists m1. split; [ exact Herr | ].
  pose proof (digits2_pos_bounds M) as [ Blo Bhi ]. rewrite Hd in Blo, Bhi.
  replace (53 + Z.pos n - 1) with (Z.pos n + 52) in Blo by lia.
  rewrite Z.pow_add_r in Blo, Bhi by lia.
  rewrite Z.pow_add_r, Z.pow_1_r in Herr by lia.
  assert (Hp : 0 < 2 ^ Z.pos n) by (apply Z.pow_pos_nonneg; lia).
  assert (Hm1 : 2 ^ 52 <= m1 <= 2 ^ 53) by nia.
  destruct (Z.eq_dec m1 (2 ^ 53)) as [ Heq | Hne ].
  - (* the rounding carried into a 54th bit *)
    rewrite Heq. unfold shr_fexp.
    change (Zdigits2 (2 ^ 53)) with 54. rewrite fexp_normal by lia.
    replace (54 + (E + Z.pos n) - 53 - (E + Z.pos n)) with 1 by lia.
    cbn [shr_record_of_loc shr iter_pos].
    change (shr_m (shr_1 {| shr_m := 2 ^ 53; shr_r := false; shr_s := false |}))
      with (2 ^ 52).
    change (2 ^ 52) with (Z.pos (2 ^ 52)) at 1. cbv iota.
    unfold prec, emax.
    destruct (Z.leb_spec (E + Z.pos n + 1) (1024 - 53)); [ | lia ].
    cbn [int_of_float]. f_equal.
    destruct (Z.leb_spec 0 (E + Z.pos n + 1)).
    + replace (E + Z.pos n + 1) with 0 by lia.
      replace (- (E + Z.pos n)) with 1 by lia. reflexivity.
    + replace (- (E + Z.pos n)) with (1 + (- (E + Z.pos n + 1))) by lia.
      rewrite Z.pow_add_r by lia.
      change (2 ^ 53) with (2 ^ 1 * Z.pos (2 ^ 52)).
      rewrite Z.div_mul_cancel_l; [ reflexivity | | lia ].
      apply Z.pow_nonzero; lia.
  - destruct m1 as [ | p1 | p1 ]; try lia.
    unfold shr_fexp. cbn [Zdigits2 shr_record_of_loc].
    rewrite (digits2_pos_unique p1 53) by (change (53 - 1) with 52; lia).
    rewrite fexp_normal by lia.
    replace (53 + (E + Z.pos n) - 53 - (E + Z.pos n)) with 0 by lia.
    cbn [shr shr_m]. unfold prec, emax.
    destruct (Z.leb_spec (E + Z.pos n) (1024 - 53)); [ | lia ].
    cbn [int_of_float]. f_equal.
    destruct (Z.leb_spec 0 (E + Z.pos n)); [ lia | reflexivity ].
Qed.

(** The arithmetic behind the split: [a * T] is the 53-bit mantissa of
    [float(T)], [N * U = a * 2^54], and [m1] is within half a unit of the
    exact product divided by [N]. *)
Lemma split_arith (T a N U m1 : Z) :
  0 < T -> 0 < a -> a * T < 2 ^ 53 ->
  2 ^ 52 <= N -> 8 <= U -> N * U = a * 2 ^ 54 ->
  2 * N * m1 - N <= 2 * (a * T * 5404319552844595) <= 2 * N * m1 + N ->
  m1 / U = 3 * T / 10.
Proof.
  intros HT Ha HaT HN HU HNU Herr.
  symmetry. apply Z.div_unique with (r := m1 - (3 * T / 10) * U); [ | ring ].
  left.
  pose proof (Z.div_mod (3 * T) 10 ltac:(lia)) as Hq.
  pose proof (Z.mod_pos_bound (3 * T) 10 ltac:(lia)) as Hr.
  set (q := 3 * T / 10) in *. set (r := (3 * T) mod 10) in *.
  change (2 ^ 52) with 4503599627370496 in *.
  change (2 ^ 53) with 9007199254740992 in *.
  change (2 ^ 54) with 18014398509481984 in *.
  assert (H10 : 10 * (a * T * 5404319552844595)
                = (10 * q + r) * (N * U) - 2 * (a * T)).
  { rewrite HNU. rewrite <- Hq. ring. }
  assert (Hq0 : 0 <= q) by (unfold q; apply Z.div_pos; lia).
  split.
  - assert (20 * N * (q * U) - 20 * N < 20 * N * m1) by nia.
    nia.
  - assert (20 * N * m1 < 20 * N * ((q + 1) * U)) by nia.
    nia.
Qed.

Lemma split_tokens_floor (T : Z) :
  0 <= T < 2 ^ 50 ->
  _split_tokens T = Ok (3 * T / 10, T - 3 * T / 10).
Proof.
  intros [ H0 H50 ]. destruct T as [ | p | p ]; [ reflexivity | | lia ].
  pose proof (digits2_pos_bounds p) as [ Blo Bhi ].
  set (d := Z.pos (digits2_pos p)) in *.
  assert (Hd1 : 1 <= d) by (unfold d; lia).
  assert (Hd : d <= 50).
  { assert (d - 1 < 50) by (apply (Z.pow_lt_mono_r_iff 2); lia). lia. }
  destruct (float_of_int_small p ltac:(fold d; lia)) as [ mT [ HmT Hf ] ].
  fold d in HmT, Hf. unfold _split_tokens, mul_int_float. rewrite Hf.
  unfold INPUT_OUTPUT_RATIO, fmul. cbn [bind SFmul xorb].
  set (m3 := 5404319552844595%positive).
  set (a := 2 ^ (53 - d)) in *.
  assert (Ha : 0 < a) by (apply Z.pow_pos_nonneg; lia).
  assert (HmTb : 2 ^ 52 <= Z.pos mT < 2 ^ 53).
  { rewrite HmT.
    assert (E1 : 2 ^ 52 = 2 ^ (d - 1) * a)
      by (unfold a; rewrite <- Z.pow_add_r by lia; f_equal; lia).
    assert (E2 : 2 ^ 53 = 2 ^ d * a)
      by (unfold a; rewrite <- Z.pow_add_r by lia; f_equal; lia).
    rewrite E1, E2.
    split; [ apply Z.mul_le_mono_nonneg_r | apply Z.mul_lt_mono_pos_r ]; lia. }
  set (M := (mT * m3)%positive).
  assert (HM : Z.pos M = Z.pos p * a * 5404319552844595).
  { unfold M. rewrite Pos2Z.inj_mul, HmT. reflexivity. }
  pose proof (digits2_pos_bounds M) as [ MBlo MBhi ].
  set (D := Z.pos (digits2_pos M)) in *.
  assert (HMb : 2 ^ 104 <= Z.pos M < 2 ^ 106).
  { unfold M. rewrite Pos2Z.inj_mul. unfold m3.
    change (2 ^ 104) with (2 ^ 52 * 2 ^ 52).
    change (2 ^ 106) with (2 ^ 53 * 2 ^ 53).
    change (2 ^ 52) with 4503599627370496 in *.
    change (2 ^ 53) with 9007199254740992 in *. nia. }
  assert (HD : D = 105 \/ D = 106).
  { assert (0 < D) by (unfold D; lia).
    assert (D - 1 < 106) by (apply (Z.pow_lt_mono_r_iff 2); lia).
    assert (104 < D) by (apply (Z.pow_lt_mono_r_iff 2); lia). lia. }
  assert (Hn : exists n : positive, D = 53 + Z.pos n /\ 52 <= Z.pos n <= 53).
  { exists (Z.to_pos (D - 53)). rewrite Z2Pos.id by lia. lia. }
  destruct Hn as [ n [ HDn Hnb ] ].
  destruct (round_product M n (d - 53 + -54)) as [ m1 [ Herr Hres ] ];
    [ exact HDn | lia | ].
  fold M. rewrite Hres. cbn [bind]. f_equal.
  assert (Hq : m1 / 2 ^ (- (d - 53 + -54 + Z.pos n)) = 3 * Z.pos p / 10).
  { apply (split_arith (Z.pos p) a (2 ^ Z.pos n)).
    - lia.
    - exact Ha.
    - rewrite Z.mul_comm, <- HmT. lia.
    - apply Z.pow_le_mono_r; lia.
    - change 8 with (2 ^ 3). apply Z.pow_le_mono_r; lia.
    - unfold a. change 18014398509481984 with (2 ^ 54).
      rewrite <- !Z.pow_add_r by lia. f_equal. lia.
    - rewrite Z.pow_add_r, Z.pow_1_r in Herr by lia.
      rewrite HM in Herr. lia. }
  rewrite Hq. reflexivity.
Qed.

Lemma split_tokens_sum (T input output : Z) :
  _split_tokens T = Ok (input, output) -> input + output = T.
Proof.
  unfold _split_tokens. intro H.
  destruct (mul_int_float T INPUT_OUTPUT_RATIO) as [ x | e ]; cbn in H;
    [ | discriminate ].
  destruct (int_of_float x) as [ i | e ]; cbn in H; [ | discriminate ].
  injection H as <- <-. lia.
Qed.

Lemma split_tokens_no_pricing_error (T : Z) :
  _split_tokens T <> Raise PricingError.
Proof.
  unfold _split_tokens, mul_int_float, float_of_int.
  destruct (binary_normalize prec emax T 0 false) as [ s | s | | s m e ];
    cbn [bind]; try discriminate;
    match goal with
    | |- context [int_of_float ?x] => destruct x as [ s' | s' | | s' m' e' ]
    end; cbn; discriminate.
Qed.

(** ** The input/output split *)

(** C6, as stated, fails: at [T = 7505999378950833] the binary64 product
    [T * 0.3] rounds up to the integer above the exact floor of three tenths
    of [T]. *)
Lemma split_tokens_floor_counterexample :
  exists input output,
    _split_tokens 7505999378950833 = Ok (input, output)
    /\ input + output = 7505999378950833
    /\ input <> 3 * 7505999378950833 / 10.
Proof.
  exists 2251799813685250, 5254199565265583.
  split; [ vm_compute; reflexivity | ].
  split; [ reflexivity | ]. vm_compute. discriminate.
Qed.

(** C6, amended: whenever the split returns, the two parts add up to the
    total; and for every total [0 <= T < 2^50] it returns with
    [input_tokens] the exact floor of three tenths of [T]. *)
Theorem split_tokens_exact (T : Z) :
  (forall input output,
      _split_tokens T = Ok (input, output) -> input + output = T)
  /\ (0 <= T < 2 ^ 50 ->
      _split_tokens T = Ok (3 * T / 10, T - 3 * T / 10)).
Proof.
  split.
  - intros input output. apply split_tokens_sum.
  - apply split_tokens_floor.
Qed.

(** ** Token resolution *)

(** C4: the three-step priority chain of [_resolve_tokens], and the
    fallback of its third step for a table without an ["llm"] entry. *)
Theorem resolve_tokens_priority_chain (step : ParsedStep) :
  _resolve_tokens step =
    match Step.estimated_tokens step with
    | Some tokens => (tokens, declared)
    | None =>
        match Step.role step with
        | Some r =>
            match dict_get r ROLE_TOKEN_DEFAULTS with
            | Some tokens => (tokens, archetype)
            | None =>
                (match Step.step_type step with LLM => 8000 | _ => 0 end,
                 default)
            end
        | None =>
            (match Step.step_type step with LLM => 8000 | _ => 0 end, default)
        end
    end
  /\ List.length ROLE_TOKEN_DEFAULTS = 10%nat
  /\ (forall type_defaults,
        Step.estimated_tokens step = None ->
        role_default (Step.role step) = None ->
        Step.step_type step = LLM ->
        dict_get "llm" type_defaults = None ->
        resolve_tokens_with type_defaults step = (8000, default)).
Proof.
  split; [ | split; [ reflexivity | ] ].
  - unfold _resolve_tokens, resolve_tokens_with, role_default.
    destruct (Step.estimated_tokens step) as [ tokens | ]; [ reflexivity | ].
    assert (Hd : (let d := get_or STEP_TYPE_TOKEN_DEFAULTS
                              (StepType_value (Step.step_type step)) 0 in
                  if StepType_eqb (Step.step_type step) LLM && (d =? 0)
                  then get_or STEP_TYPE_TOKEN_DEFAULTS "llm" 8000 else d)
                 = match Step.step_type step with LLM => 8000 | _ => 0 end)
      by (destruct (Step.step_type step); reflexivity).
    cbv zeta in Hd. cbv zeta. rewrite Hd.
    destruct (Step.role step) as [ r | ]; [ | reflexivity ].
    destruct (String.eqb_spec r "") as [ -> | Hne ]; [ reflexivity | ].
    destruct (dict_get r ROLE_TOKEN_DEFAULTS); reflexivity.
  - intros type_defaults Ht Hr Hl Hg.
    unfold resolve_tokens_with. rewrite Ht, Hr, Hl.
    unfold get_or. cbn [StepType_value]. rewrite Hg. reflexivity.
Qed.

(** ** Steps that are not LLM calls *)

(** C9: for a step whose type is not [LLM], [estimate_step] is the same
    whatever the pricing table, never raises [PricingError], has cost 0.0
    whenever it returns, and does return when the resolved total is in
    [0, 2^50). *)
Theorem estimate_step_non_llm (providers : dict ProviderConfig)
    (step : ParsedStep) (provider model : string) :
  Step.step_type step <> LLM ->
  (forall providers',
      estimate_step providers' step provider model
      = estimate_step providers step provider model)
  /\ estimate_step providers step provider model <> Raise PricingError
  /\ (forall est,
        estimate_step providers step provider model = Ok est ->
        StepEst.cost_usd est = float_zero)
  /\ (0 <= fst (resolve_with_nested step) < 2 ^ 50 ->
      exists est,
        estimate_step providers step provider model = Ok est
        /\ StepEst.cost_usd est = float_zero).
Proof.
  intro Hne.
  assert (Hb : negb (StepType_eqb (Step.step_type step) LLM) = true)
    by (destruct (Step.step_type step); try reflexivity; congruence).
  unfold estimate_step. rewrite Hb.
  destruct (resolve_with_nested step) as [ total source ]. cbn [fst].
  repeat split.
  - pose proof (split_tokens_no_pricing_error total) as Hs.
    destruct (_split_tokens total) as [ [ i o ] | e ]; cbn; [ discriminate | ].
    congruence.
  - intros est H.
    destruct (_split_tokens total) as [ [ i o ] | e ]; cbn in H; [ | discriminate ].
    injection H as <-. reflexivity.
  - intro Hr. rewrite (split_tokens_floor total Hr). cbn.
    eexists. split; reflexivity.
Qed.

(** ** Provider and model of each step estimate *)

Lemma estimate_step_fields (providers : dict ProviderConfig) (step : ParsedStep)
    (provider model : string) (est : StepEstimate) :
  estimate_step providers step provider model = Ok est ->
  StepEst.step_id est = Step.id step
  /\ StepEst.provider est = provider
  /\ StepEst.model est = model.
Proof.
  unfold estimate_step. destruct (resolve_with_nested step) as [ total source ].
  destruct (_split_tokens total) as [ [ i o ] | e ]; cbn [bind];
    [ | discriminate ].
  match goal with
  | |- bind ?c _ = _ -> _ => destruct c as [ cost | e ]
  end; cbn [bind]; [ | discriminate ].
  intro H. injection H as <-. repeat split.
Qed.

(** C7, amended: a provider supplied by the caller is the provider of every
    step estimate; a model supplied by the caller is the workflow-level
    model; every step is estimated with its own declared, non-empty model
    when it has one and with the workflow-level model otherwise, whether or
    not the caller supplied a model; and when the caller supplies no
    provider, every step is estimated with its own declared, non-empty
    provider when it has one and with the workflow-level provider
    otherwise. *)
Theorem estimate_workflow_provider_model (providers : dict ProviderConfig)
    (workflow : ParsedWorkflow) (provider model : option string)
    (est : WorkflowEstimate) :
  estimate_workflow providers workflow provider model = Ok est ->
  (forall p, provider = Some p ->
     WfEst.provider est = p
     /\ Forall (fun e => StepEst.provider e = p) (WfEst.steps est))
  /\ (forall m, model = Some m -> WfEst.model est = m)
  /\ Forall2
       (fun step e =>
          StepEst.model e = str_or (Step.model step) (WfEst.model est)
          /\ (provider = None ->
              StepEst.provider e
              = str_or (Step.provider step) (WfEst.provider est)))
       (Workflow.steps workflow) (WfEst.steps est).
Proof.
  unfold estimate_workflow.
  set (explicit := match provider with Some _ => true | None => false end).
  set (prov := match provider with
               | Some p => p
               | None => match first_step_provider (Workflow.steps workflow) with
                         | Some p => p
                         | None => "anthropic"
                         end
               end).
  set (mdl := match model with
              | Some m => m
              | None => match dict_get prov providers with
                        | Some config => Pricing.default_model config
                        | None => "unknown"
                        end
              end).
  destruct (mapM _ (Workflow.steps workflow)) as [ ests | e ] eqn:HM;
    cbn [bind]; [ | discriminate ].
  match goal with
  | |- bind ?c _ = _ -> _ => destruct c as [ util | e ]
  end; cbn [bind]; [ | discriminate ].
  match goal with
  | |- bind ?c _ = _ -> _ => destruct c as [ cost | e ]
  end; cbn [bind]; [ | discriminate ].
  intro H. injection H as <-. cbn [WfEst.provider WfEst.model WfEst.steps].
  apply mapM_Forall2 in HM.
  assert (H1 : forall p, provider = Some p -> prov = p /\ explicit = true)
    by (intros p ->; split; reflexivity).
  assert (H2 : forall m, model = Some m -> mdl = m)
    by (intros m ->; reflexivity).
  assert (H3 : provider = None -> explicit = false)
    by (intros ->; reflexivity).
  clearbody prov mdl explicit.
  split; [ | split ].
  - intros p Hp. destruct (H1 p Hp) as [ -> Hex ]. split; [ reflexivity | ].
    rewrite Hex in HM. clear - HM.
    induction HM as [ | step e steps es Hstep _ IH ]; constructor;
      [ | exact IH ].
    apply estimate_step_fields in Hstep. tauto.
  - exact H2.
  - clear H1 H2.
    induction HM as [ | step e steps es Hstep _ IH ]; constructor;
      [ | exact IH ].
    apply estimate_step_fields in Hstep as [ _ [ Hp Hm ] ].
    split; [ exact Hm | ].
    intro Hnone. rewrite (H3 Hnone) in Hp. exact Hp.
Qed.

(** ** Score and counts of a lint report *)

Lemma score_fold (findings : list LintFinding) (start : Z) :
  fold_left (fun score f => score - deduction f) findings start
  = start - sum_ints (map deduction findings).
Proof.
  unfold sum_ints.
  assert (G : forall acc,
             fold_left (fun score f => score - deduction f) findings start
             = start + acc - fold_left Z.add (map deduction findings) acc).
  { revert start. induction findings as [ | f fs IH ]; intros start acc; cbn.
    - lia.
    - rewrite (IH (start - deduction f) (acc + deduction f)). lia. }
  rewrite (G 0). lia.
Qed.

Lemma deduction_values (f : LintFinding) :
  deduction f = match Finding.severity f with
                | ERROR => 10
                | WARNING => 5
                | INFO => 2
                end.
Proof. unfold deduction. destruct (Finding.severity f); reflexivity. Qed.

Lemma sum_ints_nonneg (xs : list Z) :
  Forall (fun x => 0 <= x) xs -> 0 <= sum_ints xs.
Proof.
  unfold sum_ints.
  assert (G : forall acc, Forall (fun x => 0 <= x) xs -> 0 <= acc ->
                          0 <= fold_left Z.add xs acc).
  { induction xs as [ | x xs IH ]; intros acc HF Hacc; cbn; [ exact Hacc | ].
    inversion HF; subst. apply IH; [ assumption | lia ]. }
  intro HF. apply G; [ exact HF | lia ].
Qed.

(** The report is always accepted by the [Field(ge=0, le=100)] check: the
    lint run returns whenever every rule does. *)
Lemma run_lint_returns (workflow : ParsedWorkflow)
    (category : option RuleCategory) (severity : option Severity)
    (found : list (list LintFinding)) :
  mapM (fun rule => func rule workflow)
       (match category with
        | Some c => get_rules_by_category c
        | None => get_all_rules
        end) = Ok found ->
  exists report, run_lint workflow category severity = Ok report.
Proof.
  intro HM. unfold run_lint. rewrite HM. cbn [bind].
  set (findings := match severity with
                   | Some s => filter _ (List.concat found)
                   | None => List.concat found
                   end).
  unfold make_LintReport. rewrite score_fold.
  assert (0 <= sum_ints (map deduction findings)).
  { apply sum_ints_nonneg. apply Forall_forall. intros x Hx.
    apply in_map_iff in Hx as [ f [ <- _ ] ]. rewrite deduction_values.
    destruct (Finding.severity f); lia. }
  destruct (Z.leb_spec 0 (Z.max 0 (100 - sum_ints (map deduction findings))));
    [ | lia ].
  destruct (Z.leb_spec (Z.max 0 (100 - sum_ints (map deduction findings))) 100);
    [ | lia ].
  cbn [andb]. eexists. reflexivity.
Qed.

(** C2: the score of the returned report is max(0, 100 - the sum of the
    deductions of the returned findings), with 10 for an error, 5 for a
    warning and 2 for an info, and the three counts are the numbers of
    returned findings of each severity. *)
Theorem run_lint_score_and_counts (workflow : ParsedWorkflow)
    (category : option RuleCategory) (severity : option Severity)
    (report : LintReport) :
  run_lint workflow category severity = Ok report ->
  Report.score report
  = Z.max 0
      (100 - sum_ints (map (fun f => match Finding.severity f with
                                     | ERROR => 10
                                     | WARNING => 5
                                     | INFO => 2
                                     end) (Report.findings report)))
  /\ Report.error_count report
     = Z.of_nat (List.length
                   (filter (fun f => match Finding.severity f with
                                     | ERROR => true
                                     | _ => false
                                     end) (Report.findings report)))
  /\ Report.warning_count report
     = Z.of_nat (List.length
                   (filter (fun f => match Finding.severity f with
                                     | WARNING => true
                                     | _ => false
                                     end) (Report.findings report)))
  /\ Report.info_count report
     = Z.of_nat (List.length
                   (filter (fun f => match Finding.severity f with
                                     | INFO => true
                                     | _ => false
                                     end) (Report.findings report))).
Proof.
  unfold run_lint.
  destruct (mapM _ _) as [ found | e ]; cbn [bind]; [ | discriminate ].
  set (findings := match severity with
                   | Some s => filter _ (List.concat found)
                   | None => List.concat found
                   end).
  unfold make_LintReport.
  destruct (_ && _); [ | discriminate ].
  intro H. injection H as <-.
  cbn [Report.score Report.findings Report.error_count Report.warning_count
       Report.info_count].
  rewrite score_fold.
  assert (Hmap : map deduction findings
                 = map (fun f => match Finding.severity f with
                                 | ERROR => 10
                                 | WARNING => 5
                                 | INFO => 2
                                 end) findings)
    by (apply map_ext; intro f; apply deduction_values).
  rewrite Hmap. unfold count_severity.
  repeat split; do 2 f_equal; apply filter_ext; intro f;
    destruct (Finding.severity f); reflexivity.
Qed.

(** ** The rule registry *)

(** What a rule that looks at one step at a time returns: findings that
    carry the id of a step of the list. *)
Lemma per_step_findings (g : ParsedStep -> list LintFinding)
    (rid : string) (cat : RuleCategory) (sev : Severity) :
  (forall s f, In f (g s) -> f = Finding.Build rid cat sev (Some (Step.id s))) ->
  forall steps f, In f (flat_map g steps) ->
  exists s, In s steps /\ f = Finding.Build rid cat sev (Some (Step.id s)).
Proof.
  intros Hg steps f Hin. apply in_flat_map in Hin as [ s [ Hs Hf ] ].
  exists s. split; [ exact Hs | apply Hg; exact Hf ].
Qed.

Lemma B002_findings (workflow : ParsedWorkflow) (found : list LintFinding)
    (f : LintFinding) :
  check_step_budget_hog workflow = Ok found -> In f found ->
  exists s, In s (Workflow.steps workflow)
            /\ f = Finding.Build "B002" BUDGET WARNING (Some (Step.id s)).
Proof.
  unfold check_step_budget_hog.
  destruct (Workflow.token_budget workflow) as [ budget | ];
    [ | intros H; injection H as <-; intros [] ].
  destruct (budget =? 0); [ intros H; injection H as <-; intros [] | ].
  destruct (mul_int_float budget float_half) as [ threshold | e ]; cbn [bind];
    [ | discriminate ].
  destruct (mapM _ (Workflow.steps workflow)) as [ ls | e ] eqn:HM; cbn [bind];
    [ | discriminate ].
  intros H Hin. injection H as <-.
  destruct (mapM_in_concat _ _ _ _ HM Hin) as [ s [ l [ Hs [ Hl Hfl ] ] ] ].
  exists s. split; [ exact Hs | ].
  destruct (Step.estimated_tokens s) as [ tokens | ];
    [ | injection Hl as <-; destruct Hfl ].
  destruct (int_gt_float tokens threshold);
    [ | injection Hl as <-; destruct Hfl ].
  destruct (truediv tokens budget) as [ q | e ]; cbn [bind] in Hl;
    [ | discriminate ].
  destruct (round_to_int (fmul q float_hundred)) as [ pct | e ];
    cbn [bind] in Hl; [ | discriminate ].
  injection Hl as <-. destruct Hfl as [ <- | [] ]. reflexivity.
Qed.

Lemma R005_findings (steps : list ParsedStep) (c e : Z) (f : LintFinding) :
  In f (missing_checkpoint_scan steps c e) ->
  f = Finding.Build "R005" RESILIENCE INFO None.
Proof.
  revert c e. induction steps as [ | step rest IH ]; intros c e Hin;
    cbn [missing_checkpoint_scan] in Hin; [ destruct Hin | ].
  destruct (if StepType_eqb (Step.step_type step) LLM then _ else _)
    as [ c' e' ].
  destruct ((3 <=? c') && (30000 <=? e')).
  - destruct Hin as [ <- | [] ]. reflexivity.
  - exact (IH _ _ Hin).
Qed.

Lemma E001_findings (llm_steps : list ParsedStep) (f : LintFinding) :
  In f (parallelizable_scan llm_steps) ->
  exists s, In s llm_steps
            /\ f = Finding.Build "E001" EFFICIENCY INFO (Some (Step.id s)).
Proof.
  induction llm_steps as [ | current rest IH ]; [ intros [] | ].
  destruct rest as [ | next_step rest' ]; [ intros [] | ].
  change (parallelizable_scan (current :: next_step :: rest'))
    with (parallelizable_pair current next_step
            ++ parallelizable_scan (next_step :: rest')).
  intro Hin. apply in_app_or in Hin as [ Hin | Hin ].
  - exists next_step. split; [ right; left; reflexivity | ].
    unfold parallelizable_pair in Hin. split_cases. symmetry. assumption.
  - destruct (IH Hin) as [ s [ Hs Hf ] ]. exists s.
    split; [ right; exact Hs | exact Hf ].
Qed.

Lemma enumerate_in {A : Type} (xs : list A) (i : nat) (x : A) :
  In (i, x) (enumerate xs) -> In x xs.
Proof. unfold enumerate. apply in_combine_r. Qed.

(** C8, amended: once every rule module is registered the registry holds
    exactly seventeen rules, B001-B004, R001-R005, E001-E004 and S001-S004
    in this order; each is a function of the workflow, and every finding it
    returns bears the rule's id, category and severity, and carries no step
    id when the rule is one of the workflow-level rules B001, B003, R005,
    E002 and S003, and the id of a step of the workflow otherwise. *)
Theorem rule_registry_contents :
  List.length _RULE_REGISTRY = 17%nat
  /\ map entry_rule_id _RULE_REGISTRY
     = [ "B001"; "B002"; "B003"; "B004";
         "R001"; "R002"; "R003"; "R004"; "R005";
         "E001"; "E002"; "E003"; "E004";
         "S001"; "S002"; "S003"; "S004" ]
  /\ (forall (workflow : ParsedWorkflow) (entry : RuleEntry)
             (found : list LintFinding) (f : LintFinding),
        In entry _RULE_REGISTRY ->
        func entry workflow = Ok found ->
        In f found ->
        Finding.rule_id f = entry_rule_id entry
        /\ Finding.category f = entry_category entry
        /\ Finding.severity f = entry_severity entry
        /\ if str_in (entry_rule_id entry)
                [ "B001"; "B003"; "R005"; "E002"; "S003" ]
           then Finding.step_id f = None
           else exists step,
                  In step (Workflow.steps workflow)
                  /\ Finding.step_id f = Some (Step.id step)).
Proof.
  split; [ reflexivity | split; [ reflexivity | ] ].
  intros workflow entry found f Hentry Hfunc Hin.
  assert (Hstep : forall rid cat sev,
             (exists s, In s (Workflow.steps workflow)
                        /\ f = Finding.Build rid cat sev (Some (Step.id s))) ->
             Finding.rule_id f = rid /\ Finding.category f = cat
             /\ Finding.severity f = sev
             /\ exists step, In step (Workflow.steps workflow)
                             /\ Finding.step_id f = Some (Step.id step)).
  { intros rid cat sev [ s [ Hs -> ] ]. repeat split. exists s.
    split; [ exact Hs | reflexivity ]. }
  unfold _RULE_REGISTRY, register_security, register_efficiency,
    register_resilience, register_budget, lint_rule in Hentry.
  cbn [app] in Hentry.
  repeat (destruct Hentry as [ <- | Hentry ];
          [ cbn [func entry_rule_id entry_category entry_severity] in *;
            match goal with
            | |- context [str_in ?r ?l] =>
                let b := eval vm_compute in (str_in r l) in
                change (str_in r l) with b; cbv iota
            end | ]);
    [ .. | destruct Hentry ].
  - (* B001 *)
    unfold check_workflow_budget in Hfunc.
    destruct (Workflow.token_budget workflow); injection Hfunc as <-;
      [ destruct Hin | destruct Hin as [ <- | [] ]; repeat split ].
  - (* B002 *)
    apply Hstep. exact (B002_findings _ _ _ Hfunc Hin).
  - (* B003 *)
    unfold check_total_over_budget in Hfunc.
    destruct (Workflow.token_budget workflow) as [ budget | ];
      [ | injection Hfunc as <-; destruct Hin ].
    destruct (budget =? 0); [ injection Hfunc as <-; destruct Hin | ].
    destruct (budget <? _); injection Hfunc as <-;
      [ destruct Hin as [ <- | [] ]; repeat split | destruct Hin ].
  - (* B004 *)
    apply Hstep. unfold check_undeclared_tokens in Hfunc.
    per_step per_step_findings Hfunc Hin "B004" BUDGET INFO.
  - (* R001 *)
    apply Hstep. unfold check_missing_on_failure in Hfunc.
    per_step per_step_findings Hfunc Hin "R001" RESILIENCE WARNING.
  - (* R002 *)
    apply Hstep. unfold check_abort_no_fallback in Hfunc.
    per_step per_step_findings Hfunc Hin "R002" RESILIENCE WARNING.
  - (* R003 *)
    apply Hstep. unfold check_retry_no_max in Hfunc.
    per_step per_step_findings Hfunc Hin "R003" RESILIENCE INFO.
  - (* R004 *)
    apply Hstep. unfold check_shell_no_timeout in Hfunc.
    per_step per_step_findings Hfunc Hin "R004" RESILIENCE WARNING.
  - (* R005 *)
    unfold check_missing_checkpoint in Hfunc. injection Hfunc as <-.
    apply R005_findings in Hin. subst f. repeat split.
  - (* E001 *)
    apply Hstep. unfold check_parallelizable in Hfunc. injection Hfunc as <-.
    apply E001_findings in Hin as [ s [ Hs Hf ] ]. exists s.
    apply filter_In in Hs as [ Hs _ ]. split; assumption.
  - (* E002 *)
    unfold check_duplicate_roles in Hfunc. injection Hfunc as <-.
    apply in_flat_map in Hin as [ [ role ids ] [ _ Hf ] ].
    split_cases. subst f. repeat split.
  - (* E003 *)
    apply Hstep. unfold check_lightweight_checkpoint in Hfunc.
    injection Hfunc as <-.
    apply in_flat_map in Hin as [ [ i s ] [ Hs Hf ] ].
    apply enumerate_in in Hs. exists s. split; [ exact Hs | ].
    destruct (negb (StepType_eqb (Step.step_type s) CHECKPOINT));
      [ destruct Hf | ].
    match type of Hf with
    | In _ (if ?c then _ else _) => destruct c
    end; [ destruct Hf as [ <- | [] ]; reflexivity | destruct Hf ].
  - (* E004 *)
    apply Hstep. unfold check_fan_out_no_limit in Hfunc.
    per_step per_step_findings Hfunc Hin "E004" EFFICIENCY WARNING.
  - (* S001 *)
    apply Hstep. unfold check_shell_injection in Hfunc.
    per_step per_step_findings Hfunc Hin "S001" SECURITY ERROR.
  - (* S002 *)
    apply Hstep. unfold check_hardcoded_paths in Hfunc.
    per_step per_step_findings Hfunc Hin "S002" SECURITY WARNING.
  - (* S003 *)
    unfold check_input_validation in Hfunc.
    destruct (Workflow.inputs workflow) as [ | input inputs ];
      injection Hfunc as <-; [ destruct Hin | ].
    apply in_app_or in Hin as [ Hf | Hin ].
    + destruct input as [ name config ]. split_cases. subst f. repeat split.
    + apply in_flat_map in Hin as [ [ name config ] [ _ Hf ] ].
      split_cases. subst f. repeat split.
  - (* S004 *)
    apply Hstep. unfold check_mcp_no_server in Hfunc.
    per_step per_step_findings Hfunc Hin "S004" SECURITY WARNING.
Qed.

(** ** A declared budget of zero *)

(** C10: with [token_budget = 0] the rules B002 and B003 return nothing, B001
    returns nothing either because a budget is present, and whenever the
    estimate is produced its [budget_utilization] is absent. *)
Theorem zero_budget_is_unbudgeted (providers : dict ProviderConfig)
    (workflow : ParsedWorkflow) (provider model : option string) :
  Workflow.token_budget workflow = Some 0 ->
  check_workflow_budget workflow = Ok []
  /\ check_step_budget_hog workflow = Ok []
  /\ check_total_over_budget workflow = Ok []
  /\ (forall est,
        estimate_workflow providers workflow provider model = Ok est ->
        WfEst.budget_utilization est = None
        /\ WfEst.budget_declared est = Some 0).
Proof.
  intro Hb. unfold check_workflow_budget, check_step_budget_hog,
    check_total_over_budget, estimate_workflow.
  rewrite Hb. cbn [Z.eqb negb andb bind].
  repeat split; try reflexivity;
    destruct (mapM _ (Workflow.steps workflow)) as [ ests | e ];
    cbn [bind] in *; try discriminate;
    match goal with
    | H : bind ?c _ = _ |- _ => destruct c as [ cost | e ]
    end; cbn [bind] in *; try discriminate;
    match goal with
    | H : Ok _ = Ok _ |- _ => injection H as <-
    end; reflexivity.
Qed.

(** ** Workflows without steps *)

Lemma flat_map_all_nil {A B : Type} (g : A -> list B) (xs : list A) :
  (forall x, In x xs -> g x = []) -> flat_map g xs = [].
Proof.
  induction xs as [ | x xs IH ]; intro H; cbn; [ reflexivity | ].
  rewrite (H x (or_introl eq_refl)), IH; [ reflexivity | ].
  intros y Hy. apply H. right. exact Hy.
Qed.

(** With no steps, a declared non-negative budget that converts to a float,
    and no required input without a type, every registered rule returns
    nothing. *)
Lemma empty_workflow_rules (workflow : ParsedWorkflow) (budget : Z)
    (as_float : float) (entry : RuleEntry) :
  Workflow.steps workflow = [] ->
  Workflow.token_budget workflow = Some budget ->
  0 <= budget ->
  float_of_int budget = Ok as_float ->
  Forall (fun item => required_without_type (snd item) = false)
         (Workflow.inputs workflow) ->
  In entry _RULE_REGISTRY ->
  func entry workflow = Ok [].
Proof.
  intros Hsteps Hbudget Hpos Hfloat Hinputs Hentry.
  unfold _RULE_REGISTRY, register_security, register_efficiency,
    register_resilience, register_budget, lint_rule in Hentry.
  cbn [app] in Hentry.
  repeat (destruct Hentry as [ <- | Hentry ]; [ cbn [func] | ]);
    [ .. | destruct Hentry ].
  - unfold check_workflow_budget. rewrite Hbudget. reflexivity.
  - unfold check_step_budget_hog, mul_int_float.
    rewrite Hbudget, Hsteps, Hfloat.
    destruct (budget =? 0); reflexivity.
  - unfold check_total_over_budget. rewrite Hbudget, Hsteps.
    destruct (budget =? 0); [ reflexivity | ].
    cbn [budget_total fold_left].
    destruct (Z.ltb_spec budget 0); [ lia | reflexivity ].
  - unfold check_undeclared_tokens. rewrite Hsteps. reflexivity.
  - unfold check_missing_on_failure. rewrite Hsteps. reflexivity.
  - unfold check_abort_no_fallback. rewrite Hsteps. reflexivity.
  - unfold check_retry_no_max. rewrite Hsteps. reflexivity.
  - unfold check_shell_no_timeout. rewrite Hsteps. reflexivity.
  - unfold check_missing_checkpoint. rewrite Hsteps. reflexivity.
  - unfold check_parallelizable. rewrite Hsteps. reflexivity.
  - unfold check_duplicate_roles. rewrite Hsteps. reflexivity.
  - unfold check_lightweight_checkpoint. rewrite Hsteps. reflexivity.
  - unfold check_fan_out_no_limit. rewrite Hsteps. reflexivity.
  - unfold check_shell_injection. rewrite Hsteps. reflexivity.
  - unfold check_hardcoded_paths. rewrite Hsteps. reflexivity.
  - unfold check_input_validation.
    destruct (Workflow.inputs workflow) as [ | input inputs ] eqn:Hi;
      [ reflexivity | ].
    f_equal. apply flat_map_all_nil. intros [ name config ] Hin.
    rewrite Forall_forall in Hinputs. specialize (Hinputs _ Hin).
    cbn [snd] in Hinputs. rewrite Hinputs. reflexivity.
  - unfold check_mcp_no_server. rewrite Hsteps. reflexivity.
Qed.

Lemma concat_all_nil {A : Type} (n : list RuleEntry) :
  List.concat (map (fun _ : RuleEntry => @nil A) n) = [].
Proof. induction n as [ | x n IH ]; cbn; [ reflexivity | exact IH ]. Qed.

(** C1, amended: for a workflow whose step list is empty, [estimate_workflow]
    returns with [total_tokens = 0], [total_cost_usd = 0.0] and no step
    estimates; and [run_lint] with no filter returns score 100 and no
    findings provided the workflow declares a non-negative token budget that
    converts to a float and none of its declared inputs is required without
    a type. *)
Theorem empty_workflow_estimate_and_lint (providers : dict ProviderConfig)
    (workflow : ParsedWorkflow) (provider model : option string) :
  Workflow.steps workflow = [] ->
  (exists est,
      estimate_workflow providers workflow provider model = Ok est
      /\ WfEst.total_tokens est = 0
      /\ WfEst.total_cost_usd est = float_zero
      /\ WfEst.steps est = [])
  /\ (forall budget as_float,
        Workflow.token_budget workflow = Some budget ->
        0 <= budget ->
        float_of_int budget = Ok as_float ->
        Forall (fun item => required_without_type (snd item) = false)
               (Workflow.inputs workflow) ->
        run_lint workflow None None
        = Ok (Report.Build (Workflow.name workflow) 100 [] 0 0 0)).
Proof.
  intro Hsteps. split.
  - unfold estimate_workflow. rewrite Hsteps. cbn [mapM bind map].
    destruct (Workflow.token_budget workflow) as [ budget | ];
      [ | cbn; eexists; repeat split ].
    destruct (negb (budget =? 0) && (0 <? budget)) eqn:Hb;
      [ | cbn; eexists; repeat split ].
    assert (Hq : truediv (sum_ints []) budget = Ok (S754_zero false)).
    { destruct budget as [ | b | b ]; try discriminate. reflexivity. }
    rewrite Hq. cbn. eexists. repeat split.
  - intros budget as_float Hbudget Hpos Hfloat Hinputs.
    unfold run_lint, get_all_rules.
    rewrite (mapM_all_ok _ (fun _ => [])).
    + cbn [bind]. rewrite concat_all_nil. reflexivity.
    + intros entry Hentry.
      exact (empty_workflow_rules workflow budget as_float entry
               Hsteps Hbudget Hpos Hfloat Hinputs Hentry).
Qed.

(** ** Format detection *)

Lemma gorgon_step_scan_exists (items : list yaml) :
  forallb hashable_type items = true ->
  gorgon_step_scan items
  = Ok (existsb (fun item =>
                   match item with
                   | YMap d =>
                       match dict_get "type" d with
                       | Some (YStr t) => str_in t _GORGON_STEP_TYPES
                       | _ => false
                       end
                   | _ => false
                   end) items).
Proof.
  induction items as [ | item rest IH ]; [ reflexivity | ].
  cbn [forallb]. intro H. apply andb_prop in H as [ Hitem Hrest ].
  specialize (IH Hrest). cbn [gorgon_step_scan existsb].
  destruct item as [ | b | z | f | s | xs | d ]; try exact IH.
  unfold hashable_type, yget, get_or in Hitem. unfold yget, get_or.
  destruct (dict_get "type" d) as [ [ | b | z | f | t | xs | m ] | ];
    cbn [in_str_set bind orb]; try discriminate; try exact IH.
  destruct (str_in t _GORGON_STEP_TYPES); [ reflexivity | exact IH ].
Qed.

(** Where every item of [steps] has a [type] that can be hashed,
    [detect_format] returns the tag of the first-match cascade. *)
Lemma detect_format_first_match (raw : dict yaml) :
  match dict_get "steps" raw with
  | Some (YList items) => forallb hashable_type items = true
  | _ => True
  end ->
  detect_format raw = Ok (detect_format_cascade raw).
Proof.
  intro H. unfold detect_format, detect_format_cascade.
  destruct (dict_has "agents" raw && dict_has "tasks" raw); [ reflexivity | ].
  destruct (dict_has "nodes" raw || dict_has "edges" raw); [ reflexivity | ].
  destruct (match get_or raw "metadata" (YMap []) with
            | YMap _ => _
            | _ => false
            end) eqn:Hmeta.
  - destruct (get_or raw "metadata" (YMap [])); try discriminate.
    rewrite Hmeta. reflexivity.
  - assert (Hm : match get_or raw "metadata" (YMap []) with
                 | YMap m => str_contains "langgraph" (str_lower (py_str (YMap m)))
                 | _ => false
                 end = false)
      by (destruct (get_or raw "metadata" (YMap [])); try reflexivity;
          exact Hmeta).
    rewrite Hm. unfold get_or.
    destruct (dict_get "steps" raw) as [ [ | b | z | f | s | items | m ] | ];
      try reflexivity.
    rewrite (gorgon_step_scan_exists items H). cbn [bind].
    destruct (existsb _ items); reflexivity.
Qed.

(** ** Normalizers *)

(** List items that are not mappings are skipped. *)
Lemma only_dicts_skips (x : yaml) (xs : list yaml) :
  match x with YMap _ => False | _ => True end ->
  only_dicts (x :: xs) = only_dicts xs.
Proof. destruct x; intro H; try reflexivity. destruct H. Qed.

Lemma only_dicts_in (d : dict yaml) (xs : list yaml) :
  In d (only_dicts xs) <-> In (YMap d) xs.
Proof.
  unfold only_dicts. rewrite in_flat_map. split.
  - intros [ x [ Hx Hd ] ]. destruct x; try (destruct Hd; fail).
    destruct Hd as [ <- | [] ]. exact Hx.
  - intro H. exists (YMap d). split; [ exact H | left; reflexivity ].
Qed.




Lemma same_but_dependencies_refl (steps : list ParsedStep) :
  Forall2 same_but_dependencies steps steps.
Proof. induction steps; constructor; [ repeat split | assumption ]. Qed.


Lemma wire_edge_ids (step_ids : list string) (steps : list ParsedStep)
    (edge : yaml) :
  Forall2 same_but_dependencies steps (wire_edge step_ids steps edge).
Proof.
  unfold wire_edge.
  destruct edge; try apply same_but_dependencies_refl.
  destruct (_ && _); [ | apply same_but_dependencies_refl ].
  induction steps as [ | s steps IH ]; cbn [map]; constructor; [ | exact IH ].
  destruct (_ && _); repeat split.
Qed.


(** What else makes the normalizers raise: [int(None)] for a null
    [max_retries] in [_parse_step] and [_parse_generic_step]; the slice
    [[:40]] of a [description] that is a number in [_parse_task], even when
    the task has a [name]; a scalar under [nodes], which cannot be
    iterated. *)
Lemma normalizers_raise_on_odd_values :
  parse_gorgon
    [ ("steps", YList [ YMap [ ("id", YStr "a"); ("type", YStr "shell");
                               ("max_retries", YNull) ] ]) ] None
  = Raise TypeError
  /\ _parse_task [ ("name", YStr "t1"); ("description", YInt 42) ] 0
     = Raise TypeError
  /\ parse_crewai
       [ ("agents", YList []);
         ("tasks", YList [ YMap [ ("name", YStr "t1");
                                  ("description", YInt 42) ] ]) ] None
     = Raise TypeError
  /\ _parse_generic_step "a" [ ("prompt", YStr "hi"); ("max_retries", YNull) ]
     = Raise TypeError
  /\ parse_generic
       [ ("steps", YList [ YMap [ ("id", YStr "a"); ("prompt", YStr "hi");
                                  ("max_retries", YNull) ] ]) ] None
     = Raise TypeError
  /\ parse_langchain [ ("nodes", YInt 3) ] None = Raise TypeError.
Proof. repeat split. Qed.


(* ================================================================== *)
(** * Pricing: the loaded table, the cache, the listings *)
(* ================================================================== *)

Lemma dict_get_set_same {V : Type} (k : string) (v : V) (d : dict V) :
  dict_get k (dict_set k v d) = Some v.
Proof.
  induction d as [ | [ k' v' ] rest IH ]; cbn [dict_set dict_get].
  - rewrite String.eqb_refl. reflexivity.
  - destruct (String.eqb k k') eqn:E; cbn [dict_get]; rewrite E.
    + reflexivity.
    + exact IH.
Qed.

Lemma dict_get_set_other {V : Type} (k k0 : string) (v : V) (d : dict V) :
  k0 <> k -> dict_get k0 (dict_set k v d) = dict_get k0 d.
Proof.
  intros Hne.
  induction d as [ | [ k' v' ] rest IH ]; cbn [dict_set dict_get].
  - destruct (String.eqb k0 k) eqn:E; [ | reflexivity ].
    apply String.eqb_eq in E. contradiction.
  - destruct (String.eqb k k') eqn:E; cbn [dict_get].
    + apply String.eqb_eq in E. subst k'.
      destruct (String.eqb k0 k) eqn:E0; [ | reflexivity ].
      apply String.eqb_eq in E0. contradiction.
    + rewrite IH. reflexivity.
Qed.

Lemma dict_get_set {V : Type} (k k0 : string) (v v0 : V) (d : dict V) :
  dict_get k0 (dict_set k v d) = Some v0 ->
  (k0 = k /\ v0 = v) \/ (k0 <> k /\ dict_get k0 d = Some v0).
Proof.
  intros H. destruct (String.eqb k0 k) eqn:E.
  - apply String.eqb_eq in E. subst k0.
    rewrite dict_get_set_same in H. injection H as <-. left. split; reflexivity.
  - apply String.eqb_neq in E. rewrite (dict_get_set_other _ _ _ _ E) in H.
    right. split; assumption.
Qed.

Lemma dict_get_keys {V : Type} (k : string) (d : dict V) :
  In k (dict_keys d) <-> exists v, dict_get k d = Some v.
Proof.
  induction d as [ | [ k' v' ] rest IH ]; cbn [dict_keys map dict_get In fst].
  - split; [ intros [] | intros [ v H ]; discriminate H ].
  - destruct (String.eqb k k') eqn:E.
    + apply String.eqb_eq in E. subst k'.
      split; [ intros _; exists v'; reflexivity | intros _; left; reflexivity ].
    + apply String.eqb_neq in E. fold (dict_keys rest). rewrite <- IH.
      split; [ intros [ H | H ]; [ congruence | exact H ] | intros H; right; exact H ].
Qed.

Lemma insert_sorted_in (x y : string) (l : list string) :
  In y (insert_sorted x l) <-> y = x \/ In y l.
Proof.
  induction l as [ | h t IH ]; cbn [insert_sorted In].
  - split; [ intros [ H | [] ]; left; congruence | intros [ H | [] ]; left; congruence ].
  - destruct (String.leb x h); cbn [In].
    + split; [ intros [ H | H ]; [ left; congruence | right; exact H ]
             | intros [ H | H ]; [ left; congruence | right; exact H ] ].
    + rewrite IH. split.
      * intros [ H | [ H | H ] ]; [ right; left; exact H | left; exact H | right; right; exact H ].
      * intros [ H | [ H | H ] ]; [ right; left; exact H | left; exact H | right; right; exact H ].
Qed.

Lemma py_sorted_in (y : string) (l : list string) :
  In y (py_sorted l) <-> In y l.
Proof.
  induction l as [ | h t IH ]; cbn [py_sorted fold_right In].
  - reflexivity.
  - fold (py_sorted t). rewrite insert_sorted_in, IH.
    split; intros [ H | H ]; [ left | right | left | right ]; congruence.
Qed.

Lemma insert_sorted_sorted (x : string) (l : list string) :
  Sorted (fun a b => String.leb a b = true) l ->
  Sorted (fun a b => String.leb a b = true) (insert_sorted x l).
Proof.
  induction l as [ | h t IH ]; intros Hs; cbn [insert_sorted].
  - constructor; constructor.
  - destruct (String.leb x h) eqn:E.
    + constructor; [ exact Hs | constructor; exact E ].
    + inversion Hs as [ | ? ? Ht Hh ]; subst.
      constructor; [ apply IH; exact Ht | ].
      destruct t as [ | h' t' ]; cbn [insert_sorted].
      * constructor. destruct (String.leb_total h x) as [ H | H ]; congruence.
      * destruct (String.leb x h') eqn:E'.
        -- constructor. destruct (String.leb_total h x) as [ H | H ]; congruence.
        -- inversion Hh; subst. constructor. assumption.
Qed.

Lemma py_sorted_sorted (l : list string) :
  Sorted (fun a b => String.leb a b = true) (py_sorted l).
Proof.
  induction l as [ | h t IH ]; cbn [py_sorted fold_right].
  - constructor.
  - apply insert_sorted_sorted. exact IH.
Qed.

Lemma insert_sorted_perm (x : string) (l : list string) :
  Permutation (x :: l) (insert_sorted x l).
Proof.
  induction l as [ | h t IH ]; cbn [insert_sorted].
  - reflexivity.
  - destruct (String.leb x h); [ reflexivity | ].
    rewrite perm_swap. constructor. exact IH.
Qed.

Lemma py_sorted_perm (l : list string) : Permutation l (py_sorted l).
Proof.
  induction l as [ | h t IH ]; cbn [py_sorted fold_right].
  - constructor.
  - fold (py_sorted t). rewrite <- insert_sorted_perm. constructor. exact IH.
Qed.

(** X1: [list_models] and [get_model_pricing] agree on what a provider
    offers.  The models listed for a provider are in ascending order and are
    those of its table; a model with a non-empty name is listed exactly when
    its price can be looked up; for a provider that is not in the table the
    listing is empty while the lookup raises [PricingError]. *)
Theorem listed_models_are_priced (providers : dict ProviderConfig)
    (provider : string) :
  Sorted (fun a b => String.leb a b = true) (list_models providers provider)
  /\ (forall model,
        model <> "" ->
        (In model (list_models providers provider)
         <-> exists pricing,
               get_model_pricing providers provider (Some model) = Ok pricing))
  /\ (dict_get provider providers = None ->
      list_models providers provider = []
      /\ forall model,
           get_model_pricing providers provider model = Raise PricingError).
Proof.
  unfold list_models, get_model_pricing.
  destruct (dict_get provider providers) as [ config | ] eqn:Hc.
  - split; [ apply py_sorted_sorted | ].
    split; [ | discriminate ].
    intros model Hne.
    assert (Hor : str_or (Some model) (Pricing.default_model config) = model).
    { unfold str_or. destruct (String.eqb model "") eqn:E; [ | reflexivity ].
      apply String.eqb_eq in E. contradiction. }
    rewrite Hor, py_sorted_in, dict_get_keys.
    split.
    + intros [ p Hp ]. exists p. rewrite Hp. reflexivity.
    + intros [ p Hp ].
      destruct (dict_get model (Pricing.models config)) as [ q | ];
        [ exists q; reflexivity | discriminate Hp ].
  - split; [ constructor | ].
    split.
    + intros model _. split; [ intros [] | intros [ p Hp ]; discriminate Hp ].
    + intros _. split; reflexivity.
Qed.

(** [list_providers] returns the provider names of the table, each as
    often as the table has it, in ascending order. *)
Lemma list_providers_sorted_keys (providers : dict ProviderConfig) :
  Sorted (fun a b => String.leb a b = true) (list_providers providers)
  /\ Permutation (map fst providers) (list_providers providers).
Proof.
  split; [ apply py_sorted_sorted | apply py_sorted_perm ].
Qed.

Lemma load_models_loop_labels {fp : FloatParsing} (provider_name : string)
    (entries : list (string * yaml)) (models loaded : dict ModelPricing) :
  (forall m p, dict_get m models = Some p ->
     Pricing.name p = m /\ Pricing.provider p = provider_name) ->
  load_models_loop provider_name entries models = Ok loaded ->
  forall m p, dict_get m loaded = Some p ->
    Pricing.name p = m /\ Pricing.provider p = provider_name.
Proof.
  revert models.
  induction entries as [ | [ model_name model_data ] rest IH ];
    intros models Hinv Hrun; cbn [load_models_loop] in Hrun.
  - injection Hrun as <-. exact Hinv.
  - destruct model_data as [ | b | z | f | s | items | d ];
      try (apply (IH models Hinv Hrun)).
    bind_inv Hrun. eapply IH; [ clear IH Hrun | exact Hrun ].
    intros m p Hget.
    destruct (dict_get_set _ _ _ _ _ Hget) as [ [ -> -> ] | [ _ Hold ] ];
      [ | apply Hinv; exact Hold ].
    unfold load_model in E. repeat bind_inv E. injection E as <-.
    split; reflexivity.
Qed.

Lemma load_providers_loop_labels {fp : FloatParsing}
    (entries : list (string * yaml)) (acc loaded : dict ProviderConfig) :
  (forall k c, dict_get k acc = Some c ->
     Pricing.provider_name c = k
     /\ forall m p, dict_get m (Pricing.models c) = Some p ->
          Pricing.name p = m /\ Pricing.provider p = k) ->
  load_providers_loop entries acc = Ok loaded ->
  forall k c, dict_get k loaded = Some c ->
    Pricing.provider_name c = k
    /\ forall m p, dict_get m (Pricing.models c) = Some p ->
         Pricing.name p = m /\ Pricing.provider p = k.
Proof.
  revert acc.
  induction entries as [ | [ provider_name provider_data ] rest IH ];
    intros acc Hinv Hrun; cbn [load_providers_loop] in Hrun.
  - injection Hrun as <-. exact Hinv.
  - destruct provider_data as [ | b | z | f | s | items | d ];
      try (apply (IH acc Hinv Hrun)).
    bind_inv Hrun. eapply IH; [ clear IH Hrun | exact Hrun ].
    intros k c Hget.
    destruct (dict_get_set _ _ _ _ _ Hget) as [ [ -> -> ] | [ _ Hold ] ];
      [ | apply Hinv; exact Hold ].
    cbn [Pricing.provider_name Pricing.models].
    split; [ reflexivity | ].
    destruct (get_or d "models" (YMap [])) as [ | | | | | | model_entries ];
      try discriminate E.
    eapply load_models_loop_labels; [ | exact E ].
    intros m p Hm. discriminate Hm.
Qed.

Lemma dict_set_keys {V : Type} (k k0 : string) (v : V) (d : dict V) :
  In k0 (dict_keys (dict_set k v d)) <-> k0 = k \/ In k0 (dict_keys d).
Proof.
  rewrite !dict_get_keys. split.
  - intros [ v0 H ]. destruct (dict_get_set _ _ _ _ _ H) as [ [ -> _ ] | [ _ Hold ] ];
      [ left; reflexivity | right; exists v0; exact Hold ].
  - destruct (String.eqb k0 k) eqn:E.
    + apply String.eqb_eq in E. subst k0. intros _. exists v.
      apply dict_get_set_same.
    + apply String.eqb_neq in E. intros [ H | [ v0 H ] ]; [ contradiction | ].
      exists v0. rewrite dict_get_set_other; assumption.
Qed.

Lemma load_providers_loop_keys {fp : FloatParsing}
    (entries : list (string * yaml)) (acc loaded : dict ProviderConfig) :
  load_providers_loop entries acc = Ok loaded ->
  forall k, In k (dict_keys loaded)
            <-> In k (dict_keys acc) \/ exists d, In (k, YMap d) entries.
Proof.
  revert acc.
  induction entries as [ | [ provider_name provider_data ] rest IH ];
    intros acc Hrun k; cbn [load_providers_loop] in Hrun.
  - injection Hrun as <-. split; [ intros H; left; exact H | ].
    intros [ H | [ d [] ] ]. exact H.
  - assert (Hskip : (forall d, provider_data <> YMap d) ->
                    load_providers_loop rest acc = Ok loaded ->
                    In k (dict_keys loaded)
                    <-> In k (dict_keys acc)
                        \/ exists d, In (k, YMap d)
                                        ((provider_name, provider_data) :: rest)).
    { intros Hnot Hrest. rewrite (IH _ Hrest k). cbn [In].
      split; intros [ H | [ d Hd ] ]; try (left; exact H).
      - right. exists d. right. exact Hd.
      - destruct Hd as [ Hd | Hd ];
          [ injection Hd as _ Hd; elim (Hnot d Hd) | right; exists d; exact Hd ]. }
    destruct provider_data as [ | b | z | f | s | items | d ];
      try (apply Hskip; [ intros d' Hd'; discriminate Hd' | exact Hrun ]).
    clear Hskip. bind_inv Hrun. rewrite (IH _ Hrun k), dict_set_keys. cbn [In].
    split.
    + intros [ [ -> | H ] | [ d' Hd' ] ].
      * right. exists d. left. reflexivity.
      * left. exact H.
      * right. exists d'. right. exact Hd'.
    + intros [ H | [ d' [ Hd' | Hd' ] ] ].
      * left. right. exact H.
      * injection Hd' as -> _. left. left. reflexivity.
      * right. exists d'. exact Hd'.
Qed.

(** X2: what [load_providers] builds from a pricing file.  When the parsed
    file gives a table, the file was a mapping whose ["providers"] is a
    mapping; the providers of the table are exactly its entries that are
    mappings (the others are skipped); and every price later looked up in
    the table carries the provider it was asked for and the model name that
    was used, the given one or the provider's default. *)
Theorem loaded_table_is_labelled {fp : FloatParsing} (raw : yaml)
    (table : dict ProviderConfig) :
  parse_providers raw = Ok table ->
  (exists top providers_raw,
      raw = YMap top
      /\ get_or top "providers" (YMap []) = YMap providers_raw
      /\ forall k, In k (dict_keys table)
                   <-> exists d, In (k, YMap d) providers_raw)
  /\ forall provider model pricing,
       get_model_pricing table provider model = Ok pricing ->
       Pricing.provider pricing = provider
       /\ exists config,
            dict_get provider table = Some config
            /\ Pricing.provider_name config = provider
            /\ Pricing.name pricing
               = str_or model (Pricing.default_model config).
Proof.
  intros Hload. unfold parse_providers in Hload.
  destruct raw as [ | | | | | | top ]; try discriminate Hload.
  destruct (get_or top "providers" (YMap []))
    as [ | | | | | | providers_raw ] eqn:Hp; try discriminate Hload.
  split.
  - exists top, providers_raw. split; [ reflexivity | ]. split; [ exact Hp | ].
    intros k. rewrite (load_providers_loop_keys _ _ _ Hload k). cbn [dict_keys map In].
    split; [ intros [ [] | H ]; exact H | intros H; right; exact H ].
  - intros provider model pricing Hget. unfold get_model_pricing in Hget.
    destruct (dict_get provider table) as [ config | ] eqn:Hc;
      [ | discriminate Hget ].
    destruct (dict_get (str_or model (Pricing.default_model config))
                (Pricing.models config)) as [ p | ] eqn:Hm;
      [ | discriminate Hget ].
    injection Hget as <-.
    unshelve epose proof
      (load_providers_loop_labels providers_raw [] table _ Hload _ _ Hc)
      as Hinv; [ intros k c H; discriminate H | ].
    destruct Hinv as [ Hname Hmodels ].
    destruct (Hmodels _ _ Hm) as [ Hn Hpv ].
    split; [ exact Hpv | ].
    exists config. split; [ reflexivity | ]. split; [ exact Hname | exact Hn ].
Qed.

(** X3: the cache of [load_providers].  A successful load of the bundled
    file fills the cache with the table it returns; from then on a load of
    the bundled file returns that same table without reading anything,
    whatever the files have become; a load from an explicit path neither
    reads nor changes the cache; a load that raises leaves the cache as it
    was; after [reset_cache] the bundled file is read again. *)
Theorem load_providers_cache {fp : FloatParsing} (files : pricing_files)
    (cache cache' : option (dict ProviderConfig))
    (table : dict ProviderConfig) :
  load_providers files None cache = (Ok table, cache') ->
  cache' = Some table
  /\ (forall files', load_providers files' None cache' = (Ok table, cache'))
  /\ (forall files' path,
        load_providers files' (Some path) cache'
        = (fst (load_providers files' (Some path) None), cache'))
  /\ (forall files' path e c,
        load_providers files' path cache' = (Raise e, c) -> c = cache')
  /\ (forall files',
        fst (load_providers files' None (reset_cache cache'))
        = match files' None with
          | Some raw => parse_providers raw
          | None => Raise PricingError
          end).
Proof.
  intros Hload.
  assert (Hc : cache' = Some table).
  { unfold load_providers in Hload.
    destruct cache as [ cached | ].
    - injection Hload as -> <-. reflexivity.
    - destruct (files None) as [ raw | ]; [ | discriminate Hload ].
      destruct (parse_providers raw); [ | discriminate Hload ].
      injection Hload as -> <-. reflexivity. }
  subst cache'. split; [ reflexivity | ].
  split; [ reflexivity | ].
  split; [ | split ].
  - intros files' path. unfold load_providers.
    destruct (files' (Some path)) as [ raw | ]; [ | reflexivity ].
    destruct (parse_providers raw); reflexivity.
  - intros files' path e c H. unfold load_providers in H.
    destruct path as [ path | ]; [ | discriminate H ].
    destruct (files' (Some path)) as [ raw | ];
      [ | injection H as _ <-; reflexivity ].
    destruct (parse_providers raw); [ discriminate H | ].
    injection H as _ <-. reflexivity.
  - intros files'. unfold load_providers, reset_cache.
    destruct (files' None) as [ raw | ]; [ | reflexivity ].
    destruct (parse_providers raw); reflexivity.
Qed.

(** The exceptions of the conversions: never [PricingError]. *)
Lemma load_model_raises {fp : FloatParsing} (provider_name model_name : string)
    (model_data : dict yaml) (e : exn) :
  load_model provider_name model_name model_data = Raise e ->
  e = TypeError \/ e = ValueError \/ e = OverflowError.
Proof.
  assert (Hfloat : forall v e', py_float v = Raise e' ->
                     e' = TypeError \/ e' = ValueError \/ e' = OverflowError).
  { intros v e' H. unfold py_float, float_of_int in H.
    destruct v as [ | b | z | f | s | items | d ];
      try (injection H as <-; tauto); try discriminate H.
    - destruct b; discriminate H.
    - destruct (binary_normalize prec emax z 0 false); try discriminate H.
      injection H as <-. tauto.
    - destruct (float_of_str s); [ discriminate H | ].
      injection H as <-. tauto. }
  assert (Hint : forall v e', py_int v = Raise e' ->
                   e' = TypeError \/ e' = ValueError \/ e' = OverflowError).
  { intros v e' H. unfold py_int, int_of_float in H.
    destruct v as [ | b | z | f | s | items | d ];
      try (injection H as <-; tauto); try discriminate H.
    - destruct f; try discriminate H; injection H as <-; tauto.
    - destruct (int_of_str s); [ discriminate H | ].
      injection H as <-. tauto. }
  unfold load_model. intros H.
  destruct (py_float (get_or model_data "input" (YInt 0))) eqn:H1;
    cbn [bind] in H; [ | injection H as <-; apply (Hfloat _ _ H1) ].
  destruct (py_float (get_or model_data "output" (YInt 0))) eqn:H2;
    cbn [bind] in H; [ | injection H as <-; apply (Hfloat _ _ H2) ].
  destruct (py_int (get_or model_data "context" (YInt 0))) eqn:H3;
    cbn [bind] in H; [ discriminate H | injection H as <-; apply (Hint _ _ H3) ].
Qed.

Lemma load_models_loop_raises {fp : FloatParsing} (provider_name : string)
    (entries : list (string * yaml)) (models : dict ModelPricing) (e : exn) :
  load_models_loop provider_name entries models = Raise e ->
  e = TypeError \/ e = ValueError \/ e = OverflowError.
Proof.
  revert models.
  induction entries as [ | [ model_name model_data ] rest IH ];
    intros models H; cbn [load_models_loop] in H; [ discriminate H | ].
  destruct model_data as [ | b | z | f | s | items | d ];
    try (apply (IH models H)).
  destruct (load_model provider_name model_name d) eqn:Hm; cbn [bind] in H.
  - apply (IH _ H).
  - injection H as <-. apply (load_model_raises _ _ _ _ Hm).
Qed.

Lemma load_providers_loop_raises {fp : FloatParsing}
    (entries : list (string * yaml)) (acc : dict ProviderConfig) (e : exn) :
  load_providers_loop entries acc = Raise e ->
  e = AttributeError \/ e = TypeError \/ e = ValueError \/ e = OverflowError.
Proof.
  revert acc.
  induction entries as [ | [ provider_name provider_data ] rest IH ];
    intros acc H; cbn [load_providers_loop] in H; [ discriminate H | ].
  destruct provider_data as [ | b | z | f | s | items | d ];
    try (apply (IH acc H)).
  destruct (get_or d "models" (YMap [])) as [ | | | | | | model_entries ];
    cbn [bind] in H; try (injection H as <-; tauto).
  destruct (load_models_loop provider_name model_entries []) eqn:Hm;
    cbn [bind] in H.
  - apply (IH _ H).
  - injection H as <-. right. apply (load_models_loop_raises _ _ _ _ Hm).
Qed.

(** X25: how loading a pricing file fails.  When the parsed file gives no
    table, the exception is [PricingError] exactly when the file is a
    mapping whose ["providers"] entry is not a mapping; a file that is not a
    mapping at all (an empty file, a list) gives [AttributeError]; and a
    provider whose ["models"] is not a mapping, or a price or context size
    that cannot be converted, gives [AttributeError], [TypeError],
    [ValueError] or [OverflowError], none of which is the package's
    [PricingError]. *)
Theorem parse_providers_errors {fp : FloatParsing} (raw : yaml) (e : exn) :
  parse_providers raw = Raise e ->
  (e = PricingError
   <-> exists top v,
         raw = YMap top
         /\ dict_get "providers" top = Some v
         /\ forall d, v <> YMap d)
  /\ ((forall top, raw <> YMap top) -> e = AttributeError)
  /\ (e = PricingError \/ e = AttributeError \/ e = TypeError
      \/ e = ValueError \/ e = OverflowError).
Proof.
  unfold parse_providers. intros H.
  destruct raw as [ | b | z | f | s | items | top ];
    try (injection H as <-;
         split;
         [ split; [ discriminate | intros [ top [ v [ Hr _ ] ] ]; discriminate Hr ]
         | split; [ reflexivity | tauto ] ]).
  unfold get_or in H.
  destruct (dict_get "providers" top) as [ v | ] eqn:Hp.
  - destruct v as [ | b | z | f | s | items | providers_raw ];
      try (injection H as <-;
           split;
           [ split; [ intros _; eexists; eexists;
                      split; [ reflexivity | split; [ exact Hp | discriminate ] ]
                    | intros _; reflexivity ]
           | split; [ intros Hno; elim (Hno top); reflexivity | tauto ] ]).
    pose proof (load_providers_loop_raises _ _ _ H) as He.
    split; [ split | split ].
    + intros ->. destruct He as [ He | [ He | [ He | He ] ] ]; discriminate He.
    + intros [ top' [ v [ Hr [ Hv Hno ] ] ] ]. injection Hr as <-.
      rewrite Hp in Hv. injection Hv as <-. elim (Hno providers_raw). reflexivity.
    + intros Hno. elim (Hno top). reflexivity.
    + tauto.
  - cbn in H. discriminate H.
Qed.

(* ================================================================== *)
(** * Comparison of providers *)
(* ================================================================== *)

(** The order of floats that [min] and [max] rely on. *)
Lemma SFltb_irrefl (a : float) : SFltb a a = false.
Proof. float_order_cases. Qed.

Lemma SFltb_trans (a b c : float) :
  SFltb a b = true -> SFltb b c = true -> SFltb a c = true.
Proof. float_order_cases. Qed.

Lemma SFltb_neg_trans (a b c : float) :
  SFltb a b = true -> SFltb c b = false -> c <> S754_nan ->
  SFltb a c = true.
Proof. float_order_cases. Qed.

Lemma SFltb_neg_trans_r (a b c : float) :
  SFltb b a = true -> SFltb b c = false -> c <> S754_nan ->
  SFltb c a = true.
Proof. float_order_cases. Qed.

Section Selection.

Context {A : Type}.
Variable key : A -> float.
Variable lt : float -> float -> bool.
Hypothesis lt_irrefl : forall a, lt a a = false.
Hypothesis lt_trans :
  forall a b c, lt a b = true -> lt b c = true -> lt a c = true.
Hypothesis lt_neg_trans :
  forall a b c, lt a b = true -> lt c b = false -> c <> S754_nan ->
                lt a c = true.

(** The loop of [min] and [max]: among the items seen, the current one is
    beaten by none, and it beats every earlier one whose key is a number. *)
Lemma select_fold (rest before after : list A) (best : A) :
  (forall e, In e (before ++ best :: after) -> lt (key e) (key best) = false) ->
  (forall e, In e before -> key e <> S754_nan ->
             lt (key best) (key e) = true) ->
  let chosen :=
    fold_left (fun best x => if lt (key x) (key best) then x else best)
              rest best in
  exists before' after',
    before ++ best :: after ++ rest = before' ++ chosen :: after'
    /\ (forall e, In e (before ++ best :: after ++ rest) ->
                  lt (key e) (key chosen) = false)
    /\ (forall e, In e before' -> key e <> S754_nan ->
                  lt (key chosen) (key e) = true).
Proof.
  revert before after best.
  induction rest as [ | x rest IH ]; intros before after best Hmin Hfirst;
    cbn [fold_left].
  - exists before, after. rewrite app_nil_r. repeat split; assumption.
  - destruct (lt (key x) (key best)) eqn:Hx.
    + destruct (IH (before ++ best :: after) [] x) as [ b' [ a' [ Heq [ H1 H2 ] ] ] ].
      * intros e He. apply in_app_or in He. destruct He as [ He | [ <- | [] ] ];
          [ | apply lt_irrefl ].
        destruct (lt (key e) (key x)) eqn:Hex; [ | reflexivity ].
        assert (Hin : In e (before ++ best :: after))
          by (apply in_or_app; apply in_app_or in He; exact He).
        specialize (Hmin e Hin).
        rewrite (lt_trans _ _ _ Hex Hx) in Hmin. discriminate Hmin.
      * intros e He Hnan. apply (lt_neg_trans _ _ _ Hx (Hmin e He) Hnan).
      * exists b', a'. cbn [app] in Heq, H1.
        rewrite <- app_assoc in Heq, H1. cbn [app] in Heq, H1.
        repeat split; assumption.
    + destruct (IH before (after ++ [x]) best) as [ b' [ a' [ Heq [ H1 H2 ] ] ] ].
      * intros e He. apply in_app_or in He. destruct He as [ He | [ <- | He ] ].
        -- apply Hmin. apply in_or_app. left. exact He.
        -- apply lt_irrefl.
        -- apply in_app_or in He. destruct He as [ He | [ <- | [] ] ];
             [ | exact Hx ].
           apply Hmin. apply in_or_app. right. right. exact He.
      * exact Hfirst.
      * exists b', a'. rewrite <- app_assoc in Heq, H1. cbn [app] in Heq, H1.
        repeat split; assumption.
Qed.

End Selection.

Lemma min_by_key_first_least {A : Type} (key : A -> float) (first : A)
    (rest : list A) :
  exists before after,
    first :: rest = before ++ min_by_key key first rest :: after
    /\ (forall e, In e (first :: rest) ->
          SFltb (key e) (key (min_by_key key first rest)) = false)
    /\ (forall e, In e before -> key e <> S754_nan ->
          SFltb (key (min_by_key key first rest)) (key e) = true).
Proof.
  destruct (select_fold key SFltb SFltb_irrefl SFltb_trans SFltb_neg_trans
              rest [] [] first) as [ b [ a [ Heq [ H1 H2 ] ] ] ].
  - intros e [ <- | [] ]. apply SFltb_irrefl.
  - intros e [].
  - exists b, a. repeat split; assumption.
Qed.

Lemma max_by_key_first_greatest {A : Type} (key : A -> float) (first : A)
    (rest : list A) :
  exists before after,
    first :: rest = before ++ max_by_key key first rest :: after
    /\ (forall e, In e (first :: rest) ->
          SFltb (key (max_by_key key first rest)) (key e) = false)
    /\ (forall e, In e before -> key e <> S754_nan ->
          SFltb (key e) (key (max_by_key key first rest)) = true).
Proof.
  destruct (select_fold key (fun a b => SFltb b a)
              SFltb_irrefl
              (fun a b c H1 H2 => SFltb_trans c b a H2 H1)
              (fun a b c H1 H2 H3 => SFltb_neg_trans_r a b c H1 H2 H3)
              rest [] [] first) as [ b [ a [ Heq [ H1 H2 ] ] ] ].
  - intros e [ <- | [] ]. apply SFltb_irrefl.
  - intros e [].
  - exists b, a. repeat split; assumption.
Qed.

Lemma mapM_raise {A B : Type} (f : A -> result B) (xs : list A) (e : exn) :
  mapM f xs = Raise e
  <-> exists pre x post,
        xs = pre ++ x :: post
        /\ (forall q, In q pre -> exists y, f q = Ok y)
        /\ f x = Raise e.
Proof.
  induction xs as [ | x xs IH ]; cbn [mapM].
  - split; [ discriminate | ].
    intros [ pre [ x [ post [ H _ ] ] ] ]. destruct pre; discriminate H.
  - destruct (f x) as [ y | e' ] eqn:Hx; cbn [bind].
    + destruct (mapM f xs) as [ ys | e' ] eqn:Hxs; cbn [bind].
      * split; [ discriminate | ].
        intros [ pre [ x' [ post [ Heq [ Hpre Hx' ] ] ] ] ].
        destruct pre as [ | q pre ]; cbn [app] in Heq; injection Heq as <- ->.
        -- congruence.
        -- enough (Hcontra : @Ok (list B) ys = Raise e) by discriminate Hcontra.
           apply IH. exists pre, x', post. split; [ reflexivity | ].
           split; [ intros q' Hq'; apply Hpre; right; exact Hq' | exact Hx' ].
      * split.
        -- intros H. injection H as ->.
           destruct (proj1 IH eq_refl) as [ pre [ x' [ post [ -> [ Hpre Hx' ] ] ] ] ].
           exists (x :: pre), x', post. split; [ reflexivity | ].
           split; [ | exact Hx' ].
           intros q [ <- | Hq ]; [ exists y; exact Hx | apply Hpre; exact Hq ].
        -- intros [ pre [ x' [ post [ Heq [ Hpre Hx' ] ] ] ] ].
           destruct pre as [ | q pre ]; cbn [app] in Heq; injection Heq as <- ->.
           ++ congruence.
           ++ apply IH. exists pre, x', post. split; [ reflexivity | ].
              split; [ intros q' Hq'; apply Hpre; right; exact Hq' | exact Hx' ].
    + split.
      * intros H. injection H as ->. exists [], x, xs.
        split; [ reflexivity | ]. split; [ intros q [] | exact Hx ].
      * intros [ pre [ x' [ post [ Heq [ Hpre Hx' ] ] ] ] ].
        destruct pre as [ | q pre ]; cbn [app] in Heq; injection Heq as <- ->.
        -- congruence.
        -- destruct (Hpre x (or_introl eq_refl)) as [ y Hy ]. congruence.
Qed.

Lemma estimate_workflow_explicit_provider (providers : dict ProviderConfig)
    (workflow : ParsedWorkflow) (provider : string) (model : option string)
    (est : WorkflowEstimate) :
  estimate_workflow providers workflow (Some provider) model = Ok est ->
  WfEst.provider est = provider
  /\ WfEst.workflow_name est = Workflow.name workflow.
Proof.
  unfold estimate_workflow. intros H. repeat bind_inv H.
  injection H as <-. split; reflexivity.
Qed.

(** X4: what [compare_providers] returns.  The result carries the
    workflow's name and one estimate per provider, in the order of the
    provider list (the given one, or every provider of the table in
    ascending order), each being the estimate of the workflow for that
    provider and labelled with it.  With no provider the result names no
    cheapest and no most expensive provider and zero savings; otherwise
    both names are providers of the list. *)
Theorem compare_providers_estimates (all_providers : dict ProviderConfig)
    (workflow : ParsedWorkflow) (providers : option (list string))
    (r : CompareResult) :
  compare_providers all_providers workflow providers = Ok r ->
  let names :=
    match providers with
    | None => list_providers all_providers
    | Some ps => ps
    end in
  Compare.workflow_name r = Workflow.name workflow
  /\ Forall2
       (fun p e =>
          estimate_workflow all_providers workflow (Some p) None = Ok e
          /\ WfEst.provider e = p)
       names (Compare.estimates r)
  /\ (providers = None ->
      Sorted (fun a b => String.leb a b = true)
             (map WfEst.provider (Compare.estimates r)))
  /\ (names = [] ->
      Compare.estimates r = []
      /\ Compare.cheapest r = ""
      /\ Compare.most_expensive r = ""
      /\ Compare.savings_pct r = float_zero)
  /\ (names <> [] ->
      In (Compare.cheapest r) names /\ In (Compare.most_expensive r) names).
Proof.
  intros Hrun names. unfold compare_providers in Hrun. fold names in Hrun.
  bind_inv Hrun. rename x into estimates.
  assert (HF : Forall2
                 (fun p e =>
                    estimate_workflow all_providers workflow (Some p) None = Ok e
                    /\ WfEst.provider e = p) names estimates).
  { apply mapM_Forall2 in E. revert E. apply Forall2_impl.
    intros p e Hpe. split; [ exact Hpe | ].
    apply (estimate_workflow_explicit_provider _ _ _ _ _ Hpe). }
  assert (Hnames : map WfEst.provider estimates = names).
  { clear E Hrun. generalize dependent names. intros names HF.
    induction HF as [ | p e ps es [ _ Hp ] _ IH ]; cbn [map];
      [ reflexivity | rewrite Hp, IH; reflexivity ]. }
  assert (Hsel : forall e, In e estimates -> In (WfEst.provider e) names).
  { intros e He. rewrite <- Hnames. apply in_map. exact He. }
  destruct estimates as [ | first rest ].
  - injection Hrun as <-. cbn [Compare.workflow_name Compare.estimates
      Compare.cheapest Compare.most_expensive Compare.savings_pct].
    split; [ reflexivity | ]. split; [ exact HF | ].
    split; [ intros _; constructor | ].
    split; [ intros _; repeat split; reflexivity | ].
    intros Hne. inversion HF as [ Hnil | ]. elim Hne. symmetry. exact Hnil.
  - injection Hrun as <-. cbn [Compare.workflow_name Compare.estimates
      Compare.cheapest Compare.most_expensive Compare.savings_pct].
    split; [ reflexivity | ]. split; [ exact HF | ].
    split.
    { intros Hnone. rewrite Hnames. unfold names. rewrite Hnone.
      apply py_sorted_sorted. }
    split.
    { intros Hnil. rewrite Hnil in HF. inversion HF. }
    intros _. split; apply Hsel.
    + destruct (min_by_key_first_least WfEst.total_cost_usd first rest)
        as [ b [ a [ Heq _ ] ] ].
      rewrite Heq. apply in_or_app. right. left. reflexivity.
    + destruct (max_by_key_first_greatest WfEst.total_cost_usd first rest)
        as [ b [ a [ Heq _ ] ] ].
      rewrite Heq. apply in_or_app. right. left. reflexivity.
Qed.

(** X5: the cheapest and the most expensive provider of a comparison.  When
    the comparison has estimates, [cheapest] is the provider of an estimate
    that no estimate undercuts and that is strictly cheaper than every
    estimate before it whose cost is a number, so that among equal costs the
    first provider of the list is named; [most_expensive] likewise for the
    highest cost.  The savings are computed from these two estimates, and
    are zero when the highest cost is not positive. *)
Theorem compare_providers_extremes (all_providers : dict ProviderConfig)
    (workflow : ParsedWorkflow) (providers : option (list string))
    (r : CompareResult) :
  compare_providers all_providers workflow providers = Ok r ->
  Compare.estimates r <> [] ->
  exists c m before_c after_c before_m after_m,
    Compare.estimates r = before_c ++ c :: after_c
    /\ WfEst.provider c = Compare.cheapest r
    /\ (forall e, In e (Compare.estimates r) ->
          SFltb (WfEst.total_cost_usd e) (WfEst.total_cost_usd c) = false)
    /\ (forall e, In e before_c -> WfEst.total_cost_usd e <> S754_nan ->
          SFltb (WfEst.total_cost_usd c) (WfEst.total_cost_usd e) = true)
    /\ Compare.estimates r = before_m ++ m :: after_m
    /\ WfEst.provider m = Compare.most_expensive r
    /\ (forall e, In e (Compare.estimates r) ->
          SFltb (WfEst.total_cost_usd m) (WfEst.total_cost_usd e) = false)
    /\ (forall e, In e before_m -> WfEst.total_cost_usd e <> S754_nan ->
          SFltb (WfEst.total_cost_usd e) (WfEst.total_cost_usd m) = true)
    /\ Compare.savings_pct r
       = if float_gt_int (WfEst.total_cost_usd m) 0
         then round_ndigits
                (fmul (fsub float_one
                         (fdiv (WfEst.total_cost_usd c)
                               (WfEst.total_cost_usd m)))
                      float_hundred) 1
         else float_zero.
Proof.
  intros Hrun Hne. unfold compare_providers in Hrun.
  bind_inv Hrun. rename x into estimates.
  destruct estimates as [ | first rest ].
  - injection Hrun as <-. elim Hne. reflexivity.
  - injection Hrun as <-. cbn [Compare.estimates Compare.cheapest
      Compare.most_expensive Compare.savings_pct].
    destruct (min_by_key_first_least WfEst.total_cost_usd first rest)
      as [ bc [ ac [ Hc [ Hc1 Hc2 ] ] ] ].
    destruct (max_by_key_first_greatest WfEst.total_cost_usd first rest)
      as [ bm [ am [ Hm [ Hm1 Hm2 ] ] ] ].
    exists (min_by_key WfEst.total_cost_usd first rest),
           (max_by_key WfEst.total_cost_usd first rest), bc, ac, bm, am.
    repeat split; try assumption; reflexivity.
Qed.

(** X6: a comparison is all or nothing.  [compare_providers] raises exactly
    when the estimate for some provider of the list raises, and then it
    raises the exception of the first such provider: no partial comparison
    is returned. *)
Theorem compare_providers_raises (all_providers : dict ProviderConfig)
    (workflow : ParsedWorkflow) (providers : option (list string))
    (e : exn) :
  compare_providers all_providers workflow providers = Raise e
  <-> exists pre p post,
        match providers with
        | None => list_providers all_providers
        | Some ps => ps
        end = pre ++ p :: post
        /\ (forall q, In q pre ->
              exists est,
                estimate_workflow all_providers workflow (Some q) None = Ok est)
        /\ estimate_workflow all_providers workflow (Some p) None = Raise e.
Proof.
  rewrite <- (mapM_raise
                (fun provider =>
                   estimate_workflow all_providers workflow (Some provider) None)).
  unfold compare_providers.
  destruct (mapM _ _) as [ estimates | e' ]; cbn [bind].
  - destruct estimates; split; discriminate.
  - split; intros H; injection H as ->; reflexivity.
Qed.

(* ================================================================== *)
(** * Estimates: tokens, steps, containers *)
(* ================================================================== *)

(** [estimate_workflow], with the values it settles on named. *)
Lemma estimate_workflow_unfold (providers : dict ProviderConfig)
    (workflow : ParsedWorkflow) (provider model : option string) :
  estimate_workflow providers workflow provider model
  = (step_estimates <-
       mapM (fun step =>
               estimate_step providers step
                 (step_provider_of workflow provider step)
                 (step_model_of providers workflow provider model step))
            (Workflow.steps workflow) ;;
     budget_util <-
       (match Workflow.token_budget workflow with
        | Some budget =>
            if negb (budget =? 0) && (0 <? budget)
            then
              q <- truediv
                     (sum_ints (map StepEst.estimated_tokens step_estimates))
                     budget ;;
              Ok (Some (round_ndigits (fmul q float_hundred) 1))
            else Ok None
        | None => Ok None
        end) ;;
     total_cost_usd <-
       number_to_float
         (round_number (sum_costs (map StepEst.cost_usd step_estimates)) 6) ;;
     Ok (WfEst.Build (Workflow.name workflow)
           (sum_ints (map StepEst.estimated_tokens step_estimates))
           total_cost_usd (Workflow.token_budget workflow) budget_util
           step_estimates
           (workflow_provider workflow provider)
           (workflow_model providers workflow provider model))).
Proof.
  unfold estimate_workflow, step_provider_of, step_model_of, workflow_model,
    workflow_provider.
  destruct provider as [ p | ]; reflexivity.
Qed.

(** What a returned step estimate holds. *)
Lemma estimate_step_ok (providers : dict ProviderConfig) (step : ParsedStep)
    (provider model : string) (est : StepEstimate) :
  estimate_step providers step provider model = Ok est ->
  StepEst.step_id est = Step.id step
  /\ StepEst.step_type est = Step.step_type step
  /\ StepEst.role est = Step.role step
  /\ StepEst.provider est = provider
  /\ StepEst.model est = model
  /\ StepEst.estimated_tokens est = fst (resolve_with_nested step)
  /\ StepEst.source est = snd (resolve_with_nested step)
  /\ _split_tokens (fst (resolve_with_nested step))
     = Ok (StepEst.input_tokens est, StepEst.output_tokens est)
  /\ if StepType_eqb (Step.step_type step) LLM
     then exists pricing,
            get_model_pricing providers provider (Some model) = Ok pricing
            /\ calculate_cost (StepEst.input_tokens est)
                 (StepEst.output_tokens est) pricing
               = Ok (StepEst.cost_usd est)
     else StepEst.cost_usd est = float_zero.
Proof.
  unfold estimate_step. destruct (resolve_with_nested step) as [ total source ].
  cbn [fst snd].
  destruct (_split_tokens total) as [ [ i o ] | e ]; cbn [bind];
    [ | discriminate ].
  destruct (StepType_eqb (Step.step_type step) LLM); cbn [negb].
  - destruct (get_model_pricing providers provider (Some model))
      as [ pricing | e ]; cbn [bind]; [ | discriminate ].
    destruct (calculate_cost i o pricing) as [ cost | e ] eqn:Hc; cbn [bind];
      [ | discriminate ].
    intro H. injection H as <-. cbn. repeat (split; [ reflexivity | ]).
    exists pricing. split; [ reflexivity | exact Hc ].
  - cbn [bind]. intro H. injection H as <-. cbn.
    repeat (split; [ reflexivity | ]). reflexivity.
Qed.

Lemma Forall2_map_eq {A B C : Type} (f : A -> C) (g : B -> C)
    (xs : list A) (ys : list B) :
  Forall2 (fun x y => g y = f x) xs ys -> map g ys = map f xs.
Proof.
  induction 1 as [ | x y xs ys H _ IH ]; cbn [map];
    [ reflexivity | rewrite H, IH; reflexivity ].
Qed.

(** X7: the steps of a workflow estimate.  A returned estimate has one step
    estimate per top-level step, in order, with the step's id, type and
    role; its tokens are the step's resolved total (its own, or the sum
    over its nested steps when that is larger), split into input and output
    tokens that add up to it; a step that is not an LLM call costs nothing;
    [total_tokens] is the sum of the resolved totals, and the estimate
    carries the workflow's name and declared budget. *)
Theorem estimate_workflow_steps (providers : dict ProviderConfig)
    (workflow : ParsedWorkflow) (provider model : option string)
    (est : WorkflowEstimate) :
  estimate_workflow providers workflow provider model = Ok est ->
  WfEst.workflow_name est = Workflow.name workflow
  /\ WfEst.budget_declared est = Workflow.token_budget workflow
  /\ Forall2
       (fun step e =>
          StepEst.step_id e = Step.id step
          /\ StepEst.step_type e = Step.step_type step
          /\ StepEst.role e = Step.role step
          /\ StepEst.estimated_tokens e = fst (resolve_with_nested step)
          /\ StepEst.source e = snd (resolve_with_nested step)
          /\ StepEst.input_tokens e + StepEst.output_tokens e
             = StepEst.estimated_tokens e
          /\ (Step.step_type step <> LLM -> StepEst.cost_usd e = float_zero))
       (Workflow.steps workflow) (WfEst.steps est)
  /\ WfEst.total_tokens est
     = sum_ints (map (fun step => fst (resolve_with_nested step))
                     (Workflow.steps workflow)).
Proof.
  rewrite estimate_workflow_unfold. intros H.
  bind_inv H. rename x into ests. bind_inv H. bind_inv H.
  injection H as <-.
  cbn [WfEst.workflow_name WfEst.budget_declared WfEst.steps WfEst.total_tokens].
  apply mapM_Forall2 in E.
  assert (HF : Forall2
                 (fun step e =>
                    StepEst.step_id e = Step.id step
                    /\ StepEst.step_type e = Step.step_type step
                    /\ StepEst.role e = Step.role step
                    /\ StepEst.estimated_tokens e = fst (resolve_with_nested step)
                    /\ StepEst.source e = snd (resolve_with_nested step)
                    /\ StepEst.input_tokens e + StepEst.output_tokens e
                       = StepEst.estimated_tokens e
                    /\ (Step.step_type step <> LLM ->
                        StepEst.cost_usd e = float_zero))
                 (Workflow.steps workflow) ests).
  { revert E. apply Forall2_impl. intros step e He.
    apply estimate_step_ok in He.
    destruct He as [ H1 [ H2 [ H3 [ _ [ _ [ H6 [ H7 [ H8 H9 ] ] ] ] ] ] ] ].
    repeat (split; [ assumption | ]).
    split.
    - rewrite H6. apply (split_tokens_sum _ _ _ H8).
    - intros Hne. destruct (Step.step_type step); try exact H9.
      elim Hne. reflexivity. }
  repeat (split; [ first [ reflexivity | exact HF ] | ]).
  f_equal. apply Forall2_map_eq. revert HF. apply Forall2_impl.
  intros step e He. apply He.
Qed.

(** X8: the token side of an estimate does not depend on prices.  Two
    returned estimates of the same workflow, for any two pricing tables,
    providers and models, have the same total tokens, the same budget
    utilization, and step estimates that differ at most in provider, model
    and cost. *)
Theorem estimate_tokens_independent_of_pricing
    (providers providers' : dict ProviderConfig) (workflow : ParsedWorkflow)
    (provider provider' model model' : option string)
    (est est' : WorkflowEstimate) :
  estimate_workflow providers workflow provider model = Ok est ->
  estimate_workflow providers' workflow provider' model' = Ok est' ->
  WfEst.total_tokens est = WfEst.total_tokens est'
  /\ WfEst.budget_utilization est = WfEst.budget_utilization est'
  /\ map token_view (WfEst.steps est) = map token_view (WfEst.steps est').
Proof.
  rewrite !estimate_workflow_unfold. intros H H'.
  bind_inv H. rename x into ests, E into HM.
  bind_inv H. rename x into util, E into Hu. bind_inv H.
  bind_inv H'. rename x0 into ests', E0 into HM'.
  bind_inv H'. rename x0 into util', E0 into Hu'. bind_inv H'.
  injection H as <-. injection H' as <-.
  cbn [WfEst.total_tokens WfEst.budget_utilization WfEst.steps].
  assert (Hview : forall P pf mf es,
             mapM (fun step => estimate_step P step (pf step) (mf step))
                  (Workflow.steps workflow) = Ok es ->
             map token_view es
             = map (fun step =>
                      (Step.id step, Step.step_type step, Step.role step,
                       fst (resolve_with_nested step),
                       match _split_tokens (fst (resolve_with_nested step)) with
                       | Ok (i, _) => i
                       | Raise _ => 0
                       end,
                       match _split_tokens (fst (resolve_with_nested step)) with
                       | Ok (_, o) => o
                       | Raise _ => 0
                       end,
                       snd (resolve_with_nested step)))
                   (Workflow.steps workflow)).
  { intros P pf mf es Hes. apply mapM_Forall2 in Hes.
    apply Forall2_map_eq. revert Hes. apply Forall2_impl.
    intros step e He. apply estimate_step_ok in He.
    destruct He as [ H1 [ H2 [ H3 [ _ [ _ [ H6 [ H7 [ H8 _ ] ] ] ] ] ] ] ].
    unfold token_view. rewrite H8, H1, H2, H3, H6, H7. reflexivity. }
  assert (Hv : map token_view ests = map token_view ests').
  { rewrite (Hview _ _ _ _ HM), (Hview _ _ _ _ HM'). reflexivity. }
  assert (Ht : map StepEst.estimated_tokens ests
               = map StepEst.estimated_tokens ests').
  { assert (G : forall es, map StepEst.estimated_tokens es
                           = map (fun v => snd (fst (fst (fst v))))
                                 (map token_view es)).
    { intros es. rewrite map_map. reflexivity. }
    rewrite (G ests), (G ests'), Hv. reflexivity. }
  rewrite Ht in *. rewrite Hu in Hu'. injection Hu' as <-.
  repeat split; [ exact Hv ].
Qed.

(** X9: container steps.  A step without nested steps is estimated at its
    own resolved tokens.  A step with nested steps is estimated at the
    larger of its own resolved tokens and the sum of the resolved tokens of
    its direct children; when the children's sum wins, the source is
    "declared" if the step declares a non-zero number of tokens and
    "archetype" otherwise, never "default".  Nothing below the direct
    children is read: the result depends only on the declared tokens, role
    and type of the step and of each direct child. *)
Theorem container_estimate (step : ParsedStep) :
  let own := fst (_resolve_tokens step) in
  let nested_total :=
    sum_ints (map (fun ns => fst (_resolve_tokens ns)) (Step.nested_steps step)) in
  (Step.nested_steps step = [] ->
   resolve_with_nested step = _resolve_tokens step)
  /\ (Step.nested_steps step <> [] ->
      fst (resolve_with_nested step) = Z.max own nested_total
      /\ (own < nested_total ->
          snd (resolve_with_nested step)
          = if truthy_int (Step.estimated_tokens step)
            then declared else archetype)
      /\ (nested_total <= own ->
          snd (resolve_with_nested step) = snd (_resolve_tokens step)))
  /\ (forall step',
        Step.estimated_tokens step' = Step.estimated_tokens step ->
        Step.role step' = Step.role step ->
        Step.step_type step' = Step.step_type step ->
        Forall2 (fun a b => Step.estimated_tokens a = Step.estimated_tokens b
                            /\ Step.role a = Step.role b
                            /\ Step.step_type a = Step.step_type b)
                (Step.nested_steps step') (Step.nested_steps step) ->
        resolve_with_nested step' = resolve_with_nested step).
Proof.
  intros own nested_total.
  split; [ | split ].
  - intros Hnil. unfold resolve_with_nested. rewrite Hnil.
    destruct (_resolve_tokens step). reflexivity.
  - intros Hne. unfold resolve_with_nested.
    subst own nested_total.
    destruct (_resolve_tokens step) as [ total source ]. cbn [fst snd].
    destruct (Step.nested_steps step) as [ | ns rest ];
      [ elim Hne; reflexivity | ].
    destruct (Z.ltb_spec total
                (sum_ints (map (fun ns0 => fst (_resolve_tokens ns0)) (ns :: rest))));
      cbn [fst snd].
    + split; [ lia | ]. split; [ reflexivity | lia ].
    + split; [ lia | ]. split; [ lia | reflexivity ].
  - intros step' Ht Hr Hty HF.
    assert (Hres : forall a b,
               Step.estimated_tokens a = Step.estimated_tokens b ->
               Step.role a = Step.role b ->
               Step.step_type a = Step.step_type b ->
               _resolve_tokens a = _resolve_tokens b).
    { intros a b H1 H2 H3. unfold _resolve_tokens, resolve_tokens_with.
      rewrite H1, H2, H3. reflexivity. }
    assert (Hmap : map (fun ns => fst (_resolve_tokens ns)) (Step.nested_steps step')
                   = map (fun ns => fst (_resolve_tokens ns)) (Step.nested_steps step)).
    { clear - HF Hres.
      induction HF as [ | a b l l' [ H1 [ H2 H3 ] ] _ IH ]; cbn [map];
        [ reflexivity | ].
      rewrite (Hres a b H1 H2 H3), IH. reflexivity. }
    unfold resolve_with_nested. rewrite (Hres step' step Ht Hr Hty), Ht.
    destruct (_resolve_tokens step) as [ total source ].
    inversion HF as [ Ha Hb | a b l l' Hab Hl Ha Hb ].
    + reflexivity.
    + rewrite Ha, Hb, Hmap. rewrite <- Hb. reflexivity.
Qed.

(** X10: budget utilization.  A returned workflow estimate has a budget
    utilization exactly when the workflow declares a positive token budget;
    it is then the total tokens divided by the budget, times one hundred,
    rounded to one decimal.  A zero, negative or absent budget gives no
    utilization. *)
Theorem budget_utilization_iff_positive_budget
    (providers : dict ProviderConfig) (workflow : ParsedWorkflow)
    (provider model : option string) (est : WorkflowEstimate) :
  estimate_workflow providers workflow provider model = Ok est ->
  match Workflow.token_budget workflow with
  | Some budget =>
      if 0 <? budget
      then exists q,
             truediv (WfEst.total_tokens est) budget = Ok q
             /\ WfEst.budget_utilization est
                = Some (round_ndigits (fmul q float_hundred) 1)
      else WfEst.budget_utilization est = None
  | None => WfEst.budget_utilization est = None
  end.
Proof.
  rewrite estimate_workflow_unfold. intros H.
  bind_inv H. rename x into ests. bind_inv H. rename x into util, E0 into Hu.
  bind_inv H. injection H as <-.
  cbn [WfEst.total_tokens WfEst.budget_utilization].
  destruct (Workflow.token_budget workflow) as [ budget | ];
    [ | injection Hu as <-; reflexivity ].
  destruct (Z.ltb_spec 0 budget) as [ Hpos | Hneg ].
  - replace (budget =? 0) with false in Hu by (symmetry; apply Z.eqb_neq; lia).
    cbn [negb andb] in Hu. bind_inv Hu. injection Hu as <-.
    exists x0. split; reflexivity.
  - rewrite andb_false_r in Hu. injection Hu as <-. reflexivity.
Qed.

(* ================================================================== *)
(** * Float operations that cannot overflow *)
(* ================================================================== *)

Lemma shr_1_m (mrs : shr_record) :
  0 <= shr_m mrs -> shr_m (shr_1 mrs) = shr_m mrs / 2.
Proof.
  destruct mrs as [ m r s ]. cbn [shr_m]. intros Hm.
  destruct m as [ | [ p | p | ] | p ]; try lia; cbn [shr_1 shr_m].
  - reflexivity.
  - rewrite (Pos2Z.inj_xI p). apply Z.div_unique with (r := 1); lia.
  - rewrite (Pos2Z.inj_xO p). apply Z.div_unique with (r := 0); lia.
  - reflexivity.
Qed.

Lemma shr_iter_m (n : nat) (mrs : shr_record) :
  0 <= shr_m mrs ->
  shr_m (Nat.iter n shr_1 mrs) = shr_m mrs / 2 ^ Z.of_nat n.
Proof.
  intros Hm. induction n as [ | n IH ].
  - unfold Nat.iter. cbn [nat_rect Z.of_nat]. rewrite Z.pow_0_r, Z.div_1_r.
    reflexivity.
  - rewrite Nat.iter_succ, shr_1_m.
    + rewrite IH, Nat2Z.inj_succ, Z.pow_succ_r by lia.
      rewrite Z.div_div by (try apply Z.pow_pos_nonneg; lia).
      f_equal. lia.
    + rewrite IH. apply Z.div_pos; [ exact Hm | apply Z.pow_pos_nonneg; lia ].
Qed.

Lemma shr_pos_m (p : positive) (mrs : shr_record) :
  0 <= shr_m mrs ->
  shr_m (iter_pos shr_1 p mrs) = shr_m mrs / 2 ^ Z.pos p.
Proof.
  intros Hm. rewrite iter_pos_nat, shr_iter_m by exact Hm.
  rewrite positive_nat_Z. reflexivity.
Qed.

Lemma Zdigits2_le (m k : Z) : 0 <= k -> 0 <= m < 2 ^ k -> Zdigits2 m <= k.
Proof.
  intros Hk [ H0 Hm ]. destruct m as [ | p | p ]; cbn [Zdigits2]; try lia.
  destruct (digits2_pos_bounds p) as [ Hlo _ ].
  destruct (Z_le_gt_dec (Z.pos (digits2_pos p)) k) as [ | Hgt ]; [ assumption | ].
  assert (2 ^ k <= 2 ^ (Z.pos (digits2_pos p) - 1))
    by (apply Z.pow_le_mono_r; lia).
  lia.
Qed.

Lemma Zdigits2_pow (m : Z) : 0 <= m -> m < 2 ^ Zdigits2 m /\ 0 <= Zdigits2 m.
Proof.
  intros H0. destruct m as [ | p | p ]; cbn [Zdigits2]; try lia.
  destruct (digits2_pos_bounds p). lia.
Qed.

Lemma round_nearest_even_bounds (m : Z) (l : location) :
  m <= round_nearest_even m l <= m + 1.
Proof.
  unfold round_nearest_even.
  destruct l as [ | [ | | ] ]; try destruct (IntDef.Z.even m); lia.
Qed.

Lemma shr_record_of_loc_m (m : Z) (l : location) :
  shr_m (shr_record_of_loc m l) = m.
Proof. destruct l as [ | [ | | ] ]; reflexivity. Qed.

Lemma fexp_value (e : Z) : fexp prec emax e = Z.max (e - 53) (-1074).
Proof. reflexivity. Qed.

(** One shift of [binary_round_aux]: the exponent stays within the range,
    and so does the size of the mantissa. *)
Lemma shr_fexp_range (m e B : Z) (l : location) :
  0 <= m -> e <= 971 -> m < 2 ^ (B - e) -> 0 <= B <= 1024 ->
  let '(mrs, e') := shr_fexp prec emax m e l in
  0 <= shr_m mrs /\ e' <= 971 /\ shr_m mrs < 2 ^ (B - e').
Proof.
  intros H0 He Hm HB. unfold shr_fexp, shr.
  assert (Hd : Zdigits2 m <= B - e).
  { apply Zdigits2_le; [ | lia ].
    destruct (Z_le_gt_dec 0 (B - e)); [ assumption | ].
    rewrite Z.pow_neg_r in Hm by lia. lia. }
  rewrite fexp_value.
  destruct (Z.max (Zdigits2 m + e - 53) (-1074) - e) as [ | p | p ] eqn:Hn;
    rewrite ?shr_record_of_loc_m; try (repeat split; assumption).
  rewrite shr_pos_m, shr_record_of_loc_m by (rewrite shr_record_of_loc_m; lia).
  assert (Hp : 0 < 2 ^ Z.pos p) by (apply Z.pow_pos_nonneg; lia).
  split; [ apply Z.div_pos; lia | ]. split; [ lia | ].
  apply Z.div_lt_upper_bound; [ exact Hp | ].
  rewrite <- Z.pow_add_r by lia.
  replace (Z.pos p + (B - (e + Z.pos p))) with (B - e) by lia. exact Hm.
Qed.

(** Rounding a mantissa whose value is below [2 ^ 1023] gives a number. *)
Lemma binary_round_aux_finite (s : bool) (mx ex : Z) (l : location) :
  0 <= mx -> ex <= 971 -> mx < 2 ^ (1023 - ex) ->
  match binary_round_aux prec emax s mx ex l with
  | S754_zero _ | S754_finite _ _ _ => True
  | S754_infinity _ | S754_nan => False
  end.
Proof.
  intros H0 He Hm. unfold binary_round_aux.
  pose proof (shr_fexp_range mx ex 1023 l H0 He Hm ltac:(lia)) as H1.
  destruct (shr_fexp prec emax mx ex l) as [ mrs' e' ].
  destruct H1 as [ H1a [ H1b H1c ] ].
  pose proof (round_nearest_even_bounds (shr_m mrs') (loc_of_shr_record mrs'))
    as Hr.
  set (m1 := round_nearest_even (shr_m mrs') (loc_of_shr_record mrs')) in *.
  assert (Hm1 : m1 < 2 ^ (1024 - e')).
  { replace (1024 - e') with (1023 - e' + 1) by lia.
    rewrite Z.pow_add_r, Z.pow_1_r by lia. lia. }
  pose proof (shr_fexp_range m1 e' 1024 loc_Exact ltac:(lia) H1b Hm1 ltac:(lia))
    as H2.
  destruct (shr_fexp prec emax m1 e' loc_Exact) as [ mrs'' e'' ].
  destruct H2 as [ H2a [ H2b _ ] ].
  destruct (shr_m mrs'') as [ | m | m ]; [ exact I | | lia ].
  replace (e'' <=? emax - prec) with true; [ exact I | ].
  symmetry. apply Z.leb_le. unfold emax, prec. lia.
Qed.

(** [a / b] for two [int]s returns a number whenever [b] is not zero and
    [a] is below [2 ^ 1023] in absolute value. *)
Lemma truediv_returns (a b : Z) :
  b <> 0 -> Z.abs a < 2 ^ 1023 ->
  exists q, truediv a b = Ok q
            /\ match q with
               | S754_zero _ | S754_finite _ _ _ => True
               | S754_infinity _ | S754_nan => False
               end.
Proof.
  intros Hb Ha. unfold truediv.
  destruct (Z.abs b) as [ | mb | mb ] eqn:Eb; try lia.
  destruct (Z.abs a) as [ | ma | ma ] eqn:Ea; try lia.
  - exists (S754_zero (b <? 0)). split; [ reflexivity | exact I ].
  - unfold fdiv, SFdiv, SFdiv_core_binary.
    set (e' := IntDef.Z.min
                 (fexp prec emax
                    (Zdigits2 (Z.pos ma) + 0 - (Zdigits2 (Z.pos mb) + 0)))
                 (0 - 0)).
    assert (He' : e' <= 0) by (subst e'; apply Z.le_min_r).
    set (m' := match 0 - 0 - e' with
               | 0 => Z.pos ma
               | Z.pos _ => IntDef.Z.shiftl (Z.pos ma) (0 - 0 - e')
               | Z.neg _ => 0
               end).
    assert (Hm' : m' = Z.pos ma * 2 ^ (- e')).
    { subst m'. destruct (0 - 0 - e') as [ | p | p ] eqn:Hs; try lia.
      - replace (- e') with 0 by lia. rewrite Z.pow_0_r. lia.
      - change (IntDef.Z.shiftl (Z.pos ma) (Z.pos p))
          with (Z.shiftl (Z.pos ma) (Z.pos p)).
        rewrite Z.shiftl_mul_pow2 by lia. f_equal. f_equal. lia. }
    pose proof (Z.div_eucl_eq m' (Z.pos mb) ltac:(lia)) as Hdiv.
    pose proof (Z.mod_pos_bound m' (Z.pos mb) ltac:(lia)) as Hmod.
    unfold Z.modulo in Hmod.
    change (IntDef.Z.div_eucl m' (Z.pos mb)) with (Z.div_eucl m' (Z.pos mb)).
    destruct (Z.div_eucl m' (Z.pos mb)) as [ q r ].
    assert (Hp : 0 < 2 ^ (- e')) by (apply Z.pow_pos_nonneg; lia).
    assert (Hq0 : 0 <= q) by nia.
    assert (Hq : q < 2 ^ (1023 - e')).
    { replace (1023 - e') with (1023 + - e') by lia.
      rewrite Z.pow_add_r by lia. nia. }
    pose proof (binary_round_aux_finite
                  (xorb (a <? 0) (b <? 0)) q e'
                  (new_location (Z.pos mb) r)
                  Hq0 ltac:(lia) Hq) as Hfin.
    destruct (binary_round_aux prec emax (xorb (a <? 0) (b <? 0)) q e'
                (new_location (Z.pos mb) r)) as [ s0 | s0 | | s0 m0 e0 ]
      eqn:Hres; try contradiction.
    + eexists. split; [ reflexivity | exact I ].
    + eexists. split; [ reflexivity | exact I ].
Qed.



(* ================================================================== *)
(** * Estimates: when they are returned *)
(* ================================================================== *)

Lemma get_model_pricing_raises (providers : dict ProviderConfig)
    (provider : string) (model : option string) (e : exn) :
  get_model_pricing providers provider model = Raise e -> e = PricingError.
Proof.
  unfold get_model_pricing.
  destruct (dict_get provider providers) as [ config | ];
    [ | intros H; injection H as <-; reflexivity ].
  destruct (dict_get _ (Pricing.models config));
    [ discriminate | intros H; injection H as <-; reflexivity ].
Qed.

Lemma calculate_cost_returns (input_tokens output_tokens : Z)
    (pricing : ModelPricing) :
  Z.abs input_tokens < 2 ^ 1023 -> Z.abs output_tokens < 2 ^ 1023 ->
  exists cost, calculate_cost input_tokens output_tokens pricing = Ok cost.
Proof.
  intros Hi Ho. unfold calculate_cost.
  destruct (truediv_returns input_tokens 1000 ltac:(lia) Hi) as [ i [ -> _ ] ].
  destruct (truediv_returns output_tokens 1000 ltac:(lia) Ho) as [ o [ -> _ ] ].
  cbn [bind]. eexists. reflexivity.
Qed.

(** One step whose resolved total is in the range where the split is
    exact: the estimate is returned, unless the step is an LLM call that
    cannot be priced. *)
Lemma estimate_step_returns (providers : dict ProviderConfig)
    (step : ParsedStep) (provider model : string) :
  0 <= fst (resolve_with_nested step) < 2 ^ 50 ->
  if StepType_eqb (Step.step_type step) LLM
  then match get_model_pricing providers provider (Some model) with
       | Ok _ => exists est, estimate_step providers step provider model = Ok est
       | Raise _ =>
           estimate_step providers step provider model = Raise PricingError
       end
  else exists est, estimate_step providers step provider model = Ok est.
Proof.
  intros HT. unfold estimate_step.
  destruct (resolve_with_nested step) as [ total source ]. cbn [fst] in HT.
  rewrite (split_tokens_floor total HT). cbn [bind].
  destruct (StepType_eqb (Step.step_type step) LLM); cbn [negb bind].
  - destruct (get_model_pricing providers provider (Some model))
      as [ pricing | e ] eqn:Hp; cbn [bind].
    + assert (H3 : 0 <= 3 * total / 10 <= total).
      { split; [ apply Z.div_pos; lia | ].
        apply Z.div_le_upper_bound; lia. }
      assert (Hpow : 2 ^ 50 < 2 ^ 1023) by (apply Z.pow_lt_mono_r; lia).
      destruct (calculate_cost_returns (3 * total / 10)
                  (total - 3 * total / 10) pricing ltac:(lia) ltac:(lia))
        as [ cost -> ].
      cbn [bind]. eexists. reflexivity.
    + rewrite (get_model_pricing_raises _ _ _ _ Hp). reflexivity.
  - eexists. reflexivity.
Qed.

Lemma sum_ints_cons (x : Z) (xs : list Z) :
  sum_ints (x :: xs) = x + sum_ints xs.
Proof.
  unfold sum_ints. cbn [fold_left].
  assert (G : forall l a, fold_left Z.add l a = a + fold_left Z.add l 0).
  { induction l as [ | y l IH ]; intros a; cbn [fold_left]; [ lia | ].
    rewrite (IH (a + y)), (IH (0 + y)). lia. }
  rewrite (G xs (0 + x)). lia.
Qed.

Lemma sum_ints_bounds_each (xs : list Z) (bound : Z) :
  Forall (fun x => 0 <= x) xs -> sum_ints xs < bound ->
  Forall (fun x => 0 <= x < bound) xs /\ 0 <= sum_ints xs.
Proof.
  intros Hall. revert bound.
  induction Hall as [ | x xs Hx Hxs IH ]; intros bound Hsum.
  - split; [ constructor | unfold sum_ints; cbn; lia ].
  - rewrite sum_ints_cons in *.
    destruct (IH (sum_ints xs + 1) ltac:(lia)) as [ Hb H0 ].
    split; [ | lia ].
    constructor; [ lia | ].
    revert Hb. apply Forall_impl. intros y Hy. lia.
Qed.

Lemma StepType_eqb_eq (a b : StepType) : StepType_eqb a b = true <-> a = b.
Proof. destruct a, b; cbn; split; intros H; congruence. Qed.

Lemma estimates_returned (providers : dict ProviderConfig)
    (pf mf : ParsedStep -> string) (steps : list ParsedStep) :
  Forall (fun step => 0 <= fst (resolve_with_nested step) < 2 ^ 50) steps ->
  (Forall (fun step =>
             Step.step_type step = LLM ->
             exists pricing,
               get_model_pricing providers (pf step) (Some (mf step))
               = Ok pricing) steps ->
   exists ests,
     mapM (fun step => estimate_step providers step (pf step) (mf step)) steps
     = Ok ests)
  /\ (Exists (fun step =>
                Step.step_type step = LLM
                /\ forall pricing,
                     get_model_pricing providers (pf step) (Some (mf step))
                     <> Ok pricing) steps ->
      mapM (fun step => estimate_step providers step (pf step) (mf step)) steps
      = Raise PricingError).
Proof.
  induction 1 as [ | step rest Hstep _ [ IHa IHb ] ]; cbn [mapM].
  - split; [ intros _; eexists; reflexivity | intros H; inversion H ].
  - pose proof (estimate_step_returns providers step (pf step) (mf step) Hstep)
      as Hone.
    destruct (StepType_eqb (Step.step_type step) LLM) eqn:Hllm.
    + apply StepType_eqb_eq in Hllm.
      destruct (get_model_pricing providers (pf step) (Some (mf step)))
        as [ pricing | e ] eqn:Hp.
      * destruct Hone as [ est -> ]. cbn [bind]. split.
        -- intros HF. inversion HF as [ | ? ? _ Hrest ]; subst.
           destruct (IHa Hrest) as [ ests -> ]. eexists. reflexivity.
        -- intros HE. inversion HE as [ ? ? [ _ Hno ] | ? ? Hrest ]; subst.
           ++ elim (Hno pricing). exact Hp.
           ++ rewrite (IHb Hrest). reflexivity.
      * rewrite Hone. cbn [bind]. split; [ | reflexivity ].
        intros HF. inversion HF as [ | ? ? Hhead _ ]; subst.
        destruct (Hhead Hllm) as [ pricing Hpr ]. rewrite Hp in Hpr.
        discriminate Hpr.
    + assert (Hne : Step.step_type step <> LLM).
      { intros Heq. apply StepType_eqb_eq in Heq. congruence. }
      destruct Hone as [ est -> ]. cbn [bind]. split.
      * intros HF. inversion HF as [ | ? ? _ Hrest ]; subst.
        destruct (IHa Hrest) as [ ests -> ]. eexists. reflexivity.
      * intros HE. inversion HE as [ ? ? [ Hy _ ] | ? ? Hrest ]; subst.
        -- contradiction.
        -- rewrite (IHb Hrest). reflexivity.
Qed.

(** X11: when an estimate is returned.  For a workflow whose steps have
    non-negative resolved totals with a sum below [2 ^ 50],
    [estimate_workflow] returns an estimate if every LLM step can be priced
    with the provider and the model the estimator settles on for it, and
    raises [PricingError] if some LLM step cannot; nothing else is raised,
    whatever the prices and the budget. *)
Theorem estimate_workflow_returns (providers : dict ProviderConfig)
    (workflow : ParsedWorkflow) (provider model : option string) :
  Forall (fun step => 0 <= fst (resolve_with_nested step))
         (Workflow.steps workflow) ->
  sum_ints (map (fun step => fst (resolve_with_nested step))
                (Workflow.steps workflow)) < 2 ^ 50 ->
  (Forall (fun step =>
             Step.step_type step = LLM ->
             exists pricing,
               get_model_pricing providers
                 (step_provider_of workflow provider step)
                 (Some (step_model_of providers workflow provider model step))
               = Ok pricing)
          (Workflow.steps workflow) ->
   exists est, estimate_workflow providers workflow provider model = Ok est)
  /\ (Exists (fun step =>
                Step.step_type step = LLM
                /\ forall pricing,
                     get_model_pricing providers
                       (step_provider_of workflow provider step)
                       (Some (step_model_of providers workflow provider model
                                step))
                     <> Ok pricing)
             (Workflow.steps workflow) ->
      estimate_workflow providers workflow provider model
      = Raise PricingError).
Proof.
  intros Hnonneg Hsum.
  assert (Hrange : Forall (fun step => 0 <= fst (resolve_with_nested step) < 2 ^ 50)
                          (Workflow.steps workflow)).
  { apply Forall_map in Hnonneg.
    destruct (sum_ints_bounds_each _ _ Hnonneg Hsum) as [ Hb _ ].
    apply Forall_map in Hb. exact Hb. }
  destruct (estimates_returned providers
              (step_provider_of workflow provider)
              (step_model_of providers workflow provider model)
              _ Hrange) as [ Ha Hb ].
  rewrite estimate_workflow_unfold.
  split.
  - intros HF. destruct (Ha HF) as [ ests Hests ]. rewrite Hests. cbn [bind].
    assert (Htot : sum_ints (map StepEst.estimated_tokens ests)
                   = sum_ints (map (fun step => fst (resolve_with_nested step))
                                   (Workflow.steps workflow))).
    { f_equal. apply Forall2_map_eq. apply mapM_Forall2 in Hests.
      revert Hests. apply Forall2_impl. intros step e He.
      apply estimate_step_ok in He. apply He. }
    rewrite Htot.
    apply Forall_map in Hnonneg.
    destruct (sum_ints_bounds_each _ _ Hnonneg Hsum) as [ _ H0 ].
    assert (Hpow : 2 ^ 50 < 2 ^ 1023) by (apply Z.pow_lt_mono_r; lia).
    assert (Hutil : exists util,
               match Workflow.token_budget workflow with
               | Some budget =>
                   if negb (budget =? 0) && (0 <? budget)
                   then
                     q <- truediv
                            (sum_ints
                               (map (fun step => fst (resolve_with_nested step))
                                    (Workflow.steps workflow))) budget ;;
                     Ok (Some (round_ndigits (fmul q float_hundred) 1))
                   else Ok None
               | None => Ok None
               end = Ok util).
    { destruct (Workflow.token_budget workflow) as [ budget | ];
        [ | eexists; reflexivity ].
      destruct (budget =? 0) eqn:Hz; cbn [negb andb]; [ eexists; reflexivity | ].
      destruct (0 <? budget); [ | eexists; reflexivity ].
      apply Z.eqb_neq in Hz.
      destruct (truediv_returns
                  (sum_ints (map (fun step => fst (resolve_with_nested step))
                                 (Workflow.steps workflow)))
                  budget Hz ltac:(lia)) as [ q [ -> _ ] ].
      cbn [bind]. eexists. reflexivity. }
    destruct Hutil as [ util -> ]. cbn [bind].
    assert (Hcost : exists c,
               number_to_float
                 (round_number (sum_costs (map StepEst.cost_usd ests)) 6)
               = Ok c).
    { unfold sum_costs. destruct (map StepEst.cost_usd ests);
        cbn [round_number number_to_float]; eexists; reflexivity. }
    destruct Hcost as [ c -> ]. cbn [bind]. eexists. reflexivity.
  - intros HE. rewrite (Hb HE). reflexivity.
Qed.

(* ================================================================== *)
(** * Lint runs: failures and filters *)
(* ================================================================== *)

(** The report of a lint run, from what the rules return. *)
Lemma run_lint_report (workflow : ParsedWorkflow)
    (category : option RuleCategory) (severity : option Severity)
    (found : list (list LintFinding)) :
  mapM (fun rule => func rule workflow)
       (match category with
        | Some c => get_rules_by_category c
        | None => get_all_rules
        end) = Ok found ->
  let findings :=
    match severity with
    | Some s =>
        filter (fun f => Severity_eqb (Finding.severity f) s) (List.concat found)
    | None => List.concat found
    end in
  run_lint workflow category severity
  = Ok (Report.Build (Workflow.name workflow)
          (Z.max 0 (100 - sum_ints (map deduction findings))) findings
          (count_severity ERROR findings) (count_severity WARNING findings)
          (count_severity INFO findings)).
Proof.
  intros HM findings. unfold run_lint. rewrite HM. cbn [bind].
  fold findings. unfold make_LintReport. rewrite score_fold.
  assert (0 <= sum_ints (map deduction findings)).
  { apply sum_ints_nonneg. apply Forall_forall. intros x Hx.
    apply in_map_iff in Hx as [ f [ <- _ ] ]. rewrite deduction_values.
    destruct (Finding.severity f); lia. }
  destruct (Z.leb_spec 0 (Z.max 0 (100 - sum_ints (map deduction findings))));
    [ | lia ].
  destruct (Z.leb_spec (Z.max 0 (100 - sum_ints (map deduction findings))) 100);
    [ | lia ].
  reflexivity.
Qed.

Lemma run_lint_rules_returned (workflow : ParsedWorkflow)
    (category : option RuleCategory) (severity : option Severity)
    (report : LintReport) :
  run_lint workflow category severity = Ok report ->
  exists found,
    mapM (fun rule => func rule workflow)
         (match category with
          | Some c => get_rules_by_category c
          | None => get_all_rules
          end) = Ok found.
Proof.
  unfold run_lint. intros H. bind_inv H. exists x. reflexivity.
Qed.




(** The findings of a registered rule carry the rule's category. *)
Lemma rule_findings_category (workflow : ParsedWorkflow) (entry : RuleEntry)
    (found : list LintFinding) (f : LintFinding) :
  In entry _RULE_REGISTRY ->
  func entry workflow = Ok found ->
  In f found ->
  Finding.category f = entry_category entry.
Proof.
  intros Hentry Hfunc Hin.
  assert (Hstep : forall rid cat sev,
             (exists s, In s (Workflow.steps workflow)
                        /\ f = Finding.Build rid cat sev (Some (Step.id s))) ->
             Finding.category f = cat).
  { intros rid cat sev [ s [ _ -> ] ]. reflexivity. }
  unfold _RULE_REGISTRY, register_security, register_efficiency,
    register_resilience, register_budget, lint_rule in Hentry.
  cbn [app] in Hentry.
  repeat (destruct Hentry as [ <- | Hentry ];
          [ cbn [func entry_category] in * | ]);
    [ .. | destruct Hentry ].
  - unfold check_workflow_budget in Hfunc.
    destruct (Workflow.token_budget workflow); injection Hfunc as <-;
      [ destruct Hin | destruct Hin as [ <- | [] ]; reflexivity ].
  - eapply Hstep. exact (B002_findings _ _ _ Hfunc Hin).
  - unfold check_total_over_budget in Hfunc.
    destruct (Workflow.token_budget workflow) as [ budget | ];
      [ | injection Hfunc as <-; destruct Hin ].
    destruct (budget =? 0); [ injection Hfunc as <-; destruct Hin | ].
    destruct (budget <? _); injection Hfunc as <-;
      [ destruct Hin as [ <- | [] ]; reflexivity | destruct Hin ].
  - eapply Hstep. unfold check_undeclared_tokens in Hfunc.
    per_step per_step_findings Hfunc Hin "B004" BUDGET INFO.
  - eapply Hstep. unfold check_missing_on_failure in Hfunc.
    per_step per_step_findings Hfunc Hin "R001" RESILIENCE WARNING.
  - eapply Hstep. unfold check_abort_no_fallback in Hfunc.
    per_step per_step_findings Hfunc Hin "R002" RESILIENCE WARNING.
  - eapply Hstep. unfold check_retry_no_max in Hfunc.
    per_step per_step_findings Hfunc Hin "R003" RESILIENCE INFO.
  - eapply Hstep. unfold check_shell_no_timeout in Hfunc.
    per_step per_step_findings Hfunc Hin "R004" RESILIENCE WARNING.
  - unfold check_missing_checkpoint in Hfunc. injection Hfunc as <-.
    apply R005_findings in Hin. subst f. reflexivity.
  - eapply Hstep. unfold check_parallelizable in Hfunc. injection Hfunc as <-.
    apply E001_findings in Hin as [ s [ Hs Hf ] ]. exists s.
    apply filter_In in Hs as [ Hs _ ]. split; [ exact Hs | exact Hf ].
  - unfold check_duplicate_roles in Hfunc. injection Hfunc as <-.
    apply in_flat_map in Hin as [ [ role ids ] [ _ Hf ] ].
    split_cases. subst f. reflexivity.
  - unfold check_lightweight_checkpoint in Hfunc. injection Hfunc as <-.
    apply in_flat_map in Hin as [ [ i s ] [ Hs Hf ] ].
    destruct (negb (StepType_eqb (Step.step_type s) CHECKPOINT));
      [ destruct Hf | ].
    match type of Hf with
    | In _ (if ?c then _ else _) => destruct c
    end; [ destruct Hf as [ <- | [] ]; reflexivity | destruct Hf ].
  - eapply Hstep. unfold check_fan_out_no_limit in Hfunc.
    per_step per_step_findings Hfunc Hin "E004" EFFICIENCY WARNING.
  - eapply Hstep. unfold check_shell_injection in Hfunc.
    per_step per_step_findings Hfunc Hin "S001" SECURITY ERROR.
  - eapply Hstep. unfold check_hardcoded_paths in Hfunc.
    per_step per_step_findings Hfunc Hin "S002" SECURITY WARNING.
  - unfold check_input_validation in Hfunc.
    destruct (Workflow.inputs workflow) as [ | input inputs ];
      injection Hfunc as <-; [ destruct Hin | ].
    apply in_app_or in Hin as [ Hf | Hin ].
    + destruct input as [ name config ]. split_cases. subst f. reflexivity.
    + apply in_flat_map in Hin as [ [ name config ] [ _ Hf ] ].
      split_cases. subst f. reflexivity.
  - eapply Hstep. unfold check_mcp_no_server in Hfunc.
    per_step per_step_findings Hfunc Hin "S004" SECURITY WARNING.
Qed.

Lemma RuleCategory_eqb_eq (a b : RuleCategory) :
  RuleCategory_eqb a b = true <-> a = b.
Proof. destruct a, b; cbn; split; intros H; congruence. Qed.

Lemma filter_all {A : Type} (p : A -> bool) (l : list A) :
  (forall x, In x l -> p x = true) -> filter p l = l.
Proof.
  induction l as [ | x l IH ]; intros H; cbn [filter]; [ reflexivity | ].
  rewrite (H x (or_introl eq_refl)), IH; [ reflexivity | ].
  intros y Hy. apply H. right. exact Hy.
Qed.

Lemma filter_none {A : Type} (p : A -> bool) (l : list A) :
  (forall x, In x l -> p x = false) -> filter p l = [].
Proof.
  induction l as [ | x l IH ]; intros H; cbn [filter]; [ reflexivity | ].
  rewrite (H x (or_introl eq_refl)), IH; [ reflexivity | ].
  intros y Hy. apply H. right. exact Hy.
Qed.

(** Running the rules of one category gives the findings of that category
    among those of all the rules. *)
Lemma category_rules_findings (workflow : ParsedWorkflow) (c : RuleCategory)
    (rules : list RuleEntry) (found : list (list LintFinding)) :
  (forall r, In r rules -> In r _RULE_REGISTRY) ->
  mapM (fun rule => func rule workflow) rules = Ok found ->
  exists found_c,
    mapM (fun rule => func rule workflow)
         (filter (fun r => RuleCategory_eqb (entry_category r) c) rules)
    = Ok found_c
    /\ List.concat found_c
       = filter (fun f => RuleCategory_eqb (Finding.category f) c)
                (List.concat found).
Proof.
  revert found. induction rules as [ | r rules IH ]; intros found Hsub HM.
  - injection HM as <-. exists []. split; reflexivity.
  - cbn [mapM] in HM. bind_inv HM. rename x into fs, E into Hr.
    bind_inv HM. injection HM as <-.
    destruct (IH x (fun r' H => Hsub r' (or_intror H)) eq_refl)
      as [ found_c [ Hc Hcat ] ].
    assert (Hfs : forall f, In f fs -> Finding.category f = entry_category r).
    { intros f Hf.
      apply (rule_findings_category workflow r fs f
               (Hsub r (or_introl eq_refl)) Hr Hf). }
    cbn [filter List.concat]. rewrite filter_app.
    destruct (RuleCategory_eqb (entry_category r) c) eqn:Hrc.
    + exists (fs :: found_c). cbn [mapM]. rewrite Hr, Hc. cbn [bind List.concat].
      split; [ reflexivity | ]. rewrite Hcat. f_equal. symmetry.
      apply filter_all. intros f Hf. rewrite (Hfs f Hf). exact Hrc.
    + exists found_c. split; [ exact Hc | ]. rewrite Hcat.
      rewrite (filter_none _ fs); [ reflexivity | ].
      intros f Hf. rewrite (Hfs f Hf). exact Hrc.
Qed.

Lemma filter_filter_andb {A : Type} (p q : A -> bool) (l : list A) :
  filter q (filter p l) = filter (fun x => p x && q x) l.
Proof.
  induction l as [ | x l IH ]; cbn [filter]; [ reflexivity | ].
  destruct (p x); cbn [filter andb]; [ | exact IH ].
  destruct (q x); rewrite IH; reflexivity.
Qed.

Lemma deductions_of_filter (p : LintFinding -> bool) (l : list LintFinding) :
  sum_ints (map deduction (filter p l)) <= sum_ints (map deduction l).
Proof.
  induction l as [ | f l IH ]; cbn [filter map]; [ lia | ].
  assert (0 <= deduction f)
    by (rewrite deduction_values; destruct (Finding.severity f); lia).
  destruct (p f); cbn [map]; rewrite ?sum_ints_cons; lia.
Qed.

(** X13: the filters of a lint run.  When the run with no filter returns a
    report, the run with any category and severity filter returns one too;
    its findings are those findings of the unfiltered report that have the
    category and the severity asked for, in the same order, and its score
    is at least the unfiltered score. *)
Theorem run_lint_filters (workflow : ParsedWorkflow) (full : LintReport)
    (category : option RuleCategory) (severity : option Severity) :
  run_lint workflow None None = Ok full ->
  exists part,
    run_lint workflow category severity = Ok part
    /\ Report.findings part
       = filter (fun f =>
                   match category with
                   | Some c => RuleCategory_eqb (Finding.category f) c
                   | None => true
                   end
                   && match severity with
                      | Some s => Severity_eqb (Finding.severity f) s
                      | None => true
                      end)
                (Report.findings full)
    /\ Report.score full <= Report.score part.
Proof.
  intros Hfull.
  destruct (run_lint_rules_returned _ _ _ _ Hfull) as [ found HM ].
  pose proof (run_lint_report workflow None None found HM) as Hrep.
  cbv beta zeta in Hrep. rewrite Hfull in Hrep.
  assert (Hf : Report.findings full = List.concat found
               /\ Report.score full
                  = Z.max 0 (100 - sum_ints (map deduction (List.concat found)))).
  { injection Hrep as ->. split; reflexivity. }
  destruct Hf as [ Hff Hfs ]. rewrite Hff, Hfs. clear Hrep Hff Hfs.
  assert (Hsel : exists found',
             mapM (fun rule => func rule workflow)
                  (match category with
                   | Some c => get_rules_by_category c
                   | None => get_all_rules
                   end) = Ok found'
             /\ List.concat found'
                = filter (fun f =>
                            match category with
                            | Some c => RuleCategory_eqb (Finding.category f) c
                            | None => true
                            end) (List.concat found)).
  { destruct category as [ c | ].
    - apply (category_rules_findings workflow c _RULE_REGISTRY found
               (fun r H => H) HM).
    - exists found. split; [ exact HM | ]. symmetry. apply filter_all.
      reflexivity. }
  destruct Hsel as [ found' [ HM' Hcat ] ].
  eexists. split; [ apply (run_lint_report workflow category severity found' HM') | ].
  cbv beta zeta. cbn [Report.findings Report.score]. rewrite Hcat.
  assert (Hfind : match severity with
                  | Some s =>
                      filter (fun f => Severity_eqb (Finding.severity f) s)
                        (filter (fun f =>
                                   match category with
                                   | Some c =>
                                       RuleCategory_eqb (Finding.category f) c
                                   | None => true
                                   end) (List.concat found))
                  | None =>
                      filter (fun f =>
                                match category with
                                | Some c =>
                                    RuleCategory_eqb (Finding.category f) c
                                | None => true
                                end) (List.concat found)
                  end
                  = filter (fun f =>
                              match category with
                              | Some c => RuleCategory_eqb (Finding.category f) c
                              | None => true
                              end
                              && match severity with
                                 | Some s => Severity_eqb (Finding.severity f) s
                                 | None => true
                                 end) (List.concat found)).
  { destruct severity as [ s | ].
    - apply filter_filter_andb.
    - apply filter_ext. intros f. rewrite andb_true_r. reflexivity. }
  rewrite Hfind. split; [ reflexivity | ].
  pose proof (deductions_of_filter
                (fun f =>
                   match category with
                   | Some c => RuleCategory_eqb (Finding.category f) c
                   | None => true
                   end
                   && match severity with
                      | Some s => Severity_eqb (Finding.severity f) s
                      | None => true
                      end) (List.concat found)).
  lia.
Qed.

Lemma deductions_by_severity (l : list LintFinding) :
  sum_ints (map deduction l)
  = 10 * count_severity ERROR l + 5 * count_severity WARNING l
    + 2 * count_severity INFO l
  /\ count_severity ERROR l + count_severity WARNING l + count_severity INFO l
     = Z.of_nat (List.length l).
Proof.
  unfold count_severity.
  induction l as [ | f l [ IH1 IH2 ] ]; [ split; reflexivity | ].
  cbn [map filter]. rewrite sum_ints_cons, deduction_values.
  destruct (Finding.severity f); cbn [Severity_eqb List.length];
    rewrite ?Nat2Z.inj_succ; lia.
Qed.

(** X26: score and counts of a report.  The score of a returned report is
    one hundred minus ten per error, five per warning and two per info of
    the report, and not below zero; the three counts add up to the number
    of findings, so the score lies between 0 and 100; the report bears the
    workflow's name. *)
Theorem run_lint_score_from_counts (workflow : ParsedWorkflow)
    (category : option RuleCategory) (severity : option Severity)
    (report : LintReport) :
  run_lint workflow category severity = Ok report ->
  Report.score report
  = Z.max 0 (100 - 10 * Report.error_count report
                 - 5 * Report.warning_count report
                 - 2 * Report.info_count report)
  /\ Report.error_count report + Report.warning_count report
     + Report.info_count report
     = Z.of_nat (List.length (Report.findings report))
  /\ 0 <= Report.score report <= 100
  /\ Report.workflow_name report = Workflow.name workflow.
Proof.
  intros Hrun.
  destruct (run_lint_rules_returned _ _ _ _ Hrun) as [ found HM ].
  pose proof (run_lint_report workflow category severity found HM) as Hrep.
  cbv beta zeta in Hrep. rewrite Hrun in Hrep.
  set (findings := match severity with
                   | Some s => filter _ (List.concat found)
                   | None => List.concat found
                   end) in Hrep.
  destruct (deductions_by_severity findings) as [ Hsum Hcount ].
  assert (Hfields : Report.score report
                    = Z.max 0 (100 - sum_ints (map deduction findings))
                    /\ Report.error_count report = count_severity ERROR findings
                    /\ Report.warning_count report
                       = count_severity WARNING findings
                    /\ Report.info_count report = count_severity INFO findings
                    /\ Report.findings report = findings
                    /\ Report.workflow_name report = Workflow.name workflow).
  { injection Hrep as ->. repeat split. }
  destruct Hfields as [ Hs [ He [ Hw [ Hi [ Hf Hn ] ] ] ] ].
  rewrite Hs, He, Hw, Hi, Hf, Hn, Hsum.
  assert (0 <= count_severity ERROR findings) by (unfold count_severity; lia).
  assert (0 <= count_severity WARNING findings) by (unfold count_severity; lia).
  assert (0 <= count_severity INFO findings) by (unfold count_severity; lia).
  repeat split; first [ lia | exact Hcount ].
Qed.

(* ================================================================== *)
(** * Rules: what they flag *)
(* ================================================================== *)

(** ** S001: the interpolation pattern *)




(** ** R005: runs of LLM steps without a checkpoint *)





(** ** B003 and the estimator *)






(* ================================================================== *)
(** * Parsing: dispatch and the normalized steps *)
(* ================================================================== *)

(** X17: the dispatch of [parse_workflow].  A returned workflow bears the
    format that [detect_format] gives for the raw mapping and was produced
    by the normalizer of that format, with the path as its source path.
    Only the step-graph normalizer reads [version], [description] and
    [timeout_seconds]: for the three other formats the workflow has version
    ["1.0"], an empty description and no timeout, whatever the file says. *)
Theorem parse_workflow_format (raw : dict yaml) (path : string)
    (wf : ParsedWorkflow) :
  parse_workflow raw path = Ok wf ->
  detect_format raw = Ok (Workflow.format wf)
  /\ Workflow.source_path wf = Some path
  /\ match Workflow.format wf with
     | GORGON => parse_gorgon raw (Some path)
     | CREWAI => parse_crewai raw (Some path)
     | LANGCHAIN => parse_langchain raw (Some path)
     | GENERIC => parse_generic raw (Some path)
     end = Ok wf
  /\ (Workflow.format wf <> GORGON ->
      Workflow.version wf = "1.0"
      /\ Workflow.description wf = ""
      /\ Workflow.timeout_seconds wf = None).
Proof.
  unfold parse_workflow. intros H. bind_inv H. rename x into fmt.
  assert (Hfmt : Workflow.format wf = fmt
                 /\ Workflow.source_path wf = Some path
                 /\ (fmt <> GORGON ->
                     Workflow.version wf = "1.0"
                     /\ Workflow.description wf = ""
                     /\ Workflow.timeout_seconds wf = None)).
  { destruct fmt; revert H;
      [ unfold parse_gorgon | unfold parse_langchain | unfold parse_crewai
      | unfold parse_generic ];
      intros H; repeat bind_inv H; injection H as <-;
      cbn [Workflow.format Workflow.source_path Workflow.version
             Workflow.description Workflow.timeout_seconds];
      (split; [ reflexivity | ]); (split; [ reflexivity | ]);
      intros Hne; try (elim Hne; reflexivity); repeat split. }
  destruct Hfmt as [ Hf [ Hp Hd ] ]. rewrite Hf.
  split; [ reflexivity | ]. split; [ exact Hp | ]. split; [ exact H | exact Hd ].
Qed.

(** X18: the type, provider and model of a step-graph step.  A step whose
    [type] is ["claude_code"] is an LLM step with provider ["anthropic"];
    one whose [type] is ["openai"] is an LLM step with provider ["openai"];
    every other step is not an LLM step and has neither provider nor model,
    whatever its parameters say; a [type] outside the vocabulary (or absent)
    gives a shell step.  So a step is an LLM step exactly when it has a
    provider. *)
Theorem parse_step_provider (depth : nat) (raw : dict yaml)
    (step : ParsedStep) :
  _parse_step depth raw = Ok step ->
  let raw_type := py_str (get_or raw "type" (YStr "shell")) in
  (raw_type = "claude_code" ->
   Step.step_type step = LLM /\ Step.provider step = Some "anthropic")
  /\ (raw_type = "openai" ->
      Step.step_type step = LLM /\ Step.provider step = Some "openai")
  /\ (raw_type <> "claude_code" -> raw_type <> "openai" ->
      Step.step_type step <> LLM
      /\ Step.provider step = None
      /\ Step.model step = None)
  /\ (~ In raw_type _GORGON_STEP_TYPES -> Step.step_type step = SHELL)
  /\ (Step.step_type step = LLM <-> Step.provider step <> None).
Proof.
  intros H raw_type. destruct depth as [ | depth ]; [ discriminate H | ].
  cbn [_parse_step] in H. fold raw_type in H.
  repeat bind_inv H. injection H as <-.
  rename x2 into model, E2 into Hmodel.
  cbn [Step.step_type Step.provider Step.model].
  unfold get_or, _TYPE_MAP, str_in, LLM_STEP_TYPES, STEP_TYPE_PROVIDER_MAP,
    _GORGON_STEP_TYPES in *.
  cbn [dict_get existsb In] in *. fold raw_type in Hmodel.
  clearbody raw_type. clear - Hmodel.
  destruct (String.eqb raw_type "claude_code") eqn:Hcc.
  { apply String.eqb_eq in Hcc. subst raw_type. cbn.
    repeat split; try congruence; try discriminate; intros; try discriminate.
    elim H. left. reflexivity. }
  destruct (String.eqb raw_type "openai") eqn:Hoa.
  { apply String.eqb_eq in Hoa. subst raw_type. cbn.
    repeat split; try congruence; try discriminate; intros; try discriminate.
    elim H. right. left. reflexivity. }
  apply String.eqb_neq in Hcc. apply String.eqb_neq in Hoa.
  cbn [orb] in *.
  assert (Hm : model = None).
  { cbn in Hmodel. injection Hmodel as <-. reflexivity. }
  assert (Hty : match
                  (if String.eqb raw_type "shell" then Some SHELL
                   else if String.eqb raw_type "parallel" then Some PARALLEL
                   else if String.eqb raw_type "checkpoint" then Some CHECKPOINT
                   else if String.eqb raw_type "fan_out" then Some FAN_OUT
                   else if String.eqb raw_type "fan_in" then Some FAN_IN
                   else if String.eqb raw_type "map_reduce" then Some MAP_REDUCE
                   else if String.eqb raw_type "branch" then Some BRANCH
                   else if String.eqb raw_type "loop" then Some LOOP
                   else if String.eqb raw_type "mcp_tool" then Some MCP_TOOL
                   else None)
                with
                | Some v => v
                | None => SHELL
                end <> LLM).
  { repeat match goal with
           | |- context [String.eqb raw_type ?k] =>
               destruct (String.eqb raw_type k)
           end; discriminate. }
  split; [ intros; contradiction | ].
  split; [ intros; contradiction | ].
  split; [ intros _ _; split; [ exact Hty | split; [ reflexivity | exact Hm ] ] | ].
  split.
  - intros Hnot.
    repeat match goal with
           | |- context [String.eqb raw_type ?k] =>
               let E := fresh "E" in
               destruct (String.eqb raw_type k) eqn:E;
               [ apply String.eqb_eq in E; elim Hnot; rewrite E; tauto | ]
           end.
    reflexivity.
  - split; [ intros Hl; elim (Hty Hl) | intros Hp; elim Hp; reflexivity ].
Qed.

(** ** Agent/task and node/edge workflows never declare failure handling *)

Lemma flat_map_filter_map {A B : Type} (p : A -> bool) (g : A -> B)
    (l : list A) :
  flat_map (fun x => if p x then [g x] else []) l = map g (filter p l).
Proof.
  induction l as [ | x l IH ]; cbn [flat_map filter]; [ reflexivity | ].
  destruct (p x); cbn [map app]; rewrite IH; reflexivity.
Qed.

Lemma flat_map_filter_map_in {A B : Type} (p q : A -> bool) (g : A -> B)
    (l : list A) :
  (forall x, In x l -> q x = p x) ->
  flat_map (fun x => if q x then [g x] else []) l = map g (filter p l).
Proof.
  intros Hq. rewrite <- flat_map_filter_map.
  induction l as [ | x l IH ]; cbn [flat_map]; [ reflexivity | ].
  rewrite (Hq x (or_introl eq_refl)), IH; [ reflexivity | ].
  intros y Hy. apply Hq. right. exact Hy.
Qed.

Lemma wire_edge_handling (step_ids : list string) (steps : list ParsedStep)
    (edge : yaml) :
  Forall2 (fun s0 s => Step.step_type s = Step.step_type s0
                       /\ Step.id s = Step.id s0
                       /\ Step.on_failure s = Step.on_failure s0
                       /\ Step.timeout_seconds s = Step.timeout_seconds s0
                       /\ Step.max_retries s = Step.max_retries s0
                       /\ Step.has_fallback s = Step.has_fallback s0)
          steps (wire_edge step_ids steps edge).
Proof.
  assert (Hrefl : forall l : list ParsedStep,
             Forall2 (fun s0 s => Step.step_type s = Step.step_type s0
                                  /\ Step.id s = Step.id s0
                                  /\ Step.on_failure s = Step.on_failure s0
                                  /\ Step.timeout_seconds s = Step.timeout_seconds s0
                                  /\ Step.max_retries s = Step.max_retries s0
                                  /\ Step.has_fallback s = Step.has_fallback s0)
                     l l).
  { induction l; constructor; [ repeat split | assumption ]. }
  unfold wire_edge. destruct edge; try apply Hrefl.
  destruct (_ && _); [ | apply Hrefl ].
  induction steps as [ | s steps IH ]; cbn [map]; constructor; [ | exact IH ].
  destruct (_ && _); repeat split.
Qed.

Lemma wire_edges_handling (step_ids : list string) (edges : list yaml)
    (steps : list ParsedStep) (P : ParsedStep -> Prop) :
  (forall s0 s, Step.step_type s = Step.step_type s0
                /\ Step.id s = Step.id s0
                /\ Step.on_failure s = Step.on_failure s0
                /\ Step.timeout_seconds s = Step.timeout_seconds s0
                /\ Step.max_retries s = Step.max_retries s0
                /\ Step.has_fallback s = Step.has_fallback s0 ->
                P s0 -> P s) ->
  Forall P steps ->
  Forall P (fold_left (wire_edge step_ids) edges steps).
Proof.
  intros HP. revert steps.
  induction edges as [ | edge edges IH ]; intros steps Hsteps; cbn [fold_left];
    [ exact Hsteps | ].
  apply IH. pose proof (wire_edge_handling step_ids steps edge) as HF.
  revert Hsteps. generalize (wire_edge step_ids steps edge) HF. clear - HP.
  intros l HF. induction HF as [ | s0 s l0 l Hs _ IH ]; intros Hall;
    [ constructor | ].
  inversion Hall; subst. constructor; [ apply (HP s0 s Hs); assumption | ].
  apply IH. assumption.
Qed.

(** X19: agent/task and node/edge workflows and the resilience rules.  The
    normalizers of these two formats never set a failure handler, a retry
    count, a timeout or a fallback, whatever the file declares.  So on any
    workflow they return, R001 reports every LLM step, R004 reports every
    shell step, and R002 and R003 report nothing; an agent/task workflow has
    only LLM steps. *)
Theorem agent_workflows_resilience (raw : dict yaml)
    (source_path : option string) (wf : ParsedWorkflow) :
  parse_crewai raw source_path = Ok wf
  \/ parse_langchain raw source_path = Ok wf ->
  Forall (fun s => Step.on_failure s = None
                   /\ Step.timeout_seconds s = None
                   /\ Step.max_retries s = 0
                   /\ Step.has_fallback s = false)
         (Workflow.steps wf)
  /\ check_missing_on_failure wf
     = Ok (map (fun s => Finding.Build "R001" RESILIENCE WARNING
                           (Some (Step.id s)))
               (filter (fun s => StepType_eqb (Step.step_type s) LLM)
                       (Workflow.steps wf)))
  /\ check_abort_no_fallback wf = Ok []
  /\ check_retry_no_max wf = Ok []
  /\ check_shell_no_timeout wf
     = Ok (map (fun s => Finding.Build "R004" RESILIENCE WARNING
                           (Some (Step.id s)))
               (filter (fun s => StepType_eqb (Step.step_type s) SHELL)
                       (Workflow.steps wf)))
  /\ (parse_crewai raw source_path = Ok wf ->
      Forall (fun s => Step.step_type s = LLM) (Workflow.steps wf)).
Proof.
  intros Hparse.
  assert (Hsteps : Forall (fun s => Step.on_failure s = None
                                    /\ Step.timeout_seconds s = None
                                    /\ Step.max_retries s = 0
                                    /\ Step.has_fallback s = false)
                          (Workflow.steps wf)
                   /\ (parse_crewai raw source_path = Ok wf ->
                       Forall (fun s => Step.step_type s = LLM)
                              (Workflow.steps wf))).
  { destruct Hparse as [ H | H ].
    - assert (Hboth : Forall (fun s => (Step.on_failure s = None
                                        /\ Step.timeout_seconds s = None
                                        /\ Step.max_retries s = 0
                                        /\ Step.has_fallback s = false)
                                       /\ Step.step_type s = LLM)
                             (Workflow.steps wf)).
      { unfold parse_crewai in H. repeat bind_inv H. injection H as <-.
        cbn [Workflow.steps]. apply Forall_app. split.
        - apply mapM_Forall2 in E0. clear - E0.
          induction E0 as [ | ia s l l' Hs _ IH ]; constructor; [ | exact IH ].
          unfold _parse_agent in Hs. repeat bind_inv Hs. injection Hs as <-.
          repeat split.
        - apply mapM_Forall2 in E2. clear - E2.
          induction E2 as [ | it s l l' Hs _ IH ]; constructor; [ | exact IH ].
          unfold _parse_task in Hs. repeat bind_inv Hs. injection Hs as <-.
          repeat split. }
      split; [ | intros _ ]; revert Hboth; apply Forall_impl; intros s Hs;
        apply Hs.
    - split.
      + unfold parse_langchain in H. repeat bind_inv H. injection H as <-.
        cbn [Workflow.steps]. apply wire_edges_handling.
        * intros s0 s [ _ [ _ [ H1 [ H2 [ H3 H4 ] ] ] ] ] [ P1 [ P2 [ P3 P4 ] ] ].
          repeat split; congruence.
        * apply mapM_Forall2 in E0. clear - E0.
          induction E0 as [ | i_n s l l' Hs _ IH ]; constructor; [ | exact IH ].
          unfold _node_to_step in Hs. repeat bind_inv Hs. injection Hs as <-.
          repeat split.
      + intros Hc. unfold parse_langchain in H. unfold parse_crewai in Hc.
        repeat bind_inv H. repeat bind_inv Hc.
        injection H as <-. discriminate Hc. }
  destruct Hsteps as [ Hall Hllm ].
  split; [ exact Hall | ].
  assert (Hflat : forall (p : ParsedStep -> bool) (g : ParsedStep -> LintFinding)
                         (q : ParsedStep -> bool),
             (forall s, In s (Workflow.steps wf) -> q s = p s) ->
             flat_map (fun s => if q s then [g s] else []) (Workflow.steps wf)
             = map g (filter p (Workflow.steps wf))).
  { intros p g q Hq. apply flat_map_filter_map_in. exact Hq. }
  rewrite Forall_forall in Hall.
  unfold check_missing_on_failure, check_abort_no_fallback, check_retry_no_max,
    check_shell_no_timeout.
  split; [ | split; [ | split; [ | split ] ] ].
  - f_equal. apply Hflat. intros s Hs.
    destruct (Hall s Hs) as [ -> _ ]. cbn [is_none]. apply andb_true_r.
  - f_equal. apply flat_map_all_nil. intros s Hs.
    destruct (Hall s Hs) as [ -> _ ]. reflexivity.
  - f_equal. apply flat_map_all_nil. intros s Hs.
    destruct (Hall s Hs) as [ -> _ ]. reflexivity.
  - f_equal. apply Hflat. intros s Hs.
    destruct (Hall s Hs) as [ _ [ -> _ ] ]. cbn [is_none]. apply andb_true_r.
  - exact Hllm.
Qed.

(** ** Edges and dependencies *)

Lemma wire_edge_steps (step_ids : list string) (steps : list ParsedStep)
    (edge : yaml) :
  wire_edge step_ids steps edge = map (wire_step step_ids edge) steps.
Proof.
  unfold wire_edge, wire_step, edge_source, edge_target.
  destruct edge; try (symmetry; apply map_id).
  destruct (_ && _); [ reflexivity | symmetry; apply map_id ].
Qed.

Lemma wire_edges_steps (step_ids : list string) (edges : list yaml)
    (steps : list ParsedStep) :
  fold_left (wire_edge step_ids) edges steps
  = map (fun s => fold_left (fun s e => wire_step step_ids e s) edges s) steps.
Proof.
  revert steps. induction edges as [ | edge edges IH ]; intros steps;
    cbn [fold_left].
  - symmetry. apply map_id.
  - rewrite IH, wire_edge_steps, map_map. reflexivity.
Qed.

Lemma str_in_In (x : string) (xs : list string) :
  str_in x xs = true <-> In x xs.
Proof.
  unfold str_in. rewrite existsb_exists. split.
  - intros [ y [ Hy Heq ] ]. apply String.eqb_eq in Heq. subst y. exact Hy.
  - intros H. exists x. split; [ exact H | apply String.eqb_refl ].
Qed.

(** One step through all the edges: its id stays, its dependency list stays
    free of duplicates and gains the sources of the edges that point to
    it. *)
Lemma wire_step_edges (step_ids : list string) (edges : list yaml)
    (s : ParsedStep) :
  NoDup (Step.depends_on s) ->
  let s' := fold_left (fun s e => wire_step step_ids e s) edges s in
  Step.id s' = Step.id s
  /\ NoDup (Step.depends_on s')
  /\ forall source,
       In source (Step.depends_on s')
       <-> In source (Step.depends_on s)
           \/ (In source step_ids /\ In (Step.id s) step_ids
               /\ exists e, In (YMap e) edges
                            /\ edge_source e = source
                            /\ edge_target e = Step.id s).
Proof.
  revert s. induction edges as [ | edge edges IH ]; intros s Hnd; cbn [fold_left].
  - split; [ reflexivity | ]. split; [ exact Hnd | ].
    intros source. split; [ intros H; left; exact H | ].
    intros [ H | [ _ [ _ [ e [ [] _ ] ] ] ] ]. exact H.
  - assert (Hone : Step.id (wire_step step_ids edge s) = Step.id s
                   /\ NoDup (Step.depends_on (wire_step step_ids edge s))
                   /\ forall source,
                        In source (Step.depends_on (wire_step step_ids edge s))
                        <-> In source (Step.depends_on s)
                            \/ (In source step_ids /\ In (Step.id s) step_ids
                                /\ exists e, edge = YMap e
                                             /\ edge_source e = source
                                             /\ edge_target e = Step.id s)).
    { unfold wire_step.
      destruct edge as [ | | | | | | e ];
        try (split; [ reflexivity | split; [ exact Hnd | ] ];
             intros source; split; [ intros H; left; exact H | ];
             intros [ H | [ _ [ _ [ e [ He _ ] ] ] ] ];
             [ exact H | discriminate He ]).
      destruct (str_in (edge_source e) step_ids) eqn:Hs; cbn [andb].
      2:{ split; [ reflexivity | split; [ exact Hnd | ] ].
          intros source. split; [ intros H; left; exact H | ].
          intros [ H | [ Hin [ _ [ e' [ He [ Hsrc _ ] ] ] ] ] ]; [ exact H | ].
          injection He as <-. subst source. apply str_in_In in Hin.
          congruence. }
      destruct (str_in (edge_target e) step_ids) eqn:Ht.
      2:{ split; [ reflexivity | split; [ exact Hnd | ] ].
          intros source. split; [ intros H; left; exact H | ].
          intros [ H | [ _ [ Hin [ e' [ He [ _ Htgt ] ] ] ] ] ]; [ exact H | ].
          injection He as <-. rewrite <- Htgt in Hin. apply str_in_In in Hin.
          congruence. }
      apply str_in_In in Hs. apply str_in_In in Ht.
      destruct (String.eqb (Step.id s) (edge_target e)) eqn:Hid; cbn [andb].
      2:{ split; [ reflexivity | split; [ exact Hnd | ] ].
          intros source. split; [ intros H; left; exact H | ].
          intros [ H | [ _ [ _ [ e' [ He [ _ Htgt ] ] ] ] ] ]; [ exact H | ].
          injection He as <-. apply String.eqb_neq in Hid. congruence. }
      apply String.eqb_eq in Hid.
      destruct (str_in (edge_source e) (Step.depends_on s)) eqn:Hdep;
        cbn [negb].
      - apply str_in_In in Hdep.
        split; [ reflexivity | split; [ exact Hnd | ] ].
        intros source. split; [ intros H; left; exact H | ].
        intros [ H | [ _ [ _ [ e' [ He [ Hsrc _ ] ] ] ] ] ]; [ exact H | ].
        injection He as <-. subst source. exact Hdep.
      - assert (Hnot : ~ In (edge_source e) (Step.depends_on s)).
        { intros H. apply str_in_In in H. congruence. }
        unfold append_dependency. cbn [Step.id Step.depends_on].
        split; [ reflexivity | ]. split.
        + apply NoDup_app; [ exact Hnd | repeat constructor; intros [] | ].
          intros x Hx [ <- | [] ]. contradiction.
        + intros source. rewrite in_app_iff. cbn [In]. split.
          * intros [ H | [ <- | [] ] ]; [ left; exact H | right ].
            split; [ exact Hs | ]. split; [ rewrite Hid; exact Ht | ].
            exists e. split; [ reflexivity | ].
            split; [ reflexivity | symmetry; exact Hid ].
          * intros [ H | [ _ [ _ [ e' [ He [ Hsrc _ ] ] ] ] ] ];
              [ left; exact H | ].
            injection He as <-. right. left. exact Hsrc. }
    destruct Hone as [ Hid1 [ Hnd1 Hdeps1 ] ].
    destruct (IH (wire_step step_ids edge s) Hnd1) as [ Hid2 [ Hnd2 Hdeps2 ] ].
    split; [ rewrite Hid2; exact Hid1 | ]. split; [ exact Hnd2 | ].
    intros source. rewrite Hdeps2, Hdeps1, Hid1. cbn [In]. split.
    + intros [ [ H | [ H1 [ H2 [ e [ He H3 ] ] ] ] ] | [ H1 [ H2 [ e [ He H3 ] ] ] ] ].
      * left. exact H.
      * right. split; [ exact H1 | ]. split; [ exact H2 | ].
        exists e. split; [ left; exact He | exact H3 ].
      * right. split; [ exact H1 | ]. split; [ exact H2 | ].
        exists e. split; [ right; exact He | exact H3 ].
    + intros [ H | [ H1 [ H2 [ e [ [ He | He ] H3 ] ] ] ] ].
      * left. left. exact H.
      * left. right. split; [ exact H1 | ]. split; [ exact H2 | ].
        exists e. split; [ exact He | exact H3 ].
      * right. split; [ exact H1 | ]. split; [ exact H2 | ].
        exists e. split; [ exact He | exact H3 ].
Qed.

(** X20: edges and dependencies of a node/edge workflow.  In a returned
    workflow, the dependency list of every step has no duplicates, and a
    name is in it exactly when it is the id of a step and some edge that is
    a mapping has it as its source (["source"], else ["from"]) and the step's
    id as its target (["target"], else ["to"]).  Edges that are not mappings,
    and edges with an end that is not the id of a step, add nothing. *)
Theorem parse_langchain_dependencies (raw : dict yaml)
    (source_path : option string) (wf : ParsedWorkflow) :
  parse_langchain raw source_path = Ok wf ->
  exists edges,
    py_iter (get_or raw "edges" (YList [])) = Ok edges
    /\ forall s,
         In s (Workflow.steps wf) ->
         NoDup (Step.depends_on s)
         /\ forall source,
              In source (Step.depends_on s)
              <-> In source (map Step.id (Workflow.steps wf))
                  /\ exists e,
                       In (YMap e) edges
                       /\ edge_source e = source
                       /\ edge_target e = Step.id s.
Proof.
  unfold parse_langchain. intros H.
  bind_inv H. rename x into nodes. bind_inv H. rename x into steps0, E0 into Hn.
  bind_inv H. rename x into edges, E0 into He. repeat bind_inv H.
  injection H as <-. cbn [Workflow.steps].
  exists edges. split; [ reflexivity | ].
  rewrite wire_edges_steps.
  set (ids := map Step.id steps0).
  assert (Hids : map Step.id
                   (map (fun s => fold_left (fun s e => wire_step ids e s) edges s)
                        steps0) = ids).
  { rewrite map_map. apply map_ext_in. intros s _.
    pose proof (wire_edge_ids ids [s] (YNull)) as _.
    assert (G : forall l s0,
               Step.id (fold_left (fun s e => wire_step ids e s) l s0)
               = Step.id s0).
    { induction l as [ | e l IH ]; intros s0; cbn [fold_left]; [ reflexivity | ].
      rewrite IH. unfold wire_step. destruct e; try reflexivity.
      destruct (_ && _); [ | reflexivity ].
      destruct (_ && _); reflexivity. }
    apply G. }
  rewrite Hids.
  assert (Hfresh : Forall (fun s => Step.depends_on s = []) steps0).
  { apply mapM_Forall2 in Hn. clear - Hn.
    induction Hn as [ | i_n s l l' Hs _ IH ]; constructor; [ | exact IH ].
    unfold _node_to_step in Hs. repeat bind_inv Hs. injection Hs as <-.
    reflexivity. }
  intros s Hs. apply in_map_iff in Hs. destruct Hs as [ s0 [ <- Hs0 ] ].
  rewrite Forall_forall in Hfresh. specialize (Hfresh s0 Hs0).
  destruct (wire_step_edges ids edges s0) as [ Hid [ Hnd Hdeps ] ];
    [ rewrite Hfresh; constructor | ].
  split; [ exact Hnd | ].
  intros source. rewrite Hdeps, Hfresh, Hid. cbn [In]. split.
  - intros [ [] | [ H1 [ _ H3 ] ] ]. split; assumption.
  - intros [ H1 H3 ]. right. split; [ exact H1 | ].
    split; [ apply in_map; exact Hs0 | exact H3 ].
Qed.

(** ** The fallback of the generic normalizer *)

(** X21: [parse_generic] reads ["tasks"] and ["pipeline"] only when
    ["agents"] is present and is not a list.  For a raw mapping whose
    ["agents"] entry is absent or a list, changing, adding or removing the
    ["tasks"] and ["pipeline"] entries changes nothing in the result: the
    loop over the three fallback keys stops at ["agents"]. *)
Theorem parse_generic_ignores_tasks (raw raw' : dict yaml)
    (source_path : option string) :
  (forall k, k <> "tasks" -> k <> "pipeline" ->
             dict_get k raw' = dict_get k raw) ->
  match dict_get "agents" raw with
  | None | Some (YList _) => True
  | Some _ => False
  end ->
  parse_generic raw' source_path = parse_generic raw source_path.
Proof.
  intros Hext Hagents.
  assert (Hk : forall k d, k <> "tasks" -> k <> "pipeline" ->
                           get_or raw' k d = get_or raw k d).
  { intros k d H1 H2. unfold get_or. rewrite (Hext k H1 H2). reflexivity. }
  unfold parse_generic, yget.
  rewrite !(Hk "name"), !(Hk "workflow"), !(Hk "steps"), !(Hk "token_budget"),
    !(Hk "budget"), !(Hk "inputs"), !(Hk "outputs"), !(Hk "metadata")
    by discriminate.
  assert (Hfb : generic_fallback [ "agents"; "tasks"; "pipeline" ] raw'
                = generic_fallback [ "agents"; "tasks"; "pipeline" ] raw).
  { cbn [generic_fallback]. rewrite (Hk "agents") by discriminate.
    assert (Hag : exists items, get_or raw "agents" (YList []) = YList items).
    { unfold get_or.
      destruct (dict_get "agents" raw) as [ [ | | | | | items | ] | ];
        try contradiction; eexists; reflexivity. }
    destruct Hag as [ items -> ]. reflexivity. }
  rewrite Hfb. reflexivity.
Qed.

(* ================================================================== *)
(** * B002: the threshold in floats *)
(* ================================================================== *)






(* ================================================================== *)
(** * E002: roles held by several LLM steps *)
(* ================================================================== *)

Lemma setdefault_append_get_same (k x : string) (d : dict (list string)) :
  dict_get k (setdefault_append k x d)
  = Some (match dict_get k d with
          | Some xs => xs ++ [x]
          | None => [x]
          end).
Proof.
  induction d as [ | [ k' xs ] rest IH ]; cbn [setdefault_append dict_get].
  - rewrite String.eqb_refl. reflexivity.
  - destruct (String.eqb k k') eqn:E; cbn [dict_get]; rewrite E;
      [ reflexivity | exact IH ].
Qed.

Lemma setdefault_append_get_other (k k0 x : string) (d : dict (list string)) :
  k0 <> k ->
  dict_get k0 (setdefault_append k x d) = dict_get k0 d.
Proof.
  intros Hne.
  induction d as [ | [ k' xs ] rest IH ]; cbn [setdefault_append dict_get].
  - destruct (String.eqb k0 k) eqn:E; [ | reflexivity ].
    apply String.eqb_eq in E. contradiction.
  - destruct (String.eqb k k') eqn:E; cbn [dict_get].
    + apply String.eqb_eq in E. subst k'.
      destruct (String.eqb k0 k) eqn:E0; [ | reflexivity ].
      apply String.eqb_eq in E0. contradiction.
    + rewrite IH. reflexivity.
Qed.

Lemma setdefault_append_keys (k x : string) (d : dict (list string)) :
  NoDup (map fst d) -> NoDup (map fst (setdefault_append k x d)).
Proof.
  intros Hnd.
  assert (Hkeys : forall k0, In k0 (map fst (setdefault_append k x d))
                             -> k0 = k \/ In k0 (map fst d)).
  { induction d as [ | [ k' xs ] rest IH ]; cbn [setdefault_append map fst In].
    - intros k0 [ H | [] ]. left. congruence.
    - intros k0. destruct (String.eqb k k'); cbn [map fst In].
      + intros H. right. exact H.
      + intros [ H | H ]; [ right; left; exact H | ].
        inversion Hnd; subst.
        destruct (IH ltac:(assumption) k0 H) as [ H' | H' ];
          [ left; exact H' | right; right; exact H' ]. }
  clear Hkeys.
  induction d as [ | [ k' xs ] rest IH ]; cbn [setdefault_append map fst].
  - repeat constructor. intros [].
  - inversion Hnd as [ | ? ? Hnot Hrest ]; subst.
    destruct (String.eqb k k') eqn:E; cbn [map fst].
    + constructor; assumption.
    + constructor; [ | apply IH; exact Hrest ].
      intros Hin. apply dict_get_keys in Hin. destruct Hin as [ v Hv ].
      apply String.eqb_neq in E.
      rewrite setdefault_append_get_other in Hv by congruence.
      apply Hnot. apply dict_get_keys. exists v. exact Hv.
Qed.

Lemma dict_get_in {V : Type} (k : string) (v : V) (d : dict V) :
  NoDup (map fst d) -> (In (k, v) d <-> dict_get k d = Some v).
Proof.
  induction d as [ | [ k' v' ] rest IH ]; intros Hnd; cbn [dict_get In].
  - split; [ intros [] | discriminate ].
  - inversion Hnd as [ | ? ? Hnot Hrest ]; subst. cbn [fst] in Hnot.
    destruct (String.eqb k k') eqn:E.
    + apply String.eqb_eq in E. subst k'. split.
      * intros [ H | H ]; [ injection H as ->; reflexivity | ].
        elim Hnot. apply (in_map fst) in H. exact H.
      * intros H. injection H as ->. left. reflexivity.
    + apply String.eqb_neq in E. rewrite <- (IH Hrest). split.
      * intros [ H | H ]; [ injection H as H _; congruence | exact H ].
      * intros H. right. exact H.
Qed.

(** The dictionary that E002 builds: under each non-empty role, the ids of
    the LLM steps that have it, in order. *)
Lemma role_steps_fold (steps : list ParsedStep) (acc : dict (list string)) :
  NoDup (map fst acc) ->
  dict_get "" acc = None ->
  let built :=
    fold_left
      (fun role_steps step =>
         if StepType_eqb (Step.step_type step) LLM
            && truthy_str (Step.role step)
         then
           match Step.role step with
           | Some role => setdefault_append role (Step.id step) role_steps
           | None => role_steps
           end
         else role_steps)
      steps acc in
  NoDup (map fst built)
  /\ dict_get "" built = None
  /\ forall role,
       role <> "" ->
       dict_get role built
       = match dict_get role acc,
               map Step.id
                 (filter (fun s => StepType_eqb (Step.step_type s) LLM
                                   && opt_str_is (Step.role s) role) steps)
         with
         | Some xs, ids => Some (xs ++ ids)
         | None, [] => None
         | None, ids => Some ids
         end.
Proof.
  revert acc. induction steps as [ | step rest IH ]; intros acc Hnd Hempty;
    cbn [fold_left filter map].
  - split; [ exact Hnd | ]. split; [ exact Hempty | ].
    intros role _. destruct (dict_get role acc); [ rewrite app_nil_r | ];
      reflexivity.
  - destruct (StepType_eqb (Step.step_type step) LLM) eqn:Hty; cbn [andb].
    2:{ destruct (IH acc Hnd Hempty) as [ H1 [ H2 H3 ] ].
        split; [ exact H1 | ]. split; [ exact H2 | exact H3 ]. }
    destruct (Step.role step) as [ r | ] eqn:Hr; cbn [truthy_str opt_str_is].
    2:{ destruct (IH acc Hnd Hempty) as [ H1 [ H2 H3 ] ].
        split; [ exact H1 | ]. split; [ exact H2 | exact H3 ]. }
    destruct (String.eqb r "") eqn:Hre; cbn [negb].
    { apply String.eqb_eq in Hre. subst r.
      destruct (IH acc Hnd Hempty) as [ H1 [ H2 H3 ] ].
      split; [ exact H1 | ]. split; [ exact H2 | ].
      intros role Hne. rewrite (H3 role Hne).
      replace (String.eqb "" role) with false; [ reflexivity | ].
      symmetry. apply String.eqb_neq. congruence. }
    apply String.eqb_neq in Hre.
    destruct (IH (setdefault_append r (Step.id step) acc)
                (setdefault_append_keys _ _ _ Hnd)
                ltac:(rewrite setdefault_append_get_other by congruence;
                      exact Hempty)) as [ H1 [ H2 H3 ] ].
    split; [ exact H1 | ]. split; [ exact H2 | ].
    intros role Hne. rewrite (H3 role Hne).
    destruct (String.eqb r role) eqn:Hrr.
    + apply String.eqb_eq in Hrr. subst role.
      rewrite setdefault_append_get_same. cbn [map].
      destruct (dict_get r acc) as [ xs | ];
        [ rewrite <- app_assoc | ]; reflexivity.
    + apply String.eqb_neq in Hrr.
      rewrite setdefault_append_get_other by congruence. reflexivity.
Qed.

Lemma NoDup_filter_keys {V : Type} (p : string * V -> bool) (d : dict V) :
  NoDup (map fst d) -> NoDup (map fst (filter p d)).
Proof.
  induction d as [ | kv rest IH ]; intros Hnd; cbn [filter map];
    [ constructor | ].
  inversion Hnd as [ | ? ? Hnot Hrest ]; subst.
  destruct (p kv); cbn [map]; [ | apply IH; exact Hrest ].
  constructor; [ | apply IH; exact Hrest ].
  intros Hin. apply Hnot. apply in_map_iff in Hin.
  destruct Hin as [ kv' [ Hk Hin ] ]. apply filter_In in Hin.
  rewrite <- Hk. apply in_map. apply Hin.
Qed.

(** X23: what E002 reports.  The rule always returns; it gives one
    workflow-level finding for each role that more than two LLM steps have,
    and nothing else: the reported roles are distinct and not empty, and a
    role is reported exactly when the LLM steps with that role number three
    or more.  Steps that are not LLM calls, and steps without a role or
    with an empty one, are not counted. *)
Theorem duplicate_roles_flags (workflow : ParsedWorkflow) :
  exists roles,
    check_duplicate_roles workflow
    = Ok (map (fun _ => Finding.Build "E002" EFFICIENCY WARNING None) roles)
    /\ NoDup roles
    /\ forall role,
         In role roles
         <-> role <> ""
             /\ (2 < List.length
                       (filter (fun s => StepType_eqb (Step.step_type s) LLM
                                         && opt_str_is (Step.role s) role)
                               (Workflow.steps workflow)))%nat.
Proof.
  unfold check_duplicate_roles.
  destruct (role_steps_fold (Workflow.steps workflow) []
              ltac:(constructor) eq_refl) as [ Hnd [ Hempty Hget ] ].
  fold (role_steps_of (Workflow.steps workflow)) in Hnd, Hempty, Hget.
  set (d := role_steps_of (Workflow.steps workflow)) in *.
  exists (map fst (filter (fun kv => 2 <? Z.of_nat (List.length (snd kv))) d)).
  split; [ | split ].
  - f_equal. rewrite map_map.
    rewrite <- (flat_map_filter_map
                  (fun kv => 2 <? Z.of_nat (List.length (snd kv)))
                  (fun _ => Finding.Build "E002" EFFICIENCY WARNING None) d).
    clear. induction d as [ | [ role ids ] rest IH ]; cbn [flat_map];
      [ reflexivity | ].
    rewrite IH. reflexivity.
  - apply NoDup_filter_keys. exact Hnd.
  - intros role. rewrite in_map_iff. split.
    + intros [ [ role' ids ] [ Hk Hin ] ]. cbn [fst] in Hk. subst role'.
      apply filter_In in Hin. destruct Hin as [ Hin Hlen ]. cbn [snd] in Hlen.
      apply (dict_get_in _ _ _ Hnd) in Hin.
      assert (Hne : role <> "").
      { intros ->. rewrite Hempty in Hin. discriminate Hin. }
      split; [ exact Hne | ].
      rewrite (Hget role Hne) in Hin. cbn [dict_get] in Hin.
      apply Z.ltb_lt in Hlen.
      destruct (map Step.id _) as [ | i l ] eqn:Hids in Hin;
        [ discriminate Hin | ].
      injection Hin as <-. rewrite <- Hids, length_map in Hlen. lia.
    + intros [ Hne Hlen ].
      exists (role,
              map Step.id
                (filter (fun s => StepType_eqb (Step.step_type s) LLM
                                  && opt_str_is (Step.role s) role)
                        (Workflow.steps workflow))).
      split; [ reflexivity | ]. apply filter_In. cbn [snd]. split.
      * apply (dict_get_in _ _ _ Hnd). rewrite (Hget role Hne).
        cbn [dict_get].
        destruct (filter _ (Workflow.steps workflow)) as [ | s l ];
          [ cbn [List.length] in Hlen; lia | reflexivity ].
      * apply Z.ltb_lt. rewrite length_map. lia.
Qed.

(* ================================================================== *)
(** * Format detection: the one way it can fail *)
(* ================================================================== *)



End WithBuiltins.

(* ================================================================== *)
(** * Runs with the reference built-ins *)
(* ================================================================== *)

(** C1, as stated, fails for the lint half: a workflow with no steps and no
    declared budget gets the B001 warning, hence score 95. *)
Lemma empty_workflow_lint_counterexample :
  Workflow.steps (sample_workflow None []) = []
  /\ run_lint (py := ref_builtins) (sample_workflow None []) None None
     = Ok (Report.Build "test" 95 [ Finding.Build "B001" BUDGET WARNING None ]
             0 1 0).
Proof. split; [ reflexivity | vm_compute; reflexivity ]. Qed.

(** C3 fails on the code: a [steps] item whose [type] is a list makes the
    membership test in the known-step-type set raise [TypeError] instead of
    yielding a format tag. *)
Theorem detect_format_unhashable_type :
  detect_format (py := ref_builtins)
    [ ("name", YStr "demo");
      ("steps", YList [ YMap [ ("id", YStr "s1");
                               ("type", YList [ YStr "shell" ]) ] ]) ]
  = Raise TypeError.
Proof. vm_compute. reflexivity. Qed.

(** C7, as stated, fails for the model: a step that declares its own model
    is estimated with it even when the caller supplies a model. *)
Lemma estimate_workflow_model_counterexample :
  exists est e,
    estimate_workflow (py := ref_builtins) sample_providers
      (sample_workflow None [ sample_llm_step "s1" "openai" "gpt-4o-mini" 1000 ])
      None (Some "gpt-4o") = Ok est
    /\ WfEst.steps est = [ e ]
    /\ StepEst.model e = "gpt-4o-mini"
    /\ StepEst.model e <> "gpt-4o".
Proof.
  eexists. eexists.
  split; [ vm_compute; reflexivity | ].
  split; [ reflexivity | ].
  split; [ reflexivity | ]. cbn. discriminate.
Qed.


(** C8, as stated, fails: once every rule module is registered the registry
    holds seventeen rules, not fourteen. *)
Lemma rule_registry_not_fourteen :
  List.length (_RULE_REGISTRY (py := ref_builtins)) = 17%nat
  /\ List.length (_RULE_REGISTRY (py := ref_builtins)) <> 14%nat.
Proof. split; [ reflexivity | cbn; discriminate ]. Qed.

(** ** Instances of the properties on concrete inputs *)

(** C1 at a workflow with no steps and a budget of 1000 tokens. *)
Lemma empty_workflow_estimate_and_lint_witness :
  Workflow.steps (sample_workflow (Some 1000) []) = []
  /\ (exists est,
        estimate_workflow (py := ref_builtins) sample_providers
          (sample_workflow (Some 1000) []) None None = Ok est
        /\ WfEst.total_tokens est = 0
        /\ WfEst.total_cost_usd est = float_zero
        /\ WfEst.steps est = [])
  /\ run_lint (py := ref_builtins) (sample_workflow (Some 1000) []) None None
     = Ok (Report.Build "test" 100 [] 0 0 0).
Proof.
  destruct (@empty_workflow_estimate_and_lint ref_builtins sample_providers
              (sample_workflow (Some 1000) []) None None eq_refl)
    as [ Hest Hlint ].
  split; [ reflexivity | ]. split; [ exact Hest | ].
  apply (Hlint 1000 (S754_finite false 8796093022208000 (-43)));
    [ reflexivity | lia | vm_compute; reflexivity | constructor ].
Defined.

(** C2 at the workflow of [test_counts_match_findings]: an LLM step and a
    shell step, no budget; three warnings and one info, score 83. *)
Lemma run_lint_score_and_counts_witness :
  exists report,
    run_lint (py := ref_builtins)
      (sample_workflow None [ sample_step "s1" LLM; sample_step "s2" SHELL ])
      None None = Ok report
    /\ Report.score report = 83
    /\ Report.error_count report = 0
    /\ Report.warning_count report = 3
    /\ Report.info_count report = 1.
Proof.
  exists (Report.Build "test" 83
            [ Finding.Build "B001" BUDGET WARNING None;
              Finding.Build "B004" BUDGET INFO (Some "s1");
              Finding.Build "R001" RESILIENCE WARNING (Some "s1");
              Finding.Build "R004" RESILIENCE WARNING (Some "s2") ]
            0 3 1).
  assert (Hrun : run_lint (py := ref_builtins)
                   (sample_workflow None
                      [ sample_step "s1" LLM; sample_step "s2" SHELL ])
                   None None
                 = Ok (Report.Build "test" 83
                         [ Finding.Build "B001" BUDGET WARNING None;
                           Finding.Build "B004" BUDGET INFO (Some "s1");
                           Finding.Build "R001" RESILIENCE WARNING (Some "s1");
                           Finding.Build "R004" RESILIENCE WARNING (Some "s2") ]
                         0 3 1))
    by (vm_compute; reflexivity).
  split; [ exact Hrun | ].
  destruct (run_lint_score_and_counts _ _ _ _ Hrun) as [ Hs [ He [ Hw Hi ] ] ].
  split; [ rewrite Hs; reflexivity | ].
  split; [ rewrite He; reflexivity | ].
  split; [ rewrite Hw; reflexivity | rewrite Hi; reflexivity ].
Defined.

(** C4 at an LLM step with no declared estimate and no role. *)
Lemma resolve_tokens_priority_chain_witness :
  _resolve_tokens (sample_step "s" LLM) = (8000, default)
  /\ resolve_tokens_with [] (sample_step "s" LLM) = (8000, default).
Proof.
  destruct (resolve_tokens_priority_chain (sample_step "s" LLM))
    as [ Hchain [ _ Hfallback ] ].
  split; [ exact Hchain | apply Hfallback; reflexivity ].
Defined.

(** C6 at [T = 10000], the total of [test_input_output_split]. *)
Lemma split_tokens_exact_witness :
  0 <= 10000 < 2 ^ 50 /\ _split_tokens 10000 = Ok (3000, 7000).
Proof.
  assert (Hr : 0 <= 10000 < 2 ^ 50) by (split; [ lia | reflexivity ]).
  split; [ exact Hr | exact (proj2 (split_tokens_exact 10000) Hr) ].
Defined.

(** C7 at a step that declares provider ["ollama"] and model
    ["gpt-4o-mini"], estimated with the caller's provider ["openai"] and
    model ["gpt-4o"]: the provider is overridden, the model is not. *)
Lemma estimate_workflow_provider_model_witness :
  exists est e,
    estimate_workflow (py := ref_builtins) sample_providers
      (sample_workflow (Some 0)
         [ sample_llm_step "s1" "ollama" "gpt-4o-mini" 60000 ])
      (Some "openai") (Some "gpt-4o") = Ok est
    /\ WfEst.steps est = [ e ]
    /\ WfEst.provider est = "openai"
    /\ WfEst.model est = "gpt-4o"
    /\ StepEst.provider e = "openai"
    /\ StepEst.model e = "gpt-4o-mini".
Proof.
  pose (e := StepEst.Build "s1" LLM "openai" "gpt-4o-mini" None 60000 18000
               42000 (S754_finite false 5910974510923776 (-49)) declared).
  pose (est := WfEst.Build "test" 60000
                 (S754_finite false 5910974510923776 (-49)) (Some 0) None
                 [ e ] "openai" "gpt-4o").
  assert (Hrun : estimate_workflow (py := ref_builtins) sample_providers
                   (sample_workflow (Some 0)
                      [ sample_llm_step "s1" "ollama" "gpt-4o-mini" 60000 ])
                   (Some "openai") (Some "gpt-4o") = Ok est)
    by (vm_compute; reflexivity).
  destruct (estimate_workflow_provider_model _ _ _ _ _ Hrun)
    as [ Hprov [ Hmodel Hsteps ] ].
  destruct (Hprov "openai" eq_refl) as [ Hp Hall ].
  exists est, e.
  split; [ exact Hrun | ]. split; [ reflexivity | ].
  split; [ exact Hp | ]. split; [ exact (Hmodel "gpt-4o" eq_refl) | ].
  split.
  - exact (Forall_inv Hall).
  - inversion Hsteps as [ | step e' steps es [ Hm _ ] Hrest ]. exact Hm.
Defined.

(** C8 at the shell step of a workflow and the rule R004. *)
Lemma rule_registry_contents_witness :
  In (Build_RuleEntry "R004" RESILIENCE WARNING "Shell step without timeout"
        check_shell_no_timeout)
     (_RULE_REGISTRY (py := ref_builtins))
  /\ check_shell_no_timeout (sample_workflow None [ sample_step "run" SHELL ])
     = Ok [ Finding.Build "R004" RESILIENCE WARNING (Some "run") ]
  /\ exists step,
       In step (Workflow.steps (sample_workflow None [ sample_step "run" SHELL ]))
       /\ Some "run" = Some (Step.id step).
Proof.
  assert (Hin : In (Build_RuleEntry "R004" RESILIENCE WARNING
                      "Shell step without timeout" check_shell_no_timeout)
                   (_RULE_REGISTRY (py := ref_builtins)))
    by (do 7 right; left; reflexivity).
  split; [ exact Hin | ]. split; [ reflexivity | ].
  destruct (@rule_registry_contents ref_builtins) as [ _ [ _ Hfind ] ].
  destruct (Hfind (sample_workflow None [ sample_step "run" SHELL ]) _
              [ Finding.Build "R004" RESILIENCE WARNING (Some "run") ]
              (Finding.Build "R004" RESILIENCE WARNING (Some "run"))
              Hin eq_refl (or_introl eq_refl)) as [ _ [ _ [ _ Hstep ] ] ].
  exact Hstep.
Defined.

(** C9 at a shell step estimated with a provider and a model that the
    (empty) pricing table does not know. *)
Lemma estimate_step_non_llm_witness :
  Step.step_type (sample_step "run" SHELL) <> LLM
  /\ exists est,
       estimate_step (py := ref_builtins) [] (sample_step "run" SHELL)
         "nope" "nope" = Ok est
       /\ StepEst.cost_usd est = float_zero.
Proof.
  assert (Hne : Step.step_type (sample_step "run" SHELL) <> LLM)
    by discriminate.
  split; [ exact Hne | ].
  destruct (@estimate_step_non_llm ref_builtins [] (sample_step "run" SHELL)
              "nope" "nope" Hne) as [ _ [ _ [ _ Hret ] ] ].
  apply Hret. split; [ discriminate | reflexivity ].
Defined.

(** C10 at a workflow with [token_budget = 0] and one step of 60000
    tokens. *)
Lemma zero_budget_is_unbudgeted_witness :
  Workflow.token_budget
    (sample_workflow (Some 0) [ sample_llm_step "s1" "openai" "gpt-4o" 60000 ])
  = Some 0
  /\ check_step_budget_hog
       (sample_workflow (Some 0) [ sample_llm_step "s1" "openai" "gpt-4o" 60000 ])
     = Ok []
  /\ check_total_over_budget
       (sample_workflow (Some 0) [ sample_llm_step "s1" "openai" "gpt-4o" 60000 ])
     = Ok []
  /\ exists est,
       estimate_workflow (py := ref_builtins) sample_providers
         (sample_workflow (Some 0)
            [ sample_llm_step "s1" "openai" "gpt-4o" 60000 ])
         None None = Ok est
       /\ WfEst.budget_utilization est = None.
Proof.
  destruct (@zero_budget_is_unbudgeted ref_builtins sample_providers
              (sample_workflow (Some 0)
                 [ sample_llm_step "s1" "openai" "gpt-4o" 60000 ])
              None None eq_refl) as [ _ [ Hhog [ Hover Hest ] ] ].
  split; [ reflexivity | ]. split; [ exact Hhog | ]. split; [ exact Hover | ].
  destruct (estimate_workflow (py := ref_builtins) sample_providers
              (sample_workflow (Some 0)
                 [ sample_llm_step "s1" "openai" "gpt-4o" 60000 ])
              None None) as [ est | err ] eqn:Hrun;
    [ | vm_compute in Hrun; discriminate ].
  exists est. split; [ reflexivity | ]. apply (Hest est). reflexivity.
Defined.


(** ** Instances of the further properties on concrete inputs *)

(** X2 at the sample pricing file: two of its three provider entries are
    mappings, and they are the keys of the table. *)
Lemma loaded_table_is_labelled_witness :
  exists table,
    parse_providers (py := ref_builtins) (fp := ref_float_parsing)
      sample_pricing_yaml = Ok table
    /\ dict_keys table = [ "openai"; "ollama" ]
    /\ (exists top providers_raw,
          sample_pricing_yaml = YMap top
          /\ get_or top "providers" (YMap []) = YMap providers_raw
          /\ forall k, In k (dict_keys table)
                       <-> exists d, In (k, YMap d) providers_raw)
    /\ forall provider model pricing,
         get_model_pricing table provider model = Ok pricing ->
         Pricing.provider pricing = provider
         /\ exists config,
              dict_get provider table = Some config
              /\ Pricing.provider_name config = provider
              /\ Pricing.name pricing
                 = str_or model (Pricing.default_model config).
Proof.
  let v := eval vm_compute in
             (parse_providers (py := ref_builtins) (fp := ref_float_parsing)
                sample_pricing_yaml) in
  lazymatch v with Ok ?table => exists table end.
  split; [ vm_compute; reflexivity | ].
  split; [ reflexivity | ].
  apply (loaded_table_is_labelled (py := ref_builtins)
           (fp := ref_float_parsing) sample_pricing_yaml).
  vm_compute; reflexivity.
Defined.

(** X3 with the sample pricing file as the bundled one and an empty cache. *)
Lemma load_providers_cache_witness :
  exists table,
    load_providers (py := ref_builtins) (fp := ref_float_parsing)
      (fun _ => Some sample_pricing_yaml) None None
    = (Ok table, Some table)
    /\ (forall files',
          load_providers (py := ref_builtins) (fp := ref_float_parsing)
            files' None (Some table)
          = (Ok table, Some table))
    /\ (forall files' path,
          load_providers (py := ref_builtins) (fp := ref_float_parsing)
            files' (Some path) (Some table)
          = (fst (load_providers (py := ref_builtins)
                    (fp := ref_float_parsing) files' (Some path) None),
             Some table))
    /\ (forall files' path e c,
          load_providers (py := ref_builtins) (fp := ref_float_parsing)
            files' path (Some table) = (Raise e, c) ->
          c = Some table)
    /\ (forall files',
          fst (load_providers (py := ref_builtins) (fp := ref_float_parsing)
                 files' None (reset_cache (Some table)))
          = match files' None with
            | Some raw =>
                parse_providers (py := ref_builtins)
                  (fp := ref_float_parsing) raw
            | None => Raise PricingError
            end).
Proof.
  let v := eval vm_compute in
             (parse_providers (py := ref_builtins) (fp := ref_float_parsing)
                sample_pricing_yaml) in
  lazymatch v with Ok ?table => exists table end.
  match goal with
  | |- ?run = (Ok ?table, ?c) /\ _ =>
      assert (Hrun : run = (Ok table, c)) by (vm_compute; reflexivity)
  end.
  split; [ exact Hrun | ].
  destruct (load_providers_cache (py := ref_builtins)
              (fp := ref_float_parsing) _ _ _ _ Hrun)
    as [ _ Hrest ].
  exact Hrest.
Defined.

(** X25 at a file whose [providers] entry is a string. *)
Lemma parse_providers_errors_witness :
  parse_providers (py := ref_builtins) (fp := ref_float_parsing)
    (YMap [ ("providers", YStr "none") ]) = Raise PricingError
  /\ (PricingError = PricingError
      <-> exists top v,
            YMap [ ("providers", YStr "none") ] = YMap top
            /\ dict_get "providers" top = Some v
            /\ forall d, v <> YMap d)
  /\ ((forall top, YMap [ ("providers", YStr "none") ] <> YMap top) ->
      PricingError = AttributeError)
  /\ (PricingError = PricingError \/ PricingError = AttributeError
      \/ PricingError = TypeError \/ PricingError = ValueError
      \/ PricingError = OverflowError).
Proof.
  split; [ reflexivity | ].
  apply (parse_providers_errors (py := ref_builtins)
           (fp := ref_float_parsing)).
  reflexivity.
Defined.

(** X4 at the sample table and pipeline, over every provider: the
    estimates come in the order [anthropic], [ollama], [openai]. *)
Lemma compare_providers_estimates_witness :
  exists r,
    compare_providers (py := ref_builtins) sample_providers
      (sample_pipeline None) None = Ok r
    /\ map WfEst.provider (Compare.estimates r)
       = [ "anthropic"; "ollama"; "openai" ]
    /\ Compare.workflow_name r = Workflow.name (sample_pipeline None)
    /\ Forall2
         (fun p e =>
            estimate_workflow (py := ref_builtins) sample_providers
              (sample_pipeline None) (Some p) None = Ok e
            /\ WfEst.provider e = p)
         (list_providers sample_providers) (Compare.estimates r)
    /\ (@None (list string) = None ->
        Sorted (fun a b => String.leb a b = true)
               (map WfEst.provider (Compare.estimates r)))
    /\ (list_providers sample_providers = [] ->
        Compare.estimates r = []
        /\ Compare.cheapest r = ""
        /\ Compare.most_expensive r = ""
        /\ Compare.savings_pct r = float_zero)
    /\ (list_providers sample_providers <> [] ->
        In (Compare.cheapest r) (list_providers sample_providers)
        /\ In (Compare.most_expensive r) (list_providers sample_providers)).
Proof.
  let v := eval vm_compute in
             (compare_providers (py := ref_builtins) sample_providers
                (sample_pipeline None) None) in
  lazymatch v with Ok ?r => exists r end.
  split; [ vm_compute; reflexivity | ].
  split; [ reflexivity | ].
  apply (compare_providers_estimates (py := ref_builtins) sample_providers
           (sample_pipeline None) None).
  vm_compute; reflexivity.
Defined.

(** X5 at the same comparison: [ollama] is the cheapest, and of the two
    providers that tie for the highest cost the first, [anthropic], is the
    most expensive. *)
Lemma compare_providers_extremes_witness :
  exists r,
    compare_providers (py := ref_builtins) sample_providers
      (sample_pipeline None) None = Ok r
    /\ Compare.estimates r <> []
    /\ Compare.cheapest r = "ollama"
    /\ Compare.most_expensive r = "anthropic"
    /\ exists c m before_c after_c before_m after_m,
         Compare.estimates r = before_c ++ c :: after_c
         /\ WfEst.provider c = Compare.cheapest r
         /\ (forall e, In e (Compare.estimates r) ->
               SFltb (WfEst.total_cost_usd e) (WfEst.total_cost_usd c) = false)
         /\ (forall e, In e before_c -> WfEst.total_cost_usd e <> S754_nan ->
               SFltb (WfEst.total_cost_usd c) (WfEst.total_cost_usd e) = true)
         /\ Compare.estimates r = before_m ++ m :: after_m
         /\ WfEst.provider m = Compare.most_expensive r
         /\ (forall e, In e (Compare.estimates r) ->
               SFltb (WfEst.total_cost_usd m) (WfEst.total_cost_usd e) = false)
         /\ (forall e, In e before_m -> WfEst.total_cost_usd e <> S754_nan ->
               SFltb (WfEst.total_cost_usd e) (WfEst.total_cost_usd m) = true)
         /\ Compare.savings_pct r
            = if float_gt_int (WfEst.total_cost_usd m) 0
              then round_ndigits (Builtins := ref_builtins)
                     (fmul (fsub float_one
                              (fdiv (WfEst.total_cost_usd c)
                                    (WfEst.total_cost_usd m)))
                           float_hundred) 1
              else float_zero.
Proof.
  let v := eval vm_compute in
             (compare_providers (py := ref_builtins) sample_providers
                (sample_pipeline None) None) in
  lazymatch v with Ok ?r => exists r end.
  split; [ vm_compute; reflexivity | ].
  split; [ discriminate | ].
  split; [ reflexivity | ].
  split; [ reflexivity | ].
  apply (compare_providers_extremes (py := ref_builtins) sample_providers
           (sample_pipeline None) None);
    [ vm_compute; reflexivity | discriminate ].
Defined.

(** X7 at the sample pipeline with a budget of 4000 tokens, priced at
    [openai]. *)
Lemma estimate_workflow_steps_witness :
  exists est,
    estimate_workflow (py := ref_builtins) sample_providers
      (sample_pipeline (Some 4000)) (Some "openai") None = Ok est
    /\ WfEst.workflow_name est = Workflow.name (sample_pipeline (Some 4000))
    /\ WfEst.budget_declared est
       = Workflow.token_budget (sample_pipeline (Some 4000))
    /\ Forall2
         (fun step e =>
            StepEst.step_id e = Step.id step
            /\ StepEst.step_type e = Step.step_type step
            /\ StepEst.role e = Step.role step
            /\ StepEst.estimated_tokens e = fst (resolve_with_nested step)
            /\ StepEst.source e = snd (resolve_with_nested step)
            /\ StepEst.input_tokens e + StepEst.output_tokens e
               = StepEst.estimated_tokens e
            /\ (Step.step_type step <> LLM -> StepEst.cost_usd e = float_zero))
         (Workflow.steps (sample_pipeline (Some 4000))) (WfEst.steps est)
    /\ WfEst.total_tokens est
       = sum_ints (map (fun step => fst (resolve_with_nested step))
                       (Workflow.steps (sample_pipeline (Some 4000)))).
Proof.
  let v := eval vm_compute in
             (estimate_workflow (py := ref_builtins) sample_providers
                (sample_pipeline (Some 4000)) (Some "openai") None) in
  lazymatch v with Ok ?est => exists est end.
  split; [ vm_compute; reflexivity | ].
  apply (estimate_workflow_steps (py := ref_builtins) sample_providers
           (sample_pipeline (Some 4000)) (Some "openai") None).
  vm_compute; reflexivity.
Defined.

(** X8 at the sample pipeline priced at [anthropic] and at [ollama]. *)
Lemma estimate_tokens_independent_of_pricing_witness :
  exists est est',
    estimate_workflow (py := ref_builtins) sample_providers
      (sample_pipeline (Some 4000)) (Some "anthropic") None = Ok est
    /\ estimate_workflow (py := ref_builtins) sample_providers
         (sample_pipeline (Some 4000)) (Some "ollama") None = Ok est'
    /\ WfEst.total_cost_usd est <> WfEst.total_cost_usd est'
    /\ WfEst.total_tokens est = WfEst.total_tokens est'
    /\ WfEst.budget_utilization est = WfEst.budget_utilization est'
    /\ map token_view (WfEst.steps est) = map token_view (WfEst.steps est').
Proof.
  let v := eval vm_compute in
             (estimate_workflow (py := ref_builtins) sample_providers
                (sample_pipeline (Some 4000)) (Some "anthropic") None) in
  lazymatch v with Ok ?est => exists est end.
  let v := eval vm_compute in
             (estimate_workflow (py := ref_builtins) sample_providers
                (sample_pipeline (Some 4000)) (Some "ollama") None) in
  lazymatch v with Ok ?est => exists est end.
  split; [ vm_compute; reflexivity | ].
  split; [ vm_compute; reflexivity | ].
  split; [ discriminate | ].
  apply (estimate_tokens_independent_of_pricing (py := ref_builtins)
           sample_providers sample_providers (sample_pipeline (Some 4000))
           (Some "anthropic") (Some "ollama") None None);
    vm_compute; reflexivity.
Defined.

(** X10 at the sample pipeline with a budget of 4000 tokens. *)
Lemma budget_utilization_iff_positive_budget_witness :
  exists est,
    estimate_workflow (py := ref_builtins) sample_providers
      (sample_pipeline (Some 4000)) None None = Ok est
    /\ exists q,
         truediv (WfEst.total_tokens est) 4000 = Ok q
         /\ WfEst.budget_utilization est
            = Some (round_ndigits (Builtins := ref_builtins)
                      (fmul q float_hundred) 1).
Proof.
  let v := eval vm_compute in
             (estimate_workflow (py := ref_builtins) sample_providers
                (sample_pipeline (Some 4000)) None None) in
  lazymatch v with Ok ?est => exists est end.
  split; [ vm_compute; reflexivity | ].
  refine (budget_utilization_iff_positive_budget (py := ref_builtins)
            sample_providers (sample_pipeline (Some 4000)) None None _ _).
  vm_compute; reflexivity.
Defined.

(** X11 at the sample pipeline: every LLM step is priced, so an estimate
    is returned. *)
Lemma estimate_workflow_returns_witness :
  Forall (fun step => 0 <= fst (resolve_with_nested step))
         (Workflow.steps (sample_pipeline None))
  /\ sum_ints (map (fun step => fst (resolve_with_nested step))
                   (Workflow.steps (sample_pipeline None))) < 2 ^ 50
  /\ Forall (fun step =>
               Step.step_type step = LLM ->
               exists pricing,
                 get_model_pricing sample_providers
                   (step_provider_of (sample_pipeline None) None step)
                   (Some (step_model_of sample_providers
                            (sample_pipeline None) None None step))
                 = Ok pricing)
            (Workflow.steps (sample_pipeline None))
  /\ exists est,
       estimate_workflow (py := ref_builtins) sample_providers
         (sample_pipeline None) None None = Ok est.
Proof.
  assert (Hnonneg : Forall (fun step => 0 <= fst (resolve_with_nested step))
                           (Workflow.steps (sample_pipeline None)))
    by (repeat constructor; vm_compute; discriminate).
  assert (Hsum : sum_ints (map (fun step => fst (resolve_with_nested step))
                               (Workflow.steps (sample_pipeline None)))
                 < 2 ^ 50)
    by (vm_compute; reflexivity).
  assert (Hpriced : Forall (fun step =>
                              Step.step_type step = LLM ->
                              exists pricing,
                                get_model_pricing sample_providers
                                  (step_provider_of (sample_pipeline None)
                                     None step)
                                  (Some (step_model_of sample_providers
                                           (sample_pipeline None) None None
                                           step))
                                = Ok pricing)
                           (Workflow.steps (sample_pipeline None))).
  { repeat constructor.
    - intros _. eexists. vm_compute. reflexivity.
    - intros Hllm. discriminate Hllm. }
  split; [ exact Hnonneg | ]. split; [ exact Hsum | ].
  split; [ exact Hpriced | ].
  exact (proj1 (estimate_workflow_returns (py := ref_builtins)
                  sample_providers (sample_pipeline None) None None
                  Hnonneg Hsum)
               Hpriced).
Defined.

(** X13 at a workflow over its budget, filtered to the warnings of the
    budget rules. *)
Lemma run_lint_filters_witness :
  exists full,
    run_lint (py := ref_builtins) sample_over_budget None None = Ok full
    /\ Report.score full = 66
    /\ exists part,
         run_lint (py := ref_builtins) sample_over_budget (Some BUDGET)
           (Some WARNING) = Ok part
         /\ Report.findings part
            = filter (fun f =>
                        RuleCategory_eqb (Finding.category f) BUDGET
                        && Severity_eqb (Finding.severity f) WARNING)
                     (Report.findings full)
         /\ Report.score full <= Report.score part.
Proof.
  let v := eval vm_compute in
             (run_lint (py := ref_builtins) sample_over_budget None None) in
  lazymatch v with Ok ?full => exists full end.
  split; [ vm_compute; reflexivity | ].
  split; [ reflexivity | ].
  apply (run_lint_filters (py := ref_builtins) sample_over_budget _
           (Some BUDGET) (Some WARNING)).
  vm_compute; reflexivity.
Defined.

(** X26 at the same workflow: one error, four warnings and two infos give
    100 - 10 - 20 - 4 = 66. *)
Lemma run_lint_score_from_counts_witness :
  exists report,
    run_lint (py := ref_builtins) sample_over_budget None None = Ok report
    /\ Report.score report
       = Z.max 0 (100 - 10 * Report.error_count report
                      - 5 * Report.warning_count report
                      - 2 * Report.info_count report)
    /\ Report.error_count report + Report.warning_count report
       + Report.info_count report
       = Z.of_nat (List.length (Report.findings report))
    /\ 0 <= Report.score report <= 100
    /\ Report.workflow_name report = Workflow.name sample_over_budget.
Proof.
  let v := eval vm_compute in
             (run_lint (py := ref_builtins) sample_over_budget None None) in
  lazymatch v with Ok ?report => exists report end.
  split; [ vm_compute; reflexivity | ].
  apply (run_lint_score_from_counts (py := ref_builtins) sample_over_budget
           None None).
  vm_compute; reflexivity.
Defined.


(** X17 at the CrewAI fixture read from [crew.yaml]. *)
Lemma parse_workflow_format_witness :
  exists wf,
    parse_workflow (py := ref_builtins) CREWAI_SAMPLE "crew.yaml" = Ok wf
    /\ Workflow.format wf = CREWAI
    /\ detect_format (py := ref_builtins) CREWAI_SAMPLE
       = Ok (Workflow.format wf)
    /\ Workflow.source_path wf = Some "crew.yaml"
    /\ match Workflow.format wf with
       | GORGON => parse_gorgon (py := ref_builtins) CREWAI_SAMPLE
                     (Some "crew.yaml")
       | CREWAI => parse_crewai (py := ref_builtins) CREWAI_SAMPLE
                     (Some "crew.yaml")
       | LANGCHAIN => parse_langchain (py := ref_builtins) CREWAI_SAMPLE
                        (Some "crew.yaml")
       | GENERIC => parse_generic (py := ref_builtins) CREWAI_SAMPLE
                      (Some "crew.yaml")
       end = Ok wf
    /\ (Workflow.format wf <> GORGON ->
        Workflow.version wf = "1.0"
        /\ Workflow.description wf = ""
        /\ Workflow.timeout_seconds wf = None).
Proof.
  let v := eval vm_compute in
             (parse_workflow (py := ref_builtins) CREWAI_SAMPLE "crew.yaml") in
  lazymatch v with Ok ?wf => exists wf end.
  split; [ vm_compute; reflexivity | ].
  split; [ reflexivity | ].
  apply (parse_workflow_format (py := ref_builtins) CREWAI_SAMPLE "crew.yaml").
  vm_compute; reflexivity.
Defined.

(** X18 at a raw step of type [claude_code]. *)
Lemma parse_step_provider_witness :
  exists step,
    _parse_step (py := ref_builtins) 3 sample_raw_llm_step = Ok step
    /\ Step.provider step = Some "anthropic"
    /\ let raw_type :=
         py_str (py := ref_builtins)
           (get_or sample_raw_llm_step "type" (YStr "shell")) in
       (raw_type = "claude_code" ->
        Step.step_type step = LLM /\ Step.provider step = Some "anthropic")
       /\ (raw_type = "openai" ->
           Step.step_type step = LLM /\ Step.provider step = Some "openai")
       /\ (raw_type <> "claude_code" -> raw_type <> "openai" ->
           Step.step_type step <> LLM
           /\ Step.provider step = None
           /\ Step.model step = None)
       /\ (~ In raw_type _GORGON_STEP_TYPES -> Step.step_type step = SHELL)
       /\ (Step.step_type step = LLM <-> Step.provider step <> None).
Proof.
  let v := eval vm_compute in
             (_parse_step (py := ref_builtins) 3 sample_raw_llm_step) in
  lazymatch v with Ok ?step => exists step end.
  split; [ vm_compute; reflexivity | ].
  split; [ reflexivity | ].
  apply (parse_step_provider (py := ref_builtins) 3 sample_raw_llm_step).
  vm_compute; reflexivity.
Defined.

(** X19 at the CrewAI fixture: each of its four steps is an LLM step and
    gets an R001 warning. *)
Lemma agent_workflows_resilience_witness :
  exists wf,
    parse_crewai (py := ref_builtins) CREWAI_SAMPLE None = Ok wf
    /\ List.length (Workflow.steps wf) = 4%nat
    /\ Forall (fun s => Step.on_failure s = None
                        /\ Step.timeout_seconds s = None
                        /\ Step.max_retries s = 0
                        /\ Step.has_fallback s = false)
              (Workflow.steps wf)
    /\ check_missing_on_failure wf
       = Ok (map (fun s => Finding.Build "R001" RESILIENCE WARNING
                             (Some (Step.id s)))
                 (filter (fun s => StepType_eqb (Step.step_type s) LLM)
                         (Workflow.steps wf)))
    /\ check_abort_no_fallback wf = Ok []
    /\ check_retry_no_max wf = Ok []
    /\ check_shell_no_timeout wf
       = Ok (map (fun s => Finding.Build "R004" RESILIENCE WARNING
                             (Some (Step.id s)))
                 (filter (fun s => StepType_eqb (Step.step_type s) SHELL)
                         (Workflow.steps wf)))
    /\ (parse_crewai (py := ref_builtins) CREWAI_SAMPLE None = Ok wf ->
        Forall (fun s => Step.step_type s = LLM) (Workflow.steps wf)).
Proof.
  let v := eval vm_compute in
             (parse_crewai (py := ref_builtins) CREWAI_SAMPLE None) in
  lazymatch v with Ok ?wf => exists wf end.
  split; [ vm_compute; reflexivity | ].
  split; [ reflexivity | ].
  apply (agent_workflows_resilience (py := ref_builtins) CREWAI_SAMPLE None).
  left. vm_compute; reflexivity.
Defined.

(** X20 at the LangChain fixture: its one edge makes [analyze] depend on
    [fetch]. *)
Lemma parse_langchain_dependencies_witness :
  exists wf,
    parse_langchain (py := ref_builtins) LANGCHAIN_SAMPLE None = Ok wf
    /\ map Step.depends_on (Workflow.steps wf) = [ []; [ "fetch" ] ]
    /\ exists edges,
         py_iter (get_or LANGCHAIN_SAMPLE "edges" (YList [])) = Ok edges
         /\ forall s,
              In s (Workflow.steps wf) ->
              NoDup (Step.depends_on s)
              /\ forall source,
                   In source (Step.depends_on s)
                   <-> In source (map Step.id (Workflow.steps wf))
                       /\ exists e,
                            In (YMap e) edges
                            /\ edge_source (py := ref_builtins) e = source
                            /\ edge_target (py := ref_builtins) e
                               = Step.id s.
Proof.
  let v := eval vm_compute in
             (parse_langchain (py := ref_builtins) LANGCHAIN_SAMPLE None) in
  lazymatch v with Ok ?wf => exists wf end.
  split; [ vm_compute; reflexivity | ].
  split; [ reflexivity | ].
  apply (parse_langchain_dependencies (py := ref_builtins) LANGCHAIN_SAMPLE
           None).
  vm_compute; reflexivity.
Defined.

(** X21 at a mapping with no [agents]: adding a [tasks] list to it changes
    nothing, and the workflow has no steps. *)
Lemma parse_generic_ignores_tasks_witness :
  (forall k, k <> "tasks" -> k <> "pipeline" ->
             dict_get k sample_plain_with_tasks = dict_get k sample_plain)
  /\ dict_get "agents" sample_plain = None
  /\ parse_generic (py := ref_builtins) sample_plain_with_tasks None
     = parse_generic (py := ref_builtins) sample_plain None
  /\ exists wf,
       parse_generic (py := ref_builtins) sample_plain_with_tasks None = Ok wf
       /\ Workflow.steps wf = [].
Proof.
  assert (Hsame : forall k, k <> "tasks" -> k <> "pipeline" ->
                    dict_get k sample_plain_with_tasks
                    = dict_get k sample_plain).
  { intros k Htasks _. unfold sample_plain_with_tasks, sample_plain.
    cbn [dict_get].
    destruct (String.eqb k "name"); [ reflexivity | ].
    destruct (String.eqb_spec k "tasks") as [ Heq | _ ];
      [ elim (Htasks Heq) | reflexivity ]. }
  split; [ exact Hsame | ].
  split; [ reflexivity | ].
  split.
  - apply (parse_generic_ignores_tasks (py := ref_builtins) sample_plain
             sample_plain_with_tasks None Hsame).
    exact I.
  - eexists. split; [ vm_compute; reflexivity | reflexivity ].
Defined.


(** ** The test suite's examples *)

(** [tests/test_parsers.py], [TestDetectFormat]. *)
Example test_gorgon_detected :
  detect_format (py := ref_builtins)
    [ ("steps", YList [ YMap [ ("id", YStr "s1"); ("type", YStr "claude_code") ] ]) ]
  = Ok GORGON.
Proof. vm_compute. reflexivity. Qed.

Example test_crewai_detected :
  detect_format (py := ref_builtins)
    [ ("agents", YList [ YMap [ ("role", YStr "x") ] ]);
      ("tasks", YList [ YMap [ ("desc", YStr "y") ] ]) ]
  = Ok CREWAI.
Proof. vm_compute. reflexivity. Qed.

Example test_langchain_nodes_detected :
  detect_format (py := ref_builtins)
    [ ("nodes", YList [ YMap [ ("id", YStr "n1") ] ]); ("edges", YList []) ]
  = Ok LANGCHAIN.
Proof. vm_compute. reflexivity. Qed.

Example test_langchain_metadata_detected :
  detect_format (py := ref_builtins)
    [ ("steps", YList []);
      ("metadata", YMap [ ("framework", YStr "langgraph") ]) ]
  = Ok LANGCHAIN.
Proof. vm_compute. reflexivity. Qed.

Example test_generic_fallback :
  detect_format (py := ref_builtins)
    [ ("name", YStr "test");
      ("steps", YList [ YMap [ ("id", YStr "s1"); ("type", YStr "custom") ] ]) ]
  = Ok GENERIC.
Proof. vm_compute. reflexivity. Qed.

Example test_empty_steps_is_generic :
  detect_format (py := ref_builtins)
    [ ("name", YStr "test"); ("steps", YList []) ]
  = Ok GENERIC.
Proof. vm_compute. reflexivity. Qed.

(** [TestParseGorgon] on the feature-build fixture. *)
Example test_parses_feature_build :
  exists wf,
    parse_gorgon (py := ref_builtins) GORGON_FEATURE_BUILD None = Ok wf
    /\ Workflow.name wf = "Feature Build"
    /\ Workflow.token_budget wf = Some 150000
    /\ Workflow.timeout_seconds wf = Some 3600
    /\ map Step.id (Workflow.steps wf)
       = [ "plan"; "build"; "checkpoint_build"; "test"; "run_tests"; "review" ]
    /\ map Step.step_type (Workflow.steps wf)
       = [ LLM; LLM; CHECKPOINT; LLM; SHELL; LLM ]
    /\ map Step.provider (Workflow.steps wf)
       = [ Some "anthropic"; Some "anthropic"; None; Some "anthropic"; None;
           Some "anthropic" ]
    /\ map Step.role (Workflow.steps wf)
       = [ Some "planner"; Some "builder"; None; Some "tester"; None;
           Some "reviewer" ]
    /\ map Step.estimated_tokens (Workflow.steps wf)
       = [ Some 5000; Some 20000; None; Some 10000; None; Some 5000 ]
    /\ map Step.on_failure (Workflow.steps wf)
       = [ Some "abort"; Some "retry"; None; Some "retry"; Some "abort";
           Some "skip" ]
    /\ map Step.max_retries (Workflow.steps wf) = [ 0; 2; 0; 2; 0; 0 ]
    /\ map Step.has_condition (Workflow.steps wf)
       = [ false; false; false; false; false; true ]
    /\ Workflow.outputs wf = [ "plan"; "code"; "review" ].
Proof. eexists. split; [ vm_compute; reflexivity | repeat split ]. Qed.

(** [tests/test_estimator.py], [test_feature_build], and the utilization of
    the specification's scenario A: 40000 tokens of a budget of 150000 are
    26.7 percent (the float nearest to 26.7). *)
Example test_feature_build_estimate :
  exists wf est,
    parse_gorgon (py := ref_builtins) GORGON_FEATURE_BUILD None = Ok wf
    /\ estimate_workflow (py := ref_builtins) sample_providers wf None None
       = Ok est
    /\ WfEst.total_tokens est = 40000
    /\ WfEst.budget_declared est = Some 150000
    /\ WfEst.budget_utilization est
       = Some (S754_finite false 7515381878174515 (-48))
    /\ WfEst.provider est = "anthropic"
    /\ map StepEst.estimated_tokens (WfEst.steps est)
       = [ 5000; 20000; 0; 10000; 0; 5000 ]
    /\ map StepEst.input_tokens (WfEst.steps est)
       = [ 1500; 6000; 0; 3000; 0; 1500 ].
Proof.
  eexists. eexists. split; [ vm_compute; reflexivity | ].
  split; [ vm_compute; reflexivity | repeat split ].
Qed.

(** [tests/test_rules.py], [TestR005MissingCheckpoint] (scenario E). *)
Example test_many_llm_steps_flagged :
  check_missing_checkpoint
    (sample_workflow None
       [ sample_tokens_step "s1" LLM (Some 15000);
         sample_tokens_step "s2" LLM (Some 15000);
         sample_tokens_step "s3" LLM (Some 15000) ])
  = Ok [ Finding.Build "R005" RESILIENCE INFO None ].
Proof. reflexivity. Qed.

Example test_checkpoint_breaks_chain :
  check_missing_checkpoint
    (sample_workflow None
       [ sample_tokens_step "s1" LLM (Some 15000);
         sample_tokens_step "cp" CHECKPOINT None;
         sample_tokens_step "s2" LLM (Some 15000);
         sample_tokens_step "s3" LLM (Some 15000) ])
  = Ok [].
Proof. reflexivity. Qed.

(** Scenario D on the shell fixture: the interpolated command is flagged,
    the plain one is not. *)
Example test_interpolation_flagged :
  exists wf,
    parse_gorgon (py := ref_builtins) GORGON_SHELL_NO_TIMEOUT None = Ok wf
    /\ check_shell_injection (py := ref_builtins) wf
       = Ok [ Finding.Build "S001" SECURITY ERROR (Some "deploy") ].
Proof.
  eexists. split; [ vm_compute; reflexivity | vm_compute; reflexivity ].
Qed.

(** The agent/task fixture: ids from the role and from the description, one
    dependency per task. *)
Example test_parses_crewai :
  exists wf,
    parse_crewai (py := ref_builtins) CREWAI_SAMPLE None = Ok wf
    /\ map Step.id (Workflow.steps wf)
       = [ "researcher"; "writer"; "Research topic"; "Write summary" ]
    /\ map Step.depends_on (Workflow.steps wf)
       = [ []; []; [ "researcher" ]; [ "writer" ] ]
    /\ map Step.model (Workflow.steps wf)
       = [ Some "gpt-4o"; Some "gpt-4o"; None; None ].
Proof. eexists. split; [ vm_compute; reflexivity | repeat split ]. Qed.

(** The node/edge fixture: the edge makes [analyze] depend on [fetch]. *)
Example test_parses_langchain :
  exists wf,
    parse_langchain (py := ref_builtins) LANGCHAIN_SAMPLE None = Ok wf
    /\ map Step.id (Workflow.steps wf) = [ "fetch"; "analyze" ]
    /\ map Step.step_type (Workflow.steps wf) = [ LLM; LLM ]
    /\ map Step.depends_on (Workflow.steps wf) = [ []; [ "fetch" ] ].
Proof. eexists. split; [ vm_compute; reflexivity | repeat split ]. Qed.
